(** * Supply Chain Strategy Simulator: the round engine of [strategy_game.py]

    A shallow embedding of the game logic of [strategy_game.py] and the
    properties of one resolved round, of the termination rules and of whole
    sessions.

    Python integers are [Z].  Python floats are IEEE 754 binary64 numbers and
    are modelled exactly, with the executable specification of the Standard
    Library ([SpecFloat]): rounding matters here, [int(90 * 0.7)] is [62].
    The Streamlit session state is a record threaded through a small
    state-and-exception monad, so that a raised Python exception leaves the
    mutations done before it in place, as it does in the script. *)

From Stdlib Require Import ZArith List String Bool Lia.
From Stdlib Require Import QArith Qabs.
From Stdlib Require Import Floats.SpecFloat DecimalString.
Import ListNotations.
Local Open Scope Z_scope.

(** ** Python exceptions and fallible results *)

Inductive exn : Type :=
| KeyError (key : string)
| IndexError
| ValueError
| OverflowError
| ZeroDivisionError.

Inductive outcome (A : Type) : Type :=
| Return (a : A)
| Raise (e : exn).

Arguments Return {A} a.
Arguments Raise {A} e.

Definition obind {A B : Type} (c : outcome A) (k : A -> outcome B) : outcome B :=
  match c with
  | Return a => k a
  | Raise e => Raise e
  end.

Notation "'let?' x ':=' c 'in' k" := (obind c (fun x => k))
  (at level 10, x name, c at level 100, k at level 200).

(** ** Python floats (IEEE 754 binary64, round to nearest even) *)

Module PyFloat.

Definition prec : Z := 53.
Definition emax : Z := 1024.

Definition float : Type := spec_float.

(** The double nearest to the integer [n] (infinite when out of range). *)
Definition nearest (n : Z) : float := binary_normalize prec emax n 0 false.

(** [float(n)]: raises [OverflowError] when [n] is too large for a double. *)
Definition of_int (n : Z) : outcome float :=
  match nearest n with
  | S754_infinity _ => Raise OverflowError
  | f => Return f
  end.

(** The decimal literal [num/den], such as [0.7] for [literal 7 10]: the
    double nearest to the quotient, which is what the correctly rounded
    division of the two exactly represented integers gives. *)
Definition literal (num den : Z) : float :=
  SFdiv prec emax (nearest num) (nearest den).

Definition mul (x y : float) : float := SFmul prec emax x y.
Definition add (x y : float) : float := SFadd prec emax x y.
Definition sub (x y : float) : float := SFsub prec emax x y.
Definition ltb (x y : float) : bool := SFltb x y.
Definition leb (x y : float) : bool := SFleb x y.

Definition isfinite (x : float) : bool :=
  match x with
  | S754_zero _ | S754_finite _ _ _ => true
  | S754_infinity _ | S754_nan => false
  end.

(** [int(x)]: truncation toward zero; [Z.shiftl] by a negative amount is a
    right shift, which on a positive mantissa drops the fractional bits. *)
Definition to_int (x : float) : outcome Z :=
  match x with
  | S754_zero _ => Return 0
  | S754_finite s m e => Return (cond_Zopp s (Z.shiftl (Zpos m) e))
  | S754_infinity _ => Raise OverflowError
  | S754_nan => Raise ValueError
  end.

(** [n * x] and [x * n] with [n] an [int]: the integer is converted first. *)
Definition int_mul (n : Z) (x : float) : outcome float :=
  let? fn := of_int n in Return (mul fn x).

Definition mul_int (x : float) (n : Z) : outcome float :=
  let? fn := of_int n in Return (mul x fn).

(** [n - x] with [n] an [int]. *)
Definition int_sub (n : Z) (x : float) : outcome float :=
  let? fn := of_int n in Return (sub fn x).

(** [a / b] on two [int]s (true division): the correctly rounded quotient
    of the exact integers, whatever their size. *)
Definition truediv (a b : Z) : outcome float :=
  match b with
  | Z0 => Raise ZeroDivisionError
  | _ =>
    match a with
    | Z0 => Return (S754_zero (b <? 0))
    | _ =>
      let '(q, e, l) := SFdiv_core_binary prec emax (Z.abs a) 0 (Z.abs b) 0 in
      match binary_round_aux prec emax (xorb (a <? 0) (b <? 0)) q e l with
      | S754_infinity _ => Raise OverflowError
      | f => Return f
      end
    end
  end.

(** The sign bit is clear: [+0.0], a positive number or [+inf]. *)
Definition nonneg (x : float) : bool :=
  match x with
  | S754_zero s | S754_infinity s | S754_finite s _ _ => negb s
  | S754_nan => false
  end.

(** The number a finite float stands for, as a rational: the mantissa times
    [2^e], with the sign ([0] for the zeros; infinities and NaN stand for no
    number and are given [0]). *)
Definition value (x : float) : Q :=
  match x with
  | S754_finite s m e =>
    match e with
    | Zneg p => Qmake (cond_Zopp s (Zpos m)) (2 ^ p)
    | _ => inject_Z (cond_Zopp s (Zpos m) * 2 ^ e)
    end
  | _ => inject_Z 0
  end.

End PyFloat.

Definition float : Type := PyFloat.float.

(** [int(n * x)] for an [int] [n] and a [float] [x]. *)
Definition int_of_product (n : Z) (x : float) : outcome Z :=
  let? p := PyFloat.int_mul n x in PyFloat.to_int p.

(** [str(n)] for an [int]. *)
Definition str (n : Z) : string := NilZero.string_of_int (Z.to_int n).

(** ** Game configuration *)

Definition MAX_ROUNDS : Z := 12.
Definition INITIAL_CASH : Z := 50000.
Definition INITIAL_INVENTORY : Z := 100.
Definition INITIAL_SATISFACTION : Z := 80.
Definition HOLDING_COST_PER_UNIT : Z := 2.
Definition STOCKOUT_PENALTY_PER_UNIT : Z := 30.
Definition SELLING_PRICE_PER_UNIT : Z := 50.
Definition DEMAND_RANGE : Z * Z := (80, 220).
Definition LOW_SATISFACTION_THRESHOLD : Z := 30.
Definition BANKRUPTCY_THRESHOLD : Z := 0.

Module Supplier.
Record t : Type := Build {
  cost : Z;
  yield_weights : list PyFloat.float;
  yield_percentages : list PyFloat.float
}.
End Supplier.

Module Transporter.
Record t : Type := Build {
  cost : Z;
  disruption_chance : float;
  disruption_fee : Z;
  damage_chance : float;
  damage_percentage : float
}.
End Transporter.

(** A dict with string keys, in insertion order. *)
Definition dict (V : Type) : Type := list (string * V).

Fixpoint getitem {V : Type} (d : dict V) (key : string) : outcome V :=
  match d with
  | [] => Raise (KeyError key)
  | (k, v) :: d' => if String.eqb k key then Return v else getitem d' key
  end.

Definition keys {V : Type} (d : dict V) : list string := map fst d.

Definition lit := PyFloat.literal.

Definition Alpha_Goods : string := "Alpha Goods (Reliable & Pricey)".
Definition Beta_Stock : string := "Beta Stock (Standard)".
Definition Gamma_Source : string := "Gamma Source (Cheap & Risky)".
Definition Express_Freight : string := "Express Freight (Fast & Secure)".
Definition Standard_Shipping : string := "Standard Shipping (Balanced)".
Definition Budget_Haul : string := "Budget Haul (Slow & Risky)".

Definition SUPPLIERS : dict Supplier.t :=
  [ (Alpha_Goods,
     Supplier.Build 20 [lit 1 1] [lit 1 1]);
    (Beta_Stock,
     Supplier.Build 15 [lit 9 10; lit 1 10] [lit 1 1; lit 7 10]);
    (Gamma_Source,
     Supplier.Build 10 [lit 6 10; lit 3 10; lit 1 10]
                       [lit 1 1; lit 5 10; lit 2 10]) ].

Definition TRANSPORTERS : dict Transporter.t :=
  [ (Express_Freight,
     Transporter.Build 8 (lit 5 100) 200 (lit 1 100) (lit 5 100));
    (Standard_Shipping,
     Transporter.Build 5 (lit 15 100) 150 (lit 3 100) (lit 1 10));
    (Budget_Haul,
     Transporter.Build 3 (lit 30 100) 100 (lit 5 100) (lit 15 100)) ].

(** ** Session state *)

(** One row of [st.session_state.history]: the dict appended by each round,
    its keys as fields. *)
Module Row.
Record t : Type := Build {
  Round : Z;
  Cash : Z;
  Inventory : Z;
  Satisfaction : Z;
  Demand : Z;
  Procured : Z;
  Received : Z;                 (* "Received (after damage)" *)
  Sold : Z;
  Stockout_Units : Z;
  Sourcing_Cost : Z;
  Transport_Cost : Z;
  Holding_Cost : Z;
  Stockout_Cost : Z;
  Round_Total_Cost : Z;
  Revenue : Z
}.
End Row.

(** The messages of [round_events], with the values their f-strings
    interpolate; the wording and the icons are left to the display. *)
Inductive event : Type :=
| SupplierShortfall (supplier_name : string) (percent procured ordered : Z)
| SupplierDelivered (supplier_name : string) (procured : Z)
| TransportDisruption (fee : Z) (transport_name : string)
| TransportDamage (damaged : Z) (transport_name : string) (received : Z)
| DemandThisMonth (demand : Z)
| Stockout (unmet : Z)
| AllDemandMet (sold : Z).

Record session_state : Type := Session {
  round : Z;
  cash : Z;
  inventory : Z;
  satisfaction : Z;
  total_costs_accumulated : Z;
  game_over : bool;
  game_over_message : string;
  history : list Row.t;
  round_events : list event
}.

Definition set_round (v : Z) (s : session_state) : session_state :=
  Session v (cash s) (inventory s) (satisfaction s) (total_costs_accumulated s)
          (game_over s) (game_over_message s) (history s) (round_events s).
Definition set_cash (v : Z) (s : session_state) : session_state :=
  Session (round s) v (inventory s) (satisfaction s) (total_costs_accumulated s)
          (game_over s) (game_over_message s) (history s) (round_events s).
Definition set_inventory (v : Z) (s : session_state) : session_state :=
  Session (round s) (cash s) v (satisfaction s) (total_costs_accumulated s)
          (game_over s) (game_over_message s) (history s) (round_events s).
Definition set_satisfaction (v : Z) (s : session_state) : session_state :=
  Session (round s) (cash s) (inventory s) v (total_costs_accumulated s)
          (game_over s) (game_over_message s) (history s) (round_events s).
Definition set_total_costs_accumulated (v : Z) (s : session_state) : session_state :=
  Session (round s) (cash s) (inventory s) (satisfaction s) v
          (game_over s) (game_over_message s) (history s) (round_events s).
Definition set_game_over (v : bool) (s : session_state) : session_state :=
  Session (round s) (cash s) (inventory s) (satisfaction s) (total_costs_accumulated s)
          v (game_over_message s) (history s) (round_events s).
Definition set_game_over_message (v : string) (s : session_state) : session_state :=
  Session (round s) (cash s) (inventory s) (satisfaction s) (total_costs_accumulated s)
          (game_over s) v (history s) (round_events s).
Definition set_history (v : list Row.t) (s : session_state) : session_state :=
  Session (round s) (cash s) (inventory s) (satisfaction s) (total_costs_accumulated s)
          (game_over s) (game_over_message s) v (round_events s).
Definition set_round_events (v : list event) (s : session_state) : session_state :=
  Session (round s) (cash s) (inventory s) (satisfaction s) (total_costs_accumulated s)
          (game_over s) (game_over_message s) (history s) v.

(** ** The monad of the script: session state and exceptions

    A computation runs on the session state and either returns a value or
    raises; in both cases the state it leaves is the state as mutated so
    far. *)

Definition M (A : Type) : Type := session_state -> outcome A * session_state.

Definition ret {A : Type} (a : A) : M A := fun s => (Return a, s).

Definition bind {A B : Type} (c : M A) (k : A -> M B) : M B :=
  fun s =>
    match c s with
    | (Return a, s') => k a s'
    | (Raise e, s') => (Raise e, s')
    end.

Definition lift {A : Type} (o : outcome A) : M A := fun s => (o, s).

(** Reading [st.session_state.f] and assigning through a setter. *)
Definition read {A : Type} (f : session_state -> A) : M A :=
  fun s => (Return (f s), s).

Definition assign {A : Type} (set : A -> session_state -> session_state) (v : A)
  : M unit :=
  fun s => (Return tt, set v s).

Notation "x <- c ;; k" := (bind c (fun x => k))
  (at level 61, c at next level, right associativity).
Notation "c ;; k" := (bind c (fun _ => k))
  (at level 61, right associativity).

(** [st.session_state.round_events.append(e)] and
    [st.session_state.history.append(row)]. *)
Definition round_events_append (e : event) : M unit :=
  evs <- read round_events ;; assign set_round_events (evs ++ [e]).

Definition history_append (row : Row.t) : M unit :=
  h <- read history ;; assign set_history (h ++ [row]).

(** ** The random module

    A round makes four draws.  They are inputs of the model: the value
    [random.random()] returns inside [random.choices], the two values it
    returns for the disruption and the damage tests, and the value of
    [random.randint]. *)

Record draws : Type := Draws {
  choices_random : float;
  disruption_random : float;
  damage_random : float;
  demand_randint : Z
}.

(** [itertools.accumulate] on floats. *)
Fixpoint accumulate_from (acc : float) (ws : list float) : list float :=
  match ws with
  | [] => []
  | w :: ws' => let acc' := PyFloat.add acc w in acc' :: accumulate_from acc' ws'
  end.

Definition accumulate (ws : list float) : list float :=
  match ws with
  | [] => []
  | w :: ws' => w :: accumulate_from w ws'
  end.

(** [bisect.bisect(a, x, 0, hi)] on a non-decreasing list: the position of
    the first of the first [hi] elements that is greater than [x], and [hi]
    when there is none. *)
Fixpoint bisect (a : list float) (x : float) (hi : nat) : nat :=
  match hi, a with
  | S hi', c :: a' => if PyFloat.ltb x c then O else S (bisect a' x hi')
  | _, _ => O
  end.

(** [random.choices(population, weights=weights, k=1)[0]], with [u] the value
    of its call of [random.random()]. *)
Definition choices {A : Type} (population : list A) (weights : list float)
           (u : float) : outcome A :=
  let n := List.length population in
  let cum_weights := accumulate weights in
  if negb (Nat.eqb (List.length cum_weights) n) then Raise ValueError else
  match rev cum_weights with
  | [] => Raise IndexError                       (* cum_weights[-1] *)
  | last :: _ =>
    let total := PyFloat.add last (PyFloat.nearest 0) in
    if PyFloat.leb total (PyFloat.nearest 0) then Raise ValueError else
    if negb (PyFloat.isfinite total) then Raise ValueError else
    let hi := (n - 1)%nat in
    match nth_error population (bisect cum_weights (PyFloat.mul u total) hi) with
    | Some v => Return v
    | None => Raise IndexError
    end
  end.

(** What the [random] module can return: [random.random()] lies in
    [0.0, 1.0) and [random.randint(80, 220)] within [DEMAND_RANGE]. *)
Definition in_unit_interval (u : float) : bool :=
  PyFloat.leb (PyFloat.nearest 0) u && PyFloat.ltb u (PyFloat.nearest 1).

Definition possible_draws (rng : draws) : bool :=
  in_unit_interval (choices_random rng)
  && in_unit_interval (disruption_random rng)
  && in_unit_interval (damage_random rng)
  && (fst DEMAND_RANGE <=? demand_randint rng)
  && (demand_randint rng <=? snd DEMAND_RANGE).

(** The order [bisect] relies on. *)
Fixpoint nondecreasing (a : list float) : bool :=
  match a with
  | x :: a' =>
    match a' with
    | y :: _ => PyFloat.leb x y && nondecreasing a'
    | [] => true
    end
  | [] => true
  end.

(** ** Helper functions of the script *)

Definition initial_state : session_state :=
  Session 1 INITIAL_CASH INITIAL_INVENTORY INITIAL_SATISFACTION 0 false
          EmptyString [] [].

(** Every key of the session state is assigned, whatever it held. *)
Definition initialize_game : M unit :=
  assign set_round 1 ;;
  assign set_cash INITIAL_CASH ;;
  assign set_inventory INITIAL_INVENTORY ;;
  assign set_satisfaction INITIAL_SATISFACTION ;;
  assign set_total_costs_accumulated 0 ;;
  assign set_game_over false ;;
  assign set_game_over_message EmptyString ;;
  assign set_history [] ;;
  assign set_round_events [].

Definition get_supplier_details (name : string) : outcome Supplier.t :=
  getitem SUPPLIERS name.

Definition get_transport_details (name : string) : outcome Transporter.t :=
  getitem TRANSPORTERS name.

Definition bankruptcy_message : string :=
  "Game Over: Bankruptcy! Your company ran out of cash.".

Definition customer_exodus_message (sat : Z) : string :=
  ("Game Over: Customer Exodus! Satisfaction dropped to " ++ str sat ++ "%.")%string.

Definition end_of_term_message : string :=
  "Game Over: End of Term! You've completed 12 months.".

(** ** One round: [simulate_round] *)

Definition simulate_round (supplier_name : string) (quantity_ordered : Z)
           (transport_name : string) (rng : draws) : M unit :=
  assign set_round_events [] ;;
  supplier <- lift (get_supplier_details supplier_name) ;;
  transporter <- lift (get_transport_details transport_name) ;;
  (* 1. Calculate Procured Quantity & Sourcing Cost *)
  chosen_yield_percentage <-
    lift (choices (Supplier.yield_percentages supplier)
                  (Supplier.yield_weights supplier) (choices_random rng)) ;;
  procured_quantity <-
    lift (int_of_product quantity_ordered chosen_yield_percentage) ;;
  let sourcing_cost := procured_quantity * Supplier.cost supplier in
  (if PyFloat.ltb chosen_yield_percentage (lit 1 1)
   then percent <- lift (let? p := PyFloat.mul_int chosen_yield_percentage 100
                         in PyFloat.to_int p) ;;
        round_events_append
          (SupplierShortfall supplier_name percent procured_quantity quantity_ordered)
   else round_events_append (SupplierDelivered supplier_name procured_quantity)) ;;
  (* 2. Calculate Transportation Cost & Apply Transport Disruption *)
  let transport_cost_base := procured_quantity * Transporter.cost transporter in
  final_transport_cost <-
    (if PyFloat.ltb (disruption_random rng) (Transporter.disruption_chance transporter)
     then round_events_append
            (TransportDisruption (Transporter.disruption_fee transporter) transport_name) ;;
          ret (transport_cost_base + Transporter.disruption_fee transporter)
     else ret transport_cost_base) ;;
  actual_received_quantity <-
    (if PyFloat.ltb (damage_random rng) (Transporter.damage_chance transporter)
        && (0 <? procured_quantity)
     then damaged_units <-
            lift (int_of_product procured_quantity
                                 (Transporter.damage_percentage transporter)) ;;
          round_events_append
            (TransportDamage damaged_units transport_name
                             (procured_quantity - damaged_units)) ;;
          ret (procured_quantity - damaged_units)
     else ret procured_quantity) ;;
  (* 3. Update Available Inventory *)
  inventory_before <- read inventory ;;
  let inventory_at_fulfillment := inventory_before + actual_received_quantity in
  (* 4. Generate Demand *)
  let current_demand := demand_randint rng in
  round_events_append (DemandThisMonth current_demand) ;;
  (* 5. Fulfill Demand *)
  let units_sold := Z.min inventory_at_fulfillment current_demand in
  let revenue := units_sold * SELLING_PRICE_PER_UNIT in
  let unmet_demand := current_demand - units_sold in
  (if 0 <? unmet_demand
   then round_events_append (Stockout unmet_demand) ;;
        sat <- read satisfaction ;;
        assign set_satisfaction (sat - unmet_demand * 2)
   else round_events_append (AllDemandMet units_sold) ;;
        sat <- read satisfaction ;;
        assign set_satisfaction (sat + 5)) ;;
  sat <- read satisfaction ;;
  assign set_satisfaction (Z.max 0 (Z.min 100 sat)) ;;
  (* 6. Calculate Stockout Cost *)
  let stockout_cost := unmet_demand * STOCKOUT_PENALTY_PER_UNIT in
  (* 7. Calculate Holding Cost *)
  let ending_inventory := inventory_at_fulfillment - units_sold in
  let holding_cost := ending_inventory * HOLDING_COST_PER_UNIT in
  (* 8. Update Game State *)
  let round_total_cost :=
    sourcing_cost + final_transport_cost + stockout_cost + holding_cost in
  c <- read cash ;;
  assign set_cash (c + (revenue - round_total_cost)) ;;
  assign set_inventory ending_inventory ;;
  t <- read total_costs_accumulated ;;
  assign set_total_costs_accumulated (t + round_total_cost) ;;
  (* Store history for this round *)
  now <- read (fun s => s) ;;
  history_append
    (Row.Build (round now) (cash now) (inventory now) (satisfaction now)
               current_demand procured_quantity actual_received_quantity
               units_sold unmet_demand sourcing_cost final_transport_cost
               holding_cost stockout_cost round_total_cost revenue) ;;
  (* 9. Check Game Over Conditions *)
  now <- read (fun s => s) ;;
  (if cash now <=? BANKRUPTCY_THRESHOLD
   then assign set_game_over true ;;
        assign set_game_over_message bankruptcy_message
   else if satisfaction now <=? LOW_SATISFACTION_THRESHOLD
   then assign set_game_over true ;;
        assign set_game_over_message (customer_exodus_message (satisfaction now))
   else if MAX_ROUNDS <=? round now
   then assign set_game_over true ;;
        assign set_game_over_message end_of_term_message
   else ret tt) ;;
  (* Increment round if game is not over *)
  over <- read game_over ;;
  if negb over
  then r <- read round ;; assign set_round (r + 1)
  else ret tt.

(** ** The script around it

    Streamlit runs the script from the top at each interaction.  What the
    form and the button let through is all that reaches [simulate_round]. *)

Inductive interaction : Type :=
| NoInteraction
| PlayAgain
| SubmitDecisions (supplier_choice : string) (quantity_to_order : Z)
                  (transport_choice : string).

(** Limits of the [st.number_input] of the order quantity. *)
Definition quantity_min_value : Z := 0.
Definition quantity_max_value : Z := 1000.

(** What the form can submit: a key of each catalog and a quantity within the
    limits of the number input. *)
Definition form_can_submit (ev : interaction) : Prop :=
  match ev with
  | SubmitDecisions supplier_choice quantity_to_order transport_choice =>
      In supplier_choice (keys SUPPLIERS)
      /\ quantity_min_value <= quantity_to_order <= quantity_max_value
      /\ In transport_choice (keys TRANSPORTERS)
  | _ => True
  end.

(** The score shown on the game over screen; it is a local of the script. *)
Definition final_score (s : session_state) : outcome float :=
  let? tenth := PyFloat.truediv (total_costs_accumulated s) 10 in
  PyFloat.int_sub (cash s + satisfaction s * 100) tenth.

Inductive screen : Type :=
| GameOverScreen (message : string) (score : float)
| DecisionScreen (month : Z).

(** [pd.DataFrame(st.session_state.history).set_index("Round")], the table
    of the rounds on the game over screen: a frame built from an empty list
    has no column, and [set_index] raises [KeyError] on it.  (The frame of
    the charts is built from a dict of columns and has its [Round] column
    even when the history is empty.) *)
Definition detailed_history (h : list Row.t) : outcome (list Row.t) :=
  match h with
  | [] => Raise (KeyError "None of ['Round'] are in the columns")
  | _ => Return h
  end.

(** The game over screen, down to the table of the rounds: the message, the
    score, the summary, the charts and the table. *)
Definition game_over_screen (s : session_state) : outcome screen :=
  let? score := final_score s in
  let? _ := detailed_history (history s) in
  Return (GameOverScreen (game_over_message s) score).

(** A run of the script without interaction: what it shows. *)
Definition show : M screen :=
  s <- read (fun s => s) ;;
  if game_over s
  then lift (game_over_screen s)
  else ret (DecisionScreen (round s)).

(** A run of the script on the stored session ([None] before the first run,
    when the key ['round'] is absent) with the interaction that triggered
    it.  On a session that is over the whole game over screen is rendered
    before the Play Again button is read.  [st.rerun()] runs the script
    again, without interaction. *)
Definition script (ev : interaction) (rng : draws) (stored : option session_state)
  : outcome screen * session_state :=
  let start :=
    match stored with
    | Some s => s
    | None => snd (initialize_game initial_state)
    end in
  (s <- read (fun s => s) ;;
   if game_over s
   then page <- lift (game_over_screen s) ;;
        match ev with
        | PlayAgain => initialize_game ;; show
        | _ => ret page
        end
   else match ev with
        | SubmitDecisions supplier_choice quantity_to_order transport_choice =>
            simulate_round supplier_choice quantity_to_order transport_choice rng ;;
            show
        | _ => ret (DecisionScreen (round s))
        end) start.

(** ** Sessions: rounds played one after the other *)

Record turn : Type := Turn {
  turn_supplier : string;
  turn_quantity : Z;
  turn_transport : string;
  turn_draws : draws
}.

Definition play_turn (t : turn) : M unit :=
  simulate_round (turn_supplier t) (turn_quantity t) (turn_transport t)
                 (turn_draws t).

(** The states a session can be in: the initial one, and the state any call
    of [simulate_round] leaves, whether it returned or raised. *)
Inductive reachable : session_state -> Prop :=
| reachable_initial : reachable initial_state
| reachable_round : forall s t o s',
    reachable s -> play_turn t s = (o, s') -> reachable s'.

(** The rounds of [ts] in order, as long as each returns and leaves the
    company solvent and its customers satisfied (no bankruptcy, no customer
    exodus); the state after the last round. *)
Fixpoint play_solvent (ts : list turn) (s : session_state) : option session_state :=
  match ts with
  | [] => Some s
  | t :: ts' =>
    match play_turn t s with
    | (Return _, s') =>
      if (BANKRUPTCY_THRESHOLD <? cash s')
         && (LOW_SATISFACTION_THRESHOLD <? satisfaction s')
      then play_solvent ts' s'
      else None
    | (Raise _, _) => None
    end
  end.

(** * Vocabulary of the statements *)

(** ** The state a resolved round leaves

    [settled s supplier cost procured received demand] is the session state,
    events apart, after a round that procured and received these quantities
    at this transport cost: steps 3 to 9 of [simulate_round] in closed form.
    It is a device of the proofs; the statements below are about
    [simulate_round]. *)

Definition settled (s : session_state) (supplier : Supplier.t)
           (final_transport_cost procured received demand : Z) : session_state :=
  let sourcing_cost := procured * Supplier.cost supplier in
  let available := inventory s + received in
  let sold := Z.min available demand in
  let revenue := sold * SELLING_PRICE_PER_UNIT in
  let unmet := demand - sold in
  let sat := Z.max 0 (Z.min 100 (if 0 <? unmet then satisfaction s - unmet * 2
                                 else satisfaction s + 5)) in
  let stockout_cost := unmet * STOCKOUT_PENALTY_PER_UNIT in
  let ending := available - sold in
  let holding_cost := ending * HOLDING_COST_PER_UNIT in
  let total := sourcing_cost + final_transport_cost + stockout_cost + holding_cost in
  let cash' := cash s + (revenue - total) in
  let row := Row.Build (round s) cash' ending sat demand procured received sold
                       unmet sourcing_cost final_transport_cost holding_cost
                       stockout_cost total revenue in
  let over := if cash' <=? BANKRUPTCY_THRESHOLD then true
              else if sat <=? LOW_SATISFACTION_THRESHOLD then true
              else if MAX_ROUNDS <=? round s then true
              else game_over s in
  let message := if cash' <=? BANKRUPTCY_THRESHOLD then bankruptcy_message
                 else if sat <=? LOW_SATISFACTION_THRESHOLD
                      then customer_exodus_message sat
                 else if MAX_ROUNDS <=? round s then end_of_term_message
                 else game_over_message s in
  Session (if negb over then round s + 1 else round s) cash' ending sat
          (total_costs_accumulated s + total) over message (history s ++ [row])
          (round_events s).

(** The transport cost of a round: the disruption fee is added when the
    disruption draw is below the transporter's chance. *)
Definition transport_cost_of (transporter : Transporter.t) (rng : draws)
           (procured : Z) : Z :=
  if PyFloat.ltb (disruption_random rng) (Transporter.disruption_chance transporter)
  then procured * Transporter.cost transporter + Transporter.disruption_fee transporter
  else procured * Transporter.cost transporter.

(** The damage test of a round. *)
Definition damage_occurs (transporter : Transporter.t) (rng : draws)
           (procured : Z) : bool :=
  PyFloat.ltb (damage_random rng) (Transporter.damage_chance transporter)
  && (0 <? procured).

(** [int(chosen_yield_percentage*100)], computed for the shortfall message. *)
Definition percent_of (y : float) : outcome Z :=
  let? p := PyFloat.mul_int y 100 in PyFloat.to_int p.

(** ** Well-formed catalog entries and sessions on schedule *)

(** A float that is not a NaN has its sign bit clear. *)
Definition nonneg_or_nan (x : float) : Prop :=
  match x with
  | S754_nan => True
  | _ => PyFloat.nonneg x = true
  end.

Definition returns {A : Type} (o : outcome A) : bool :=
  match o with
  | Return _ => true
  | Raise _ => false
  end.

(** What [random.choices] checks before it draws. *)
Definition weights_accepted {A : Type} (population : list A) (weights : list float)
  : bool :=
  Nat.eqb (List.length (accumulate weights)) (List.length population)
  && match rev (accumulate weights) with
     | [] => false
     | last :: _ =>
       let total := PyFloat.add last (PyFloat.nearest 0) in
       negb (PyFloat.leb total (PyFloat.nearest 0)) && PyFloat.isfinite total
     end
  && negb (Nat.eqb (List.length population) 0).

(** A fraction of the catalogs: finite, not negative, and its percentage can
    be computed. *)
Definition fraction_ok (x : float) : bool :=
  PyFloat.nonneg x && PyFloat.isfinite x && returns (percent_of x).

Definition supplier_ok (sup : Supplier.t) : bool :=
  (0 <=? Supplier.cost sup)
  && weights_accepted (Supplier.yield_percentages sup) (Supplier.yield_weights sup)
  && forallb fraction_ok (Supplier.yield_percentages sup).

Definition transporter_ok (tr : Transporter.t) : bool :=
  (0 <=? Transporter.cost tr) && (0 <=? Transporter.disruption_fee tr)
  && fraction_ok (Transporter.damage_percentage tr).

Definition catalog_fractions : list float :=
  flat_map (fun kv => Supplier.yield_percentages (snd kv)) SUPPLIERS
  ++ map (fun kv => Transporter.damage_percentage (snd kv)) TRANSPORTERS.

(** [int(n * x)] returns, and lies between [0] and [n]. *)
Definition product_within (x : float) (n : Z) : bool :=
  match int_of_product n x with
  | Return p => (0 <=? p) && (p <=? n)
  | Raise _ => false
  end.

(** The quantities of the number input, [0] to [1000]. *)
Definition quantities : list Z := map Z.of_nat (seq 0 1001).

(** The termination state of a session that has resolved [n] rounds without
    bankruptcy or customer exodus. *)
Definition on_schedule (n : nat) (s : session_state) : Prop :=
  round s = Z.min (Z.of_nat n + 1) MAX_ROUNDS
  /\ game_over s = (MAX_ROUNDS <=? Z.of_nat n)
  /\ (game_over s = true -> game_over_message s = end_of_term_message).

(** ** Example inputs *)

(** Draws of 0.5 everywhere: no disruption and no damage with any
    transporter. *)
Definition quiet_draws (demand : Z) : draws :=
  Draws (lit 5 10) (lit 5 10) (lit 5 10) demand.

(** A disruption draw of 0.25, below the disruption chance of Budget Haul. *)
Definition disrupted_draws (demand : Z) : draws :=
  Draws (lit 5 10) (lit 25 100) (lit 5 10) demand.

Definition steady_turn : turn :=
  Turn Alpha_Goods 150 Standard_Shipping (quiet_draws 150).

(** A company about to fail on both counts: little cash, no stock, wary
    customers. *)
Definition strained_state : session_state :=
  Session 1 100 0 35 0 false EmptyString [] [].

(** A session that has reached the end of its term. *)
Definition closing_state : session_state :=
  Session 12 92600 100 100 47400 true end_of_term_message [] [].

(** A session lost in its first month: the player orders one unit from
    Alpha Goods by Express Freight and the demand is 220, so that 119 units
    are not served and the satisfaction falls to 0. The state is the one
    the script leaves: cash 51452, accumulated costs 3598, game over by
    customer exodus, one row in the history. *)
Definition lost_customers : session_state :=
  snd (script (SubmitDecisions Alpha_Goods 1 Express_Freight)
              (quiet_draws 220) None).

(** ** The score in exact arithmetic *)

(** [cash + satisfaction * 100 - total_costs_accumulated / 10] as a
    rational number, without rounding. *)
Definition exact_score (s : session_state) : Q :=
  (inject_Z (cash s + satisfaction s * 100)
   - (total_costs_accumulated s # 10))%Q.

(** Figures of at most 50 million, a satisfaction in [0,100] and costs that
    are not negative. *)
Definition figures_in_range (s : session_state) : Prop :=
  Z.abs (cash s) <= 50000000
  /\ 0 <= satisfaction s <= 100
  /\ 0 <= total_costs_accumulated s <= 50000000.

(** The value of a finite float in units of [2^-K], an integer when [K] is
    at least the opposite of the exponent. *)
Definition scaled (K : Z) (x : float) : Z :=
  match x with
  | S754_finite s m e => cond_Zopp s (Zpos m * 2 ^ (e + K))
  | _ => 0
  end.

Definition exponent (x : float) : Z :=
  match x with
  | S754_finite _ _ e => e
  | _ => 0
  end.

(** ** The books of a session *)

(** The figures of a session: its state with the event messages set aside. *)
Definition figures (s : session_state) : session_state := set_round_events [] s.

(** The sum of a column of the history. *)
Definition column_sum (f : Row.t -> Z) (h : list Row.t) : Z :=
  fold_right (fun row acc => f row + acc) 0 h.

(** The latest row of the history, if there is one. *)
Definition latest (h : list Row.t) : option Row.t :=
  match rev h with
  | row :: _ => Some row
  | [] => None
  end.

(** The state agrees with its history: the accumulated costs and the cash
    are what the rows add up to, and the cash, inventory and satisfaction
    are those of the latest row, or the initial ones before any round. *)
Definition books_balance (s : session_state) : Prop :=
  total_costs_accumulated s = column_sum Row.Round_Total_Cost (history s)
  /\ cash s = INITIAL_CASH + column_sum Row.Revenue (history s)
              - column_sum Row.Round_Total_Cost (history s)
  /\ match latest (history s) with
     | Some row => Row.Cash row = cash s
                   /\ Row.Inventory row = inventory s
                   /\ Row.Satisfaction row = satisfaction s
     | None => cash s = INITIAL_CASH
               /\ inventory s = INITIAL_INVENTORY
               /\ satisfaction s = INITIAL_SATISFACTION
     end.

(** The states the script can leave in the session: after its first run,
    and after any further run, whatever the interaction and the draws. *)
Inductive script_reachable : session_state -> Prop :=
| script_first_run : forall ev rng,
    script_reachable (snd (script ev rng None))
| script_next_run : forall s ev rng,
    script_reachable s -> script_reachable (snd (script ev rng (Some s))).

(** The months the history of a session should list: 1 to [n]. *)
Definition months (n : nat) : list Z := map Z.of_nat (seq 1 n).

(** The history lists the months played, one row each, in order: as many
    rows as rounds were resolved, which is the round counter once the game
    is over and one less while it runs. *)
Definition history_in_order (s : session_state) : Prop :=
  map Row.Round (history s) = months (List.length (history s))
  /\ Z.of_nat (List.length (history s))
     = (if game_over s then round s else round s - 1)
  /\ 1 <= round s <= MAX_ROUNDS.

(** The sessions a player can have: runs of the script on what the form
    can submit, with draws the [random] module can return. *)
Inductive form_reachable : session_state -> Prop :=
| form_first_run : forall ev rng,
    form_can_submit ev -> possible_draws rng = true ->
    form_reachable (snd (script ev rng None))
| form_next_run : forall s ev rng,
    form_reachable s ->
    form_can_submit ev -> possible_draws rng = true ->
    form_reachable (snd (script ev rng (Some s))).

(** The stock a player can hold: at most the initial inventory plus a full
    order per month played; and costs that are not negative. *)
Definition stock_within_orders (s : session_state) : Prop :=
  0 <= inventory s
       <= INITIAL_INVENTORY
          + quantity_max_value * Z.of_nat (List.length (history s))
  /\ 0 <= total_costs_accumulated s.

(** The prices of the catalog: at most 20 a unit to buy, 8 a unit to ship
    and 200 for a disruption. *)
Definition supplier_price_ok (sup : Supplier.t) : bool :=
  Supplier.cost sup <=? 20.

Definition transporter_price_ok (tr : Transporter.t) : bool :=
  (Transporter.cost tr <=? 8) && (Transporter.disruption_fee tr <=? 200).

(** The money a player can have spent and earned: a month costs at most
    59000 (20000 of goods, 8200 of transport, 6600 of stockout penalties and
    24200 of holding costs) and brings at most 11000 (220 units sold). *)
Definition within_budget (s : session_state) : Prop :=
  let n := Z.of_nat (List.length (history s)) in
  0 <= total_costs_accumulated s <= 59000 * n
  /\ INITIAL_CASH - 59000 * n <= cash s <= INITIAL_CASH + 11000 * n
  /\ 0 <= satisfaction s <= 100.

(** The order quantity the form suggests, the [value] of its number input:
    [max(0, int(DEMAND_RANGE[0] + (DEMAND_RANGE[1]-DEMAND_RANGE[0])/2
    - st.session_state.inventory))]. *)
Definition suggested_quantity (inventory_now : Z) : outcome Z :=
  let? half := PyFloat.truediv (snd DEMAND_RANGE - fst DEMAND_RANGE) 2 in
  let? low := PyFloat.of_int (fst DEMAND_RANGE) in
  let? stock := PyFloat.of_int inventory_now in
  let? n := PyFloat.to_int (PyFloat.sub (PyFloat.add low half) stock) in
  Return (Z.max 0 n).

(** The suggestion is the shortfall of the stock to a demand of 150. *)
Definition suggestion_exact (inventory_now : Z) : bool :=
  match suggested_quantity inventory_now with
  | Return v => v =? Z.max 0 (150 - inventory_now)
  | Raise _ => false
  end.

(** The inventories a player can hold: [0] to [12100]. *)
Definition inventories : list Z := map Z.of_nat (seq 0 (Z.to_nat 12101)).

(** The verdict matches the state: while the game runs the company is
    solvent, its customers satisfied and no message is set; once it is over
    the message is the one of the first condition the state meets. *)
Definition verdict_matches (s : session_state) : Prop :=
  if game_over s
  then game_over_message s
       = (if cash s <=? BANKRUPTCY_THRESHOLD then bankruptcy_message
          else if satisfaction s <=? LOW_SATISFACTION_THRESHOLD
               then customer_exodus_message (satisfaction s)
          else end_of_term_message)
       /\ (BANKRUPTCY_THRESHOLD < cash s ->
           LOW_SATISFACTION_THRESHOLD < satisfaction s ->
           MAX_ROUNDS <= round s)
  else BANKRUPTCY_THRESHOLD < cash s
       /\ LOW_SATISFACTION_THRESHOLD < satisfaction s
       /\ game_over_message s = EmptyString.

(** The events a resolved round reports, from what it computed: the message
    of the supplier, of the disruption and of the damage when they occur, of
    the demand, and of the stockout or of the full service. *)
Definition round_report (supplier_name transport_name : string)
           (quantity_ordered : Z) (transporter : Transporter.t) (rng : draws)
           (y : float) (percent procured damaged inventory_before : Z)
  : list event :=
  let received := procured - damaged in
  let demand := demand_randint rng in
  let sold := Z.min (inventory_before + received) demand in
  let unmet := demand - sold in
  [if PyFloat.ltb y (lit 1 1)
   then SupplierShortfall supplier_name percent procured quantity_ordered
   else SupplierDelivered supplier_name procured]
  ++ (if PyFloat.ltb (disruption_random rng)
                     (Transporter.disruption_chance transporter)
      then [TransportDisruption (Transporter.disruption_fee transporter)
                                transport_name]
      else [])
  ++ (if damage_occurs transporter rng procured
      then [TransportDamage damaged transport_name received]
      else [])
  ++ [DemandThisMonth demand]
  ++ (if 0 <? unmet then [Stockout unmet] else [AllDemandMet sold]).

(** [int(n * 1.0)] is [n]. *)
Definition product_exact (n : Z) : bool :=
  match int_of_product n (lit 1 1) with
  | Return p => p =? n
  | Raise _ => false
  end.

(** A name that is in neither catalog. *)
Definition Delta_Supply : string := "Delta Supply".

(** * Proof automation *)

(** Symbolic execution of a monadic computation in a hypothesis
    [H : c s = (o, s')]: unfold the monad, then split on the test or the
    fallible call the computation is waiting for. *)
Ltac scrutinee t :=
  lazymatch t with
  | match ?x with Return _ => _ | Raise _ => _ end => scrutinee x
  | match ?x with Return _ => _ | Raise _ => _ end _ => scrutinee x
  | (if ?x then _ else _) => scrutinee x
  | (if ?x then _ else _) _ => scrutinee x
  | (let (_, _) := ?x in _) => scrutinee x
  | _ => t
  end.

Ltac session_cbv_in H :=
  cbv beta iota zeta delta
      [bind lift read assign ret round_events_append history_append
       set_round set_cash set_inventory set_satisfaction
       set_total_costs_accumulated set_game_over set_game_over_message
       set_history set_round_events
       round cash inventory satisfaction total_costs_accumulated game_over
       game_over_message history round_events negb] in H.

Ltac session_cbv :=
  cbv beta iota zeta delta
      [set_round_events round cash inventory satisfaction
       total_costs_accumulated game_over game_over_message history
       round_events negb].

Ltac run_step H :=
  session_cbv_in H;
  lazymatch type of H with
  | ?lhs = _ =>
    let x := scrutinee lhs in
    lazymatch x with
    | (_, _) => fail
    | _ => destruct x eqn:?
    end
  end.

Ltac run_in H := repeat run_step H.

Ltac rewrite_tests :=
  repeat match goal with
         | Hb : ?b = _ |- context [if ?b then _ else _] => rewrite Hb
         end.

(** * Properties *)

(** ** What a call of [simulate_round] does *)

Lemma simulate_round_cases sn q tn rng s o s' :
  simulate_round sn q tn rng s = (o, s') ->
  (exists e, o = Raise e /\ s' = set_round_events (round_events s') s)
  \/ (o = Return tt /\
      exists supplier transporter y procured d,
        get_supplier_details sn = Return supplier /\
        get_transport_details tn = Return transporter /\
        choices (Supplier.yield_percentages supplier)
                (Supplier.yield_weights supplier) (choices_random rng) = Return y /\
        int_of_product q y = Return procured /\
        (if damage_occurs transporter rng procured
         then int_of_product procured (Transporter.damage_percentage transporter)
              = Return d
         else d = 0) /\
        s' = set_round_events (round_events s')
               (settled s supplier (transport_cost_of transporter rng procured)
                        procured (procured - d) (demand_randint rng))).
Proof.
  intros H. unfold simulate_round in H.
  destruct s as [r c i sa t g m h ev].
  run_in H; injection H as <- <-.
  all: try (left; eexists; split; reflexivity).
  all: right; (split; [reflexivity|]);
    match goal with
    | Hd : int_of_product _ (Transporter.damage_percentage _) = Return ?d |- _ =>
        do 4 eexists; exists d
    | _ => do 4 eexists; exists 0; rewrite ?Z.sub_0_r
    end;
    (split; [reflexivity|]); (split; [reflexivity|]);
    (split; [eassumption|]); (split; [eassumption|]).
  all: unfold damage_occurs, transport_cost_of, settled; session_cbv.
  all: split; [rewrite_tests; first [reflexivity | assumption]|].
  all: rewrite_tests; reflexivity.
Qed.

(** Conversely, when the catalog lookups and the float conversions succeed,
    the round returns and leaves the settled state. *)
Lemma simulate_round_returns sn q tn rng s supplier transporter y procured d :
  get_supplier_details sn = Return supplier ->
  get_transport_details tn = Return transporter ->
  choices (Supplier.yield_percentages supplier)
          (Supplier.yield_weights supplier) (choices_random rng) = Return y ->
  int_of_product q y = Return procured ->
  (PyFloat.ltb y (lit 1 1) = true -> exists pc, percent_of y = Return pc) ->
  (if damage_occurs transporter rng procured
   then int_of_product procured (Transporter.damage_percentage transporter)
        = Return d
   else d = 0) ->
  exists evs,
    simulate_round sn q tn rng s
    = (Return tt,
       set_round_events evs
         (settled s supplier (transport_cost_of transporter rng procured)
                  procured (procured - d) (demand_randint rng))).
Proof.
  intros Hs Ht Hy Hp Hpc Hd.
  destruct (simulate_round sn q tn rng s) as [o s'] eqn:H.
  unfold simulate_round in H. rewrite Hs, Ht in H.
  destruct s as [r c i sa t g m h ev].
  session_cbv_in H. rewrite Hy in H. session_cbv_in H. rewrite Hp in H.
  unfold damage_occurs, transport_cost_of, percent_of, settled in *.
  destruct (PyFloat.ltb y (lit 1 1)) eqn:Hlt;
    [destruct Hpc as [pc Hpc]; [reflexivity|]; session_cbv_in H; rewrite Hpc in H|].
  all: destruct (PyFloat.ltb (damage_random rng) (Transporter.damage_chance transporter)
                 && (0 <? procured)) eqn:Hdmg;
    [session_cbv_in H; rewrite Hd in H | subst d; rewrite Z.sub_0_r].
  all: run_in H; injection H as <- <-; eexists; session_cbv; rewrite_tests;
    reflexivity.
Qed.

(** ** Floats: signs and truncation *)

Lemma binary_round_aux_sign sx mx ex lx :
  match binary_round_aux PyFloat.prec PyFloat.emax sx mx ex lx with
  | S754_zero s | S754_infinity s | S754_finite s _ _ => s = sx
  | S754_nan => True
  end.
Proof.
  unfold binary_round_aux.
  destruct (shr_fexp PyFloat.prec PyFloat.emax mx ex lx) as [mrs e1].
  destruct (shr_fexp PyFloat.prec PyFloat.emax _ e1 loc_Exact) as [mrs' e2].
  destruct (shr_m mrs'); trivial.
  destruct (e2 <=? PyFloat.emax - PyFloat.prec); reflexivity.
Qed.

Lemma nearest_nonneg n : 0 <= n -> nonneg_or_nan (PyFloat.nearest n).
Proof.
  intros Hn. unfold PyFloat.nearest, binary_normalize.
  destruct n as [|m|m]; [reflexivity| |lia].
  unfold binary_round.
  destruct (shl_align m 0 _) as [mz ez].
  pose proof (binary_round_aux_sign false (Z.pos mz) ez loc_Exact) as Hs.
  unfold nonneg_or_nan.
  destruct (binary_round_aux _ _ false (Z.pos mz) ez loc_Exact);
    simpl; trivial; now subst.
Qed.

Lemma mul_nonneg x y :
  PyFloat.nonneg x = true -> PyFloat.nonneg y = true ->
  nonneg_or_nan (PyFloat.mul x y).
Proof.
  unfold PyFloat.mul, SFmul.
  destruct x as [sx|sx| |sx mx ex]; destruct y as [sy|sy| |sy my ey];
    simpl; intros Hx Hy; try discriminate; trivial;
    try (destruct sx; [discriminate|]; destruct sy; [discriminate|]; reflexivity).
  destruct sx; [discriminate|]; destruct sy; [discriminate|].
  pose proof (binary_round_aux_sign (xorb false false) (Z.pos (mx * my))
                                    (ex + ey) loc_Exact) as Hs.
  destruct (binary_round_aux _ _ (xorb false false) _ _ loc_Exact);
    simpl in *; trivial; now subst.
Qed.

Lemma to_int_nonneg x p :
  PyFloat.nonneg x = true -> PyFloat.to_int x = Return p -> 0 <= p.
Proof.
  destruct x as [s|s| |s m e]; simpl; intros Hx Hp; try discriminate.
  - injection Hp as <-. lia.
  - destruct s; [discriminate|]. injection Hp as <-. simpl.
    apply Z.shiftl_nonneg. lia.
Qed.

Lemma int_of_product_nonneg n x p :
  0 <= n -> PyFloat.nonneg x = true -> int_of_product n x = Return p -> 0 <= p.
Proof.
  intros Hn Hx. unfold int_of_product, PyFloat.int_mul, PyFloat.of_int, obind.
  pose proof (nearest_nonneg _ Hn) as Hf.
  destruct (PyFloat.nearest n) as [s|s| |s m e] eqn:Hnear;
    try discriminate; unfold nonneg_or_nan in Hf.
  - pose proof (mul_nonneg (S754_zero s) x Hf Hx) as Hm.
    destruct (PyFloat.mul (S754_zero s) x) eqn:E; try discriminate;
      intros Hp; eapply to_int_nonneg; try exact Hp; exact Hm.
  - pose proof (mul_nonneg (S754_finite s m e) x Hf Hx) as Hm.
    destruct (PyFloat.mul (S754_finite s m e) x) eqn:E; try discriminate;
      intros Hp; eapply to_int_nonneg; try exact Hp; exact Hm.
Qed.

Lemma int_of_product_zero x :
  PyFloat.isfinite x = true -> int_of_product 0 x = Return 0.
Proof.
  destruct x as [s|s| |s m e]; simpl; intros Hx; try discriminate; reflexivity.
Qed.

(** ** The catalogs *)

Lemma getitem_In {V : Type} (d : dict V) key v :
  getitem d key = Return v -> In (key, v) d.
Proof.
  induction d as [|[k w] d IH]; simpl; [discriminate|].
  destruct (String.eqb k key) eqn:E.
  - apply String.eqb_eq in E. intros [= ->]. left. now subst.
  - intros H. right. now apply IH.
Qed.

Lemma keys_getitem {V : Type} (d : dict V) key :
  In key (keys d) -> exists v, getitem d key = Return v.
Proof.
  induction d as [|[k w] d IH]; simpl; [intros []|].
  intros [->|Hin].
  - rewrite String.eqb_refl. now exists w.
  - destruct (String.eqb k key); [now exists w | now apply IH].
Qed.

Lemma bisect_le a x hi : (bisect a x hi <= hi)%nat.
Proof.
  revert a. induction hi as [|hi IH]; intros [|c a]; simpl; try lia.
  destruct (PyFloat.ltb x c); [lia|]. specialize (IH a). lia.
Qed.

Lemma choices_In {A : Type} (population : list A) weights u v :
  choices population weights u = Return v -> In v population.
Proof.
  unfold choices.
  destruct (negb _); [discriminate|].
  destruct (rev (accumulate weights)) as [|last l]; [discriminate|].
  destruct (PyFloat.leb _ _); [discriminate|].
  destruct (negb _); [discriminate|].
  destruct (nth_error population _) as [w|] eqn:E; [|discriminate].
  intros [= <-]. eapply nth_error_In, E.
Qed.

Lemma choices_total {A : Type} (population : list A) weights u :
  weights_accepted population weights = true ->
  exists v, choices population weights u = Return v.
Proof.
  unfold weights_accepted, choices. intros H.
  apply andb_prop in H as [H Hne]. apply andb_prop in H as [Hlen Htot].
  rewrite Hlen. cbv beta iota zeta delta [negb].
  destruct (rev (accumulate weights)) as [|last l]; [discriminate|].
  apply andb_prop in Htot as [Hpos Hfin].
  apply negb_true_iff in Hpos. rewrite Hpos, Hfin.
  destruct (nth_error population _) as [w|] eqn:E; [now exists w|].
  apply nth_error_None in E.
  pose proof (bisect_le (accumulate weights)
                (PyFloat.mul u (PyFloat.add last (PyFloat.nearest 0)))
                (List.length population - 1)) as Hb.
  apply negb_true_iff, Nat.eqb_neq in Hne. lia.
Qed.

Lemma SUPPLIERS_ok : forallb (fun kv => supplier_ok (snd kv)) SUPPLIERS = true.
Proof. vm_compute. reflexivity. Qed.

Lemma TRANSPORTERS_ok : forallb (fun kv => transporter_ok (snd kv)) TRANSPORTERS = true.
Proof. vm_compute. reflexivity. Qed.

(** The cumulative weights [random.choices] bisects are in order for every
    supplier, so the scan of [bisect] finds what the binary search finds. *)
Lemma SUPPLIERS_cumulative_weights_in_order :
  forallb (fun kv => nondecreasing (accumulate (Supplier.yield_weights (snd kv))))
          SUPPLIERS = true.
Proof. vm_compute. reflexivity. Qed.

Lemma get_supplier_details_ok name sup :
  get_supplier_details name = Return sup -> supplier_ok sup = true.
Proof.
  intros H. apply getitem_In in H.
  pose proof SUPPLIERS_ok as Hall. rewrite forallb_forall in Hall.
  exact (Hall _ H).
Qed.

Lemma get_transport_details_ok name tr :
  get_transport_details name = Return tr -> transporter_ok tr = true.
Proof.
  intros H. apply getitem_In in H.
  pose proof TRANSPORTERS_ok as Hall. rewrite forallb_forall in Hall.
  exact (Hall _ H).
Qed.

Lemma chosen_yield_ok sup u y :
  supplier_ok sup = true ->
  choices (Supplier.yield_percentages sup) (Supplier.yield_weights sup) u = Return y ->
  fraction_ok y = true.
Proof.
  unfold supplier_ok. intros H Hy.
  apply andb_prop in H as [_ H]. rewrite forallb_forall in H.
  eapply H, choices_In, Hy.
Qed.

(** ** Rounds the form can submit always resolve *)

Lemma catalog_products_within :
  forallb (fun x => forallb (product_within x) quantities) catalog_fractions = true.
Proof. vm_compute. reflexivity. Qed.

Lemma In_quantities n :
  quantity_min_value <= n <= quantity_max_value -> In n quantities.
Proof.
  unfold quantity_min_value, quantity_max_value, quantities. intros Hn.
  apply in_map_iff. exists (Z.to_nat n). split; [lia|]. apply in_seq. lia.
Qed.

Lemma catalog_product n x :
  In x catalog_fractions -> quantity_min_value <= n <= quantity_max_value ->
  exists p, int_of_product n x = Return p /\ 0 <= p <= n.
Proof.
  intros Hx Hn. pose proof catalog_products_within as H.
  rewrite forallb_forall in H. specialize (H x Hx).
  rewrite forallb_forall in H. specialize (H n (In_quantities _ Hn)).
  unfold product_within in H.
  destruct (int_of_product n x) as [p|]; [|discriminate].
  exists p. split; [reflexivity|]. lia.
Qed.

Lemma yield_in_catalog name sup y :
  get_supplier_details name = Return sup ->
  In y (Supplier.yield_percentages sup) -> In y catalog_fractions.
Proof.
  intros Hs Hy. apply getitem_In in Hs. apply in_or_app. left.
  apply in_flat_map. exists (name, sup). now split.
Qed.

Lemma damage_in_catalog name tr :
  get_transport_details name = Return tr ->
  In (Transporter.damage_percentage tr) catalog_fractions.
Proof.
  intros Ht. apply getitem_In in Ht. apply in_or_app. right.
  apply in_map_iff. exists (name, tr). now split.
Qed.

(** X12: whatever the form submits (a supplier and a transporter of the
    catalogs, a quantity from 0 to 1000) and whatever the draws,
    [simulate_round] returns: no lookup fails and no float conversion
    overflows. *)
Lemma submitted_round_resolves sn q tn rng s :
  form_can_submit (SubmitDecisions sn q tn) ->
  exists s', simulate_round sn q tn rng s = (Return tt, s').
Proof.
  intros (Hsn & Hq & Htn).
  destruct (keys_getitem SUPPLIERS sn Hsn) as [sup Hsup].
  destruct (keys_getitem TRANSPORTERS tn Htn) as [tr Htr].
  pose proof (get_supplier_details_ok _ _ Hsup) as Hok.
  assert (Hw : weights_accepted (Supplier.yield_percentages sup)
                                (Supplier.yield_weights sup) = true).
  { unfold supplier_ok in Hok. apply andb_prop in Hok as [Hok _].
    now apply andb_prop in Hok as [_ Hok]. }
  destruct (choices_total _ _ (choices_random rng) Hw) as [y Hy].
  pose proof (chosen_yield_ok _ _ _ Hok Hy) as Hfy.
  destruct (catalog_product q y) as (p & Hp & Hpr);
    [eapply yield_in_catalog; eauto using choices_In | exact Hq |].
  assert (Hd : exists d,
             if damage_occurs tr rng p
             then int_of_product p (Transporter.damage_percentage tr) = Return d
             else d = 0).
  { destruct (damage_occurs tr rng p); [|now exists 0].
    destruct (catalog_product p (Transporter.damage_percentage tr))
      as (d & Hd & _); [eapply damage_in_catalog; eauto | |now exists d].
    unfold quantity_min_value, quantity_max_value in *. lia. }
  destruct Hd as [d Hd].
  assert (Hpc : PyFloat.ltb y (lit 1 1) = true -> exists pc, percent_of y = Return pc).
  { intros _. unfold fraction_ok in Hfy. apply andb_prop in Hfy as [_ Hfy].
    destruct (percent_of y) as [pc|]; [now exists pc | discriminate]. }
  destruct (@simulate_round_returns sn q tn rng s sup tr y p d Hsup Htr Hy Hp Hpc Hd)
    as [evs Hrun].
  eauto.
Qed.

(** ** One resolved round *)

(** What a round that returned has computed, read on the row it appended to
    the history. *)
Lemma resolved_round sn q tn rng s s' :
  simulate_round sn q tn rng s = (Return tt, s') ->
  exists supplier transporter y procured d,
    get_supplier_details sn = Return supplier /\
    get_transport_details tn = Return transporter /\
    choices (Supplier.yield_percentages supplier)
            (Supplier.yield_weights supplier) (choices_random rng) = Return y /\
    int_of_product q y = Return procured /\
    (if damage_occurs transporter rng procured
     then int_of_product procured (Transporter.damage_percentage transporter)
          = Return d
     else d = 0) /\
    s' = set_round_events (round_events s')
           (settled s supplier (transport_cost_of transporter rng procured)
                    procured (procured - d) (demand_randint rng)).
Proof.
  intros H. destruct (simulate_round_cases _ _ _ _ _ _ _ H) as [(e & He & _)|[_ Hr]];
    [discriminate | exact Hr].
Qed.

(** The round counter moves by one exactly when the round leaves the game
    running. *)
Lemma round_moves_unless_over sn q tn rng s s' :
  simulate_round sn q tn rng s = (Return tt, s') ->
  round s' = (if game_over s' then round s else round s + 1).
Proof.
  intros H. destruct (resolved_round _ _ _ _ _ _ H)
    as (sup & tr & y & p & d & _ & _ & _ & _ & _ & ->).
  destruct s as [r c i sa t g m h ev]. unfold settled. session_cbv.
  repeat match goal with
         | |- context [?a <=? ?b] => destruct (Z.leb_spec a b)
         end;
    try destruct g; reflexivity.
Qed.

(** C5: after every round that resolves, the satisfaction lies in [0,100],
    whatever it was before and however large the stockout penalty
    (twice the unmet units) or the bonus (+5): the clamp closes both
    branches. The row of the round records the same value. *)
Theorem satisfaction_clamped sn q tn rng s s' :
  simulate_round sn q tn rng s = (Return tt, s') ->
  0 <= satisfaction s' <= 100
  /\ exists row, history s' = history s ++ [row]
                 /\ Row.Satisfaction row = satisfaction s'.
Proof.
  intros H. destruct (resolved_round _ _ _ _ _ _ H)
    as (sup & tr & y & p & d & _ & _ & _ & _ & _ & ->).
  unfold settled. session_cbv. split; [lia|].
  eexists. split; reflexivity.
Qed.

(** C6: in every round that resolves, the units sold exceed neither the
    demand nor the inventory available (starting inventory plus received
    units), and the ending inventory is the starting inventory plus the
    received units minus the units sold, and is not negative. This holds
    for any starting inventory and order quantity. *)
Theorem inventory_balance sn q tn rng s s' :
  simulate_round sn q tn rng s = (Return tt, s') ->
  exists row,
    history s' = history s ++ [row]
    /\ Row.Demand row = demand_randint rng
    /\ Row.Sold row <= Row.Demand row
    /\ Row.Sold row <= inventory s + Row.Received row
    /\ Row.Inventory row = inventory s + Row.Received row - Row.Sold row
    /\ 0 <= Row.Inventory row
    /\ inventory s' = Row.Inventory row.
Proof.
  intros H. destruct (resolved_round _ _ _ _ _ _ H)
    as (sup & tr & y & p & d & _ & _ & _ & _ & _ & ->).
  unfold settled. session_cbv. eexists. split; [reflexivity|].
  cbn [Row.Demand Row.Sold Row.Received Row.Inventory].
  repeat split; lia.
Qed.

(** The three messages are distinct texts. *)
Lemma bankruptcy_not_exodus n : bankruptcy_message <> customer_exodus_message n.
Proof. unfold bankruptcy_message, customer_exodus_message. cbn. discriminate. Qed.

(** C4: the termination conditions are tested in a fixed order, bankruptcy
    first, then customer exodus, then end of term, and the first that holds
    decides. In particular, when after a round the cash is at or below the
    bankruptcy threshold and the satisfaction at or below the
    low-satisfaction threshold, the game is over with the bankruptcy
    message, not the customer exodus one. *)
Theorem bankruptcy_takes_precedence sn q tn rng s s' :
  simulate_round sn q tn rng s = (Return tt, s') ->
  (cash s' <= BANKRUPTCY_THRESHOLD ->
   game_over s' = true
   /\ game_over_message s' = bankruptcy_message
   /\ game_over_message s' <> customer_exodus_message (satisfaction s'))
  /\ (BANKRUPTCY_THRESHOLD < cash s' ->
      satisfaction s' <= LOW_SATISFACTION_THRESHOLD ->
      game_over s' = true
      /\ game_over_message s' = customer_exodus_message (satisfaction s'))
  /\ (BANKRUPTCY_THRESHOLD < cash s' ->
      LOW_SATISFACTION_THRESHOLD < satisfaction s' ->
      MAX_ROUNDS <= round s ->
      game_over s' = true /\ game_over_message s' = end_of_term_message)
  /\ (BANKRUPTCY_THRESHOLD < cash s' ->
      LOW_SATISFACTION_THRESHOLD < satisfaction s' ->
      round s < MAX_ROUNDS ->
      game_over s' = game_over s /\ game_over_message s' = game_over_message s).
Proof.
  intros H. destruct (resolved_round _ _ _ _ _ _ H)
    as (sup & tr & y & p & d & _ & _ & _ & _ & _ & ->).
  destruct s as [r c i sa t g m h ev]. unfold settled. session_cbv.
  repeat match goal with
         | |- context [?a <=? ?b] => destruct (Z.leb_spec a b)
         end;
    repeat split; intros; try lia; try reflexivity; apply bankruptcy_not_exodus.
Qed.

Lemma transport_cost_of_nonneg tr rng p :
  transporter_ok tr = true -> 0 <= p -> 0 <= transport_cost_of tr rng p.
Proof.
  unfold transporter_ok, transport_cost_of. intros H Hp.
  apply andb_prop in H as [H _]. apply andb_prop in H as [Hc Hf].
  apply Z.leb_le in Hc, Hf.
  destruct (PyFloat.ltb _ _); nia.
Qed.

(** The costs of a resolved round whose order quantity is not negative. *)
Lemma round_costs sn q tn rng s s' :
  simulate_round sn q tn rng s = (Return tt, s') ->
  0 <= q ->
  exists row,
    history s' = history s ++ [row]
    /\ 0 <= Row.Sourcing_Cost row
    /\ 0 <= Row.Transport_Cost row
    /\ 0 <= Row.Stockout_Cost row
    /\ 0 <= Row.Holding_Cost row
    /\ Row.Round_Total_Cost row
       = Row.Sourcing_Cost row + Row.Transport_Cost row
         + Row.Stockout_Cost row + Row.Holding_Cost row
    /\ total_costs_accumulated s'
       = total_costs_accumulated s + Row.Round_Total_Cost row.
Proof.
  intros H Hq. destruct (resolved_round _ _ _ _ _ _ H)
    as (sup & tr & y & p & d & Hsup & Htr & Hy & Hp & _ & ->).
  pose proof (get_supplier_details_ok _ _ Hsup) as Hsok.
  pose proof (get_transport_details_ok _ _ Htr) as Htok.
  pose proof (chosen_yield_ok _ _ _ Hsok Hy) as Hfy.
  unfold fraction_ok in Hfy. apply andb_prop in Hfy as [Hfy _].
  apply andb_prop in Hfy as [Hnn _].
  pose proof (int_of_product_nonneg _ _ _ Hq Hnn Hp) as Hp0.
  pose proof (transport_cost_of_nonneg _ rng _ Htok Hp0) as Htc.
  unfold supplier_ok in Hsok. apply andb_prop in Hsok as [Hsok _].
  apply andb_prop in Hsok as [Hcost _]. apply Z.leb_le in Hcost.
  unfold settled. session_cbv. eexists. split; [reflexivity|].
  cbn [Row.Sourcing_Cost Row.Transport_Cost Row.Stockout_Cost Row.Holding_Cost
       Row.Round_Total_Cost].
  unfold STOCKOUT_PENALTY_PER_UNIT, HOLDING_COST_PER_UNIT.
  repeat split; try assumption; try reflexivity; nia.
Qed.

(** C9: in a resolved round whose order quantity is not negative, the round
    total cost, the sum of the sourcing, transport, stockout and holding
    costs, is not negative, each of the four being so; hence the accumulated
    total costs do not decrease over the round. No condition on the starting
    inventory is needed. *)
Theorem round_total_cost_nonneg sn q tn rng s s' :
  simulate_round sn q tn rng s = (Return tt, s') ->
  0 <= q ->
  exists row,
    history s' = history s ++ [row]
    /\ Row.Round_Total_Cost row
       = Row.Sourcing_Cost row + Row.Transport_Cost row
         + Row.Stockout_Cost row + Row.Holding_Cost row
    /\ 0 <= Row.Round_Total_Cost row
    /\ total_costs_accumulated s'
       = total_costs_accumulated s + Row.Round_Total_Cost row
    /\ total_costs_accumulated s <= total_costs_accumulated s'.
Proof.
  intros H Hq.
  destruct (round_costs _ _ _ _ _ _ H Hq) as (row & Hh & H1 & H2 & H3 & H4 & Ht & Ha).
  exists row. repeat split; try assumption; lia.
Qed.

(** C3: the worked round. With yield 1.0, no disruption, no damage, a demand
    of 150 and an order of 150 units, from a supplier at 20 per unit and a
    transporter at 5 per unit, starting with 100 units in stock (selling
    price 50, holding cost 2, stockout penalty 30), the round procures and
    receives 150, has 250 available, sells 150, leaves no demand unmet and
    100 units in stock; revenue 7500, sourcing 3000, transport 750, holding
    200, stockout 0, total cost 3950; the cash grows by 3550 and the
    satisfaction by the bonus of 5, clamped to [0,100]. *)
Theorem stubbed_round_ledger sn tn rng s supplier transporter :
  get_supplier_details sn = Return supplier ->
  Supplier.cost supplier = 20 ->
  choices (Supplier.yield_percentages supplier)
          (Supplier.yield_weights supplier) (choices_random rng)
  = Return (lit 1 1) ->
  get_transport_details tn = Return transporter ->
  Transporter.cost transporter = 5 ->
  PyFloat.ltb (disruption_random rng) (Transporter.disruption_chance transporter)
  = false ->
  PyFloat.ltb (damage_random rng) (Transporter.damage_chance transporter)
  = false ->
  demand_randint rng = 150 ->
  inventory s = 100 ->
  exists s' row,
    simulate_round sn 150 tn rng s = (Return tt, s')
    /\ history s' = history s ++ [row]
    /\ Row.Procured row = 150
    /\ Row.Received row = 150
    /\ inventory s + Row.Received row = 250
    /\ Row.Sold row = 150
    /\ Row.Stockout_Units row = 0
    /\ Row.Inventory row = 100
    /\ inventory s' = 100
    /\ Row.Revenue row = 7500
    /\ Row.Sourcing_Cost row = 3000
    /\ Row.Transport_Cost row = 750
    /\ Row.Holding_Cost row = 200
    /\ Row.Stockout_Cost row = 0
    /\ Row.Round_Total_Cost row = 3950
    /\ cash s' = cash s + 3550
    /\ satisfaction s' = Z.max 0 (Z.min 100 (satisfaction s + 5)).
Proof.
  intros Hsup Hcost Hy Htr Htcost Hdis Hdmg Hdem Hinv.
  assert (Hp : int_of_product 150 (lit 1 1) = Return 150)
    by (vm_compute; reflexivity).
  assert (Hpc : PyFloat.ltb (lit 1 1) (lit 1 1) = true ->
                exists pc, percent_of (lit 1 1) = Return pc)
    by (intros Hlt; vm_compute in Hlt; discriminate).
  assert (Hd : if damage_occurs transporter rng 150
               then int_of_product 150 (Transporter.damage_percentage transporter)
                    = Return 0
               else 0 = 0)
    by (unfold damage_occurs; rewrite Hdmg; reflexivity).
  destruct (simulate_round_returns sn 150 tn rng s supplier transporter
              (lit 1 1) 150 0 Hsup Htr Hy Hp Hpc Hd) as [evs Hrun].
  destruct s as [r c i sa t g m h ev]. simpl in Hinv. subst i.
  do 2 eexists. split; [exact Hrun|].
  unfold settled, transport_cost_of. rewrite Hdis, Hdem, Hcost, Htcost.
  session_cbv. split; [reflexivity|].
  cbn [Row.Procured Row.Received Row.Sold Row.Stockout_Units Row.Inventory
       Row.Revenue Row.Sourcing_Cost Row.Transport_Cost Row.Holding_Cost
       Row.Stockout_Cost Row.Round_Total_Cost].
  unfold SELLING_PRICE_PER_UNIT, STOCKOUT_PENALTY_PER_UNIT, HOLDING_COST_PER_UNIT.
  repeat split; try reflexivity; lia.
Qed.

(** C2, as the code has it: a round with an order quantity of 0 resolves,
    whatever the draws, with nothing procured, no sourcing cost and nothing
    received; its transport cost is the flat disruption fee of the
    transporter when the disruption draw is below the disruption chance, and
    0 otherwise. The rest of the round is the sale of the existing stock
    against the demand, with its revenue, stockout cost and holding cost. *)
Theorem zero_order_round sn tn rng s transporter :
  In sn (keys SUPPLIERS) ->
  get_transport_details tn = Return transporter ->
  exists s' row,
    simulate_round sn 0 tn rng s = (Return tt, s')
    /\ history s' = history s ++ [row]
    /\ Row.Procured row = 0
    /\ Row.Sourcing_Cost row = 0
    /\ Row.Received row = 0
    /\ Row.Transport_Cost row
       = (if PyFloat.ltb (disruption_random rng)
                         (Transporter.disruption_chance transporter)
          then Transporter.disruption_fee transporter else 0)
    /\ Row.Sold row = Z.min (inventory s) (demand_randint rng)
    /\ Row.Revenue row = Row.Sold row * SELLING_PRICE_PER_UNIT
    /\ Row.Stockout_Cost row
       = (demand_randint rng - Row.Sold row) * STOCKOUT_PENALTY_PER_UNIT
    /\ Row.Holding_Cost row
       = (inventory s - Row.Sold row) * HOLDING_COST_PER_UNIT
    /\ Row.Round_Total_Cost row
       = Row.Transport_Cost row + Row.Stockout_Cost row + Row.Holding_Cost row
    /\ cash s' = cash s + Row.Revenue row - Row.Round_Total_Cost row
    /\ inventory s' = inventory s - Row.Sold row.
Proof.
  intros Hsn Htr.
  destruct (keys_getitem SUPPLIERS sn Hsn) as [sup Hsup].
  pose proof (get_supplier_details_ok _ _ Hsup) as Hok.
  assert (Hw : weights_accepted (Supplier.yield_percentages sup)
                                (Supplier.yield_weights sup) = true).
  { unfold supplier_ok in Hok. apply andb_prop in Hok as [Hok _].
    now apply andb_prop in Hok as [_ Hok]. }
  destruct (choices_total _ _ (choices_random rng) Hw) as [y Hy].
  pose proof (chosen_yield_ok _ _ _ Hok Hy) as Hfy.
  unfold fraction_ok in Hfy. apply andb_prop in Hfy as [Hfy Hpc].
  apply andb_prop in Hfy as [_ Hfin].
  assert (Hpc' : PyFloat.ltb y (lit 1 1) = true -> exists pc, percent_of y = Return pc).
  { intros _. destruct (percent_of y) as [pc|]; [now exists pc | discriminate]. }
  assert (Hd : if damage_occurs transporter rng 0
               then int_of_product 0 (Transporter.damage_percentage transporter)
                    = Return 0
               else 0 = 0).
  { unfold damage_occurs. rewrite andb_false_r. reflexivity. }
  destruct (simulate_round_returns sn 0 tn rng s sup transporter y 0 0
              Hsup Htr Hy (int_of_product_zero y Hfin) Hpc' Hd) as [evs Hrun].
  destruct s as [r c i sa t g m h ev].
  do 2 eexists. split; [exact Hrun|].
  unfold settled, transport_cost_of. session_cbv. split; [reflexivity|].
  cbn [Row.Procured Row.Received Row.Sold Row.Stockout_Units Row.Inventory
       Row.Revenue Row.Sourcing_Cost Row.Transport_Cost Row.Holding_Cost
       Row.Stockout_Cost Row.Round_Total_Cost].
  rewrite !Z.mul_0_l, !Z.add_0_l, Z.sub_0_r, Z.add_0_r.
  repeat split; try reflexivity; lia.
Qed.

(** ** Sessions *)

Lemma on_schedule_round sn q tn rng s s' n :
  simulate_round sn q tn rng s = (Return tt, s') ->
  BANKRUPTCY_THRESHOLD < cash s' ->
  LOW_SATISFACTION_THRESHOLD < satisfaction s' ->
  on_schedule n s -> on_schedule (S n) s'.
Proof.
  intros H. destruct (resolved_round _ _ _ _ _ _ H)
    as (sup & tr & y & p & d & _ & _ & _ & _ & _ & ->).
  destruct s as [r c i sa t g m h ev].
  unfold on_schedule, settled. session_cbv. unfold MAX_ROUNDS.
  intros Hc Hs (Hr & Hg & Hm).
  repeat match goal with
         | |- context [?a <=? ?b] => destruct (Z.leb_spec a b)
         | H : context [?a <=? ?b] |- _ => destruct (Z.leb_spec a b)
         end;
    subst; cbn [negb]; repeat split; intros; try lia; try reflexivity;
    try discriminate; auto.
Qed.

Lemma play_solvent_on_schedule ts : forall n s s',
  play_solvent ts s = Some s' ->
  on_schedule n s -> on_schedule (n + List.length ts) s'.
Proof.
  induction ts as [|t ts IH]; intros n s s' H Hn; simpl in H.
  - injection H as <-. now rewrite Nat.add_0_r.
  - destruct (play_turn t s) as [[[]|e] s1] eqn:Ht; [|discriminate].
    destruct ((BANKRUPTCY_THRESHOLD <? cash s1)
              && (LOW_SATISFACTION_THRESHOLD <? satisfaction s1)) eqn:Hsolv;
      [|discriminate].
    apply andb_prop in Hsolv as [Hc Hs]. apply Z.ltb_lt in Hc, Hs.
    simpl List.length. rewrite Nat.add_succ_r, <- Nat.add_succ_l.
    apply (IH (S n) s1 s' H).
    exact (on_schedule_round _ _ _ _ _ _ _ Ht Hc Hs Hn).
Qed.

(** C7: in a session whose rounds bring neither bankruptcy nor customer
    exodus, the round counter after [n] rounds is [n + 1] up to round 12 and
    stays at 12 from then on; the game is over exactly when 12 rounds have
    been resolved, not after 11, and its message is then the end of term
    one. So the counter moves only after a round that did not end the game,
    and no longer after the end. *)
Theorem end_of_term_at_max_rounds ts s' :
  play_solvent ts initial_state = Some s' ->
  round s' = Z.min (Z.of_nat (List.length ts) + 1) MAX_ROUNDS
  /\ (game_over s' = true <-> MAX_ROUNDS <= Z.of_nat (List.length ts))
  /\ (game_over s' = true -> game_over_message s' = end_of_term_message).
Proof.
  intros H.
  assert (H0 : on_schedule 0 initial_state)
    by (repeat split; intros; discriminate).
  destruct (play_solvent_on_schedule ts 0 initial_state s' H H0) as (Hr & Hg & Hm).
  simpl in Hr, Hg. repeat split; try assumption.
  - intros Ho. rewrite Ho in Hg. symmetry in Hg. now apply Z.leb_le in Hg.
  - intros Hle. rewrite Hg. now apply Z.leb_le.
Qed.

Lemma simulate_round_round_bounds sn q tn rng s o s' :
  simulate_round sn q tn rng s = (o, s') ->
  1 <= round s <= MAX_ROUNDS -> 1 <= round s' <= MAX_ROUNDS.
Proof.
  intros H Hr.
  destruct (simulate_round_cases _ _ _ _ _ _ _ H)
    as [(e & _ & ->)|(_ & sup & tr & y & p & d & _ & _ & _ & _ & _ & ->)].
  - destruct s; exact Hr.
  - destruct s as [r c i sa t g m h ev]. revert Hr.
    unfold settled. session_cbv. unfold MAX_ROUNDS.
    repeat match goal with
           | |- context [?a <=? ?b] => destruct (Z.leb_spec a b)
           end;
      try destruct g; cbn [negb]; lia.
Qed.

(** C10: in every state reachable from the initial state by calls of
    [simulate_round], the round counter lies between 1 and [MAX_ROUNDS]
    (12): round 12 always ends the game, and the counter moves only when
    the game is not over. *)
Theorem round_within_bounds s :
  reachable s -> 1 <= round s <= MAX_ROUNDS.
Proof.
  induction 1 as [|s t o s' _ IH Hstep].
  - unfold MAX_ROUNDS. simpl. lia.
  - exact (simulate_round_round_bounds _ _ _ _ _ _ _ Hstep IH).
Qed.

(** The accumulated costs never decrease over a session whose order
    quantities are not negative. *)
Lemma session_costs_monotone ts : forall s,
  Forall (fun t => 0 <= turn_quantity t) ts ->
  total_costs_accumulated s
  <= total_costs_accumulated (fold_left (fun s t => snd (play_turn t s)) ts s).
Proof.
  induction ts as [|t ts IH]; intros s Hq; simpl; [lia|].
  inversion Hq as [|? ? Ht Hts]; subst.
  etransitivity; [|apply IH, Hts].
  destruct (play_turn t s) as [o s1] eqn:Hstep. simpl.
  unfold play_turn in Hstep.
  destruct (simulate_round_cases _ _ _ _ _ _ _ Hstep) as [(e & _ & ->)|[-> _]].
  - destruct s; simpl; lia.
  - destruct (round_costs _ _ _ _ _ _ Hstep Ht) as (row & _ & ? & ? & ? & ? & ? & ?).
    lia.
Qed.

(** ** The script *)

Lemma show_keeps_state s : snd (show s) = s.
Proof.
  unfold show. cbv beta iota zeta delta [bind lift read ret].
  destruct (game_over s); [|reflexivity].
  destruct (game_over_screen s); reflexivity.
Qed.


(** ** The accuracy of the score

    The float operations of [final_score] are followed through the
    rounding of [SpecFloat]: [float(n)] is exact, the quotient by 10 and the
    subtraction are each rounded once, and the error of a rounding is
    bounded by twice the weight of the last bit kept.  Values are compared
    as integers, in units of [2^-K] ([scaled]), and turned into rationals
    at the end. *)

(** *** Binary digits and right shifts *)

Lemma digits2_pos_size p : digits2_pos p = Pos.size p.
Proof. induction p; simpl; congruence. Qed.

Lemma Zdigits2_log2 p : Zdigits2 (Zpos p) = Z.log2 (Zpos p) + 1.
Proof.
  unfold Zdigits2. rewrite digits2_pos_size.
  destruct p; simpl; try rewrite Pos2Z.inj_succ; lia.
Qed.

Lemma Zdigits2_bounds p :
  2 ^ (Zdigits2 (Zpos p) - 1) <= Zpos p < 2 ^ Zdigits2 (Zpos p).
Proof.
  rewrite Zdigits2_log2.
  replace (Z.log2 (Z.pos p) + 1 - 1) with (Z.log2 (Z.pos p)) by lia.
  replace (Z.log2 (Z.pos p) + 1) with (Z.succ (Z.log2 (Z.pos p))) by lia.
  apply Z.log2_spec. lia.
Qed.

Lemma Zdigits2_pos p : 1 <= Zdigits2 (Zpos p).
Proof. rewrite Zdigits2_log2. pose proof (Z.log2_nonneg (Zpos p)). lia. Qed.

Lemma Zdigits2_le p k : 0 <= k -> Zpos p < 2 ^ k -> Zdigits2 (Zpos p) <= k.
Proof.
  intros Hk H. rewrite Zdigits2_log2.
  assert (Z.log2 (Zpos p) < k) by (apply Z.log2_lt_pow2; lia). lia.
Qed.

Lemma Zdigits2_gt p k : 0 <= k -> 2 ^ k <= Zpos p -> k < Zdigits2 (Zpos p).
Proof.
  intros Hk H. rewrite Zdigits2_log2.
  assert (k <= Z.log2 (Zpos p)) by (apply Z.log2_le_pow2; lia). lia.
Qed.

Lemma shr_1_m mrs : 0 <= shr_m mrs -> shr_m (shr_1 mrs) = shr_m mrs / 2.
Proof.
  destruct mrs as [m r s]. simpl. intros H.
  destruct m as [|[p|p|]|p]; cbn [shr_m]; try lia; try reflexivity.
  - apply Z.div_unique with 1; lia.
  - apply Z.div_unique with 0; lia.
Qed.

Lemma pow2_pos a : 0 <= a -> 0 < 2 ^ a.
Proof. intros. apply Z.pow_pos_nonneg; lia. Qed.

Lemma div_pow2_twice m a b :
  0 <= a -> 0 <= b -> m / 2 ^ a / 2 ^ b = m / 2 ^ (a + b).
Proof.
  intros Ha Hb. rewrite Z.pow_add_r by lia.
  pose proof (pow2_pos a Ha). pose proof (pow2_pos b Hb).
  apply Z.div_div; lia.
Qed.

Lemma iter_pos_shr_1_m p : forall mrs,
  0 <= shr_m mrs -> shr_m (SpecFloat.iter_pos shr_1 p mrs) = shr_m mrs / 2 ^ Zpos p.
Proof.
  assert (Hnn : forall m a, 0 <= m -> 0 <= a -> 0 <= m / 2 ^ a).
  { intros m a Hm Ha. apply Z.div_pos; [lia | now apply pow2_pos]. }
  induction p as [p IH|p IH|]; intros mrs Hm; simpl SpecFloat.iter_pos.
  - rewrite IH, IH, shr_1_m by
      (try rewrite IH; try rewrite shr_1_m; try apply Hnn; try apply Z.div_pos; lia).
    change (2 ^ 1) with 2.
    replace (shr_m mrs / 2) with (shr_m mrs / 2 ^ 1) by reflexivity.
    rewrite !div_pow2_twice by lia. f_equal. f_equal. lia.
  - rewrite IH, IH by (try rewrite IH; try apply Hnn; lia).
    rewrite div_pow2_twice by lia. f_equal. f_equal. lia.
  - rewrite shr_1_m by lia. reflexivity.
Qed.

Lemma shr_spec mrs e z :
  0 <= shr_m mrs ->
  shr_m (fst (shr mrs e z)) = shr_m mrs / 2 ^ Z.max 0 z
  /\ snd (shr mrs e z) = e + Z.max 0 z.
Proof.
  intros Hm. destruct z as [|p|p]; simpl.
  - rewrite Z.div_1_r. lia.
  - rewrite iter_pos_shr_1_m by assumption. split; reflexivity.
  - rewrite Z.div_1_r. lia.
Qed.

Lemma round_nearest_even_bounds m l :
  m <= round_nearest_even m l <= m + 1.
Proof.
  destruct l as [|[]]; simpl; try lia. destruct (Z.even m); lia.
Qed.

Lemma shr_record_of_loc_m m l : shr_m (shr_record_of_loc m l) = m.
Proof. destruct l as [|[]]; reflexivity. Qed.

Lemma shr_fexp_spec m e l :
  0 <= m -> -1074 <= e ->
  shr_m (fst (shr_fexp 53 1024 m e l)) = m / 2 ^ Z.max 0 (Zdigits2 m - 53)
  /\ snd (shr_fexp 53 1024 m e l) = e + Z.max 0 (Zdigits2 m - 53).
Proof.
  intros Hm He. unfold shr_fexp.
  destruct (shr_spec (shr_record_of_loc m l) e
                     (fexp 53 1024 (Zdigits2 m + e) - e)) as [H1 H2].
  { now rewrite shr_record_of_loc_m. }
  rewrite shr_record_of_loc_m in H1.
  assert (Hn : Z.max 0 (fexp 53 1024 (Zdigits2 m + e) - e)
               = Z.max 0 (Zdigits2 m - 53)).
  { unfold fexp, emin. lia. }
  rewrite Hn in H1, H2. split; assumption.
Qed.

(** *** One rounding

    Rounding [m * 2^e] gives a finite float [m3 * 2^(e+d)] that keeps the
    sign, with [d] the number of bits dropped, and differs from [m * 2^e]
    by at most [2^(d+1)] units of [2^e]. *)
Lemma binary_round_aux_finite s m e l :
  -1074 <= e ->
  e + Z.max 0 (Zdigits2 (Zpos m) - 53) + 1 <= 971 ->
  exists m3 d,
    binary_round_aux 53 1024 s (Zpos m) e l = S754_finite s m3 (e + d)
    /\ 0 <= d <= Z.max 0 (Zdigits2 (Zpos m) - 53) + 1
    /\ Z.abs (Zpos m3 * 2 ^ d - Zpos m) <= 2 ^ (d + 1).
Proof.
  intros He Hmax. unfold binary_round_aux.
  destruct (shr_fexp_spec (Zpos m) e l) as [H1 H2]; [lia | lia |].
  destruct (shr_fexp 53 1024 (Z.pos m) e l) as [mrs1 e1].
  cbn [fst snd] in H1, H2.
  set (n := Z.max 0 (Zdigits2 (Z.pos m) - 53)) in *.
  assert (Hn : 0 <= n) by lia.
  pose proof (pow2_pos n Hn) as Hpn.
  pose proof (Zdigits2_bounds m) as [Hlo Hhi].
  pose proof (Zdigits2_pos m) as Hd.
  set (m1 := shr_m mrs1) in *.
  (* m1 * 2^n <= m < (m1 + 1) * 2^n *)
  assert (Hm1 : m1 * 2 ^ n <= Zpos m < (m1 + 1) * 2 ^ n).
  { rewrite H1. pose proof (Z.div_mod (Zpos m) (2 ^ n)).
    pose proof (Z.mod_pos_bound (Zpos m) (2 ^ n)). nia. }
  assert (Hm1lo : 1 <= m1).
  { assert (2 ^ n <= Zpos m).
    { apply Z.le_trans with (2 ^ (Zdigits2 (Zpos m) - 1)); [|exact Hlo].
      apply Z.pow_le_mono_r; lia. }
    nia. }
  assert (Hm1hi : m1 < 2 ^ 53).
  { assert (Zpos m < 2 ^ (53 + n)).
    { apply Z.lt_le_trans with (2 ^ Zdigits2 (Zpos m)); [exact Hhi|].
      apply Z.pow_le_mono_r; lia. }
    rewrite Z.pow_add_r in H by lia. nia. }
  pose proof (round_nearest_even_bounds m1 (loc_of_shr_record mrs1)) as Hm2.
  set (m2 := round_nearest_even m1 (loc_of_shr_record mrs1)) in *.
  destruct (shr_fexp_spec m2 e1 loc_Exact) as [H3 H4]; [lia | lia |].
  destruct (shr_fexp 53 1024 m2 e1 loc_Exact) as [mrs2 e2].
  cbn [fst snd] in H3, H4.
  destruct m2 as [|p2|p2] eqn:Hp2; try lia.
  pose proof (Zdigits2_bounds p2) as [Hlo2 Hhi2].
  pose proof (Zdigits2_pos p2) as Hd2.
  assert (Hd2' : Zdigits2 (Zpos p2) <= 54).
  { apply Zdigits2_le; [lia|]. change (2 ^ 54) with (2 * 2 ^ 53). lia. }
  set (c := Z.max 0 (Zdigits2 (Z.pos p2) - 53)) in *.
  assert (Hc : c = 0 \/ c = 1) by lia.
  assert (Hm3 : 1 <= shr_m mrs2 /\ Zpos p2 - 1 <= shr_m mrs2 * 2 ^ c <= Zpos p2).
  { rewrite H3. destruct Hc as [Hc | Hc]; rewrite Hc.
    - change (2 ^ 0) with 1. rewrite Z.div_1_r. lia.
    - change (2 ^ 1) with 2.
      assert (Zdigits2 (Zpos p2) = 54) by (unfold c in Hc; lia).
      rewrite H in Hlo2. change (2 ^ (54 - 1)) with (2 ^ 53) in Hlo2.
      pose proof (Z.div_mod (Zpos p2) 2). pose proof (Z.mod_pos_bound (Zpos p2) 2).
      change (2 ^ 53) with 9007199254740992 in *. lia. }
  destruct (shr_m mrs2) as [|m3|m3] eqn:Hm3e; try lia.
  assert (Hle : (e2 <=? 1024 - 53) = true) by (apply Z.leb_le; lia).
  rewrite Hle. exists m3, (n + c).
  split; [f_equal; lia|]. split; [lia|].
  replace (2 ^ (n + c)) with (2 ^ c * 2 ^ n) by (rewrite Z.pow_add_r; lia).
  replace (2 ^ (n + c + 1)) with (2 * 2 ^ c * 2 ^ n)
    by (rewrite !Z.pow_add_r by lia; change (2 ^ 1) with 2; lia).
  assert (1 <= 2 ^ c) by (destruct Hc as [Hc | Hc]; rewrite Hc; cbv; discriminate).
  nia.
Qed.

(** A mantissa of at most 53 bits is kept as it is. *)
Lemma binary_round_aux_exact s m e :
  -1074 <= e <= 971 -> Zdigits2 (Zpos m) <= 53 ->
  binary_round_aux 53 1024 s (Zpos m) e loc_Exact = S754_finite s m e.
Proof.
  intros He Hd. unfold binary_round_aux, shr_fexp.
  assert (Hz : fexp 53 1024 (Zdigits2 (Z.pos m) + e) - e <= 0)
    by (unfold fexp, emin; lia).
  destruct (fexp 53 1024 (Zdigits2 (Z.pos m) + e) - e) as [|p|p] eqn:Hz';
    try lia; cbn [shr shr_record_of_loc shr_m loc_of_shr_record round_nearest_even];
    rewrite Hz'; cbn [shr shr_m];
    (replace (e <=? 1024 - 53) with true by (symmetry; apply Z.leb_le; lia));
    reflexivity.
Qed.

Lemma iter_xO_pow2 m d : Zpos (Pos.iter xO m d) = Zpos m * 2 ^ Zpos d.
Proof.
  induction d as [|d IH] using Pos.peano_ind.
  - simpl. lia.
  - rewrite Pos.iter_succ, Pos2Z.inj_xO, IH, Pos2Z.inj_succ, Z.pow_succ_r by lia.
    lia.
Qed.

Lemma shl_align_spec m e e' :
  snd (shl_align m e e') = Z.min e e'
  /\ Zpos (fst (shl_align m e e')) = Zpos m * 2 ^ (e - Z.min e e').
Proof.
  unfold shl_align. destruct (e' - e) as [|d|d] eqn:Hd; cbn [fst snd].
  - replace (Z.min e e') with e by lia. rewrite Z.sub_diag. lia.
  - replace (Z.min e e') with e by lia. rewrite Z.sub_diag. lia.
  - replace (Z.min e e') with e' by lia. split; [reflexivity|].
    rewrite iter_xO_pow2. f_equal. f_equal. lia.
Qed.

(** [binary_normalize] of the integer [D] at exponent [ez]: a finite float
    with the sign of [D], at most [2^(e3+1)] away from [D * 2^ez]. *)
Lemma binary_normalize_spec D ez b K :
  D <> 0 -> -1074 <= ez -> Zdigits2 D + ez <= 1000 ->
  0 <= K + Z.min ez (Zdigits2 D + ez - 53) ->
  exists m3 e3,
    binary_normalize 53 1024 D ez b = S754_finite (D <? 0) m3 e3
    /\ Z.min ez (Zdigits2 D + ez - 53) <= e3
       <= Z.max (Zdigits2 D + ez - 53) (-1074) + 1
    /\ Z.abs (scaled K (S754_finite (D <? 0) m3 e3) - D * 2 ^ (ez + K))
       <= 2 ^ (e3 + K + 1).
Proof.
  intros HD Hez Hd HK.
  assert (Hgen : forall s (p : positive),
    Zdigits2 (Zpos p) + ez <= 1000 ->
    0 <= K + Z.min ez (Zdigits2 (Zpos p) + ez - 53) ->
    exists m3 e3,
      binary_round 53 1024 s p ez = S754_finite s m3 e3
      /\ Z.min ez (Zdigits2 (Zpos p) + ez - 53) <= e3
         <= Z.max (Zdigits2 (Zpos p) + ez - 53) (-1074) + 1
      /\ Z.abs (Zpos m3 * 2 ^ (e3 + K) - Zpos p * 2 ^ (ez + K))
         <= 2 ^ (e3 + K + 1)).
  { clear D HD Hd HK. intros s p Hd HK. unfold binary_round.
    change (Z.pos (digits2_pos p)) with (Zdigits2 (Zpos p)).
    destruct (shl_align_spec p ez (fexp 53 1024 (Zdigits2 (Z.pos p) + ez)))
      as [H1 H2].
    destruct (shl_align p ez (fexp 53 1024 (Zdigits2 (Z.pos p) + ez)))
      as [mz ez2]. cbn [fst snd] in H1, H2.
    set (dp := Zdigits2 (Zpos p)) in *.
    assert (Hez2 : ez2 = Z.min ez (Z.max (dp + ez - 53) (-1074)))
      by (rewrite H1; unfold fexp, emin; lia).
    rewrite <- H1 in H2.
    pose proof (Zdigits2_bounds p) as [Hlo Hhi]. fold dp in Hlo, Hhi.
    pose proof (Zdigits2_pos p) as Hdp. fold dp in Hdp.
    assert (Hsh : 0 <= ez - ez2) by lia.
    pose proof (pow2_pos (ez - ez2) Hsh) as Hpsh.
    assert (Hdz : Zdigits2 (Zpos mz) = dp + (ez - ez2)).
    { apply Z.le_antisymm.
      - apply Zdigits2_le; [lia|]. rewrite H2, Z.pow_add_r by lia. nia.
      - assert (dp + (ez - ez2) - 1 < Zdigits2 (Zpos mz)); [|lia].
        apply Zdigits2_gt; [lia|].
        replace (dp + (ez - ez2) - 1) with ((dp - 1) + (ez - ez2)) by lia.
        rewrite H2, Z.pow_add_r by lia. nia. }
    destruct (binary_round_aux_finite s mz ez2 loc_Exact) as (m3 & d & Hr & Hdb & Habs);
      [lia | lia |].
    exists m3, (ez2 + d). split; [exact Hr|]. split; [lia|].
    rewrite H2 in Habs.
    replace (ez2 + d + K) with (d + (ez2 + K)) by lia.
    replace (ez + K) with ((ez - ez2) + (ez2 + K)) by lia.
    replace (d + (ez2 + K) + 1) with ((d + 1) + (ez2 + K)) by lia.
    rewrite (Z.pow_add_r 2 d (ez2 + K)), (Z.pow_add_r 2 (ez - ez2) (ez2 + K)),
      (Z.pow_add_r 2 (d + 1) (ez2 + K)) by lia.
    pose proof (pow2_pos (ez2 + K)) as Hp. specialize (Hp ltac:(lia)).
    set (P := 2 ^ (ez2 + K)) in *. set (Q := 2 ^ (ez - ez2)) in *.
    set (R := 2 ^ d) in *. set (R2 := 2 ^ (d + 1)) in *.
    replace (Z.pos m3 * (R * P) - Z.pos p * (Q * P))
      with ((Z.pos m3 * R - Z.pos p * Q) * P) by ring.
    rewrite Z.abs_mul, (Z.abs_eq P) by lia.
    apply Z.mul_le_mono_nonneg_r; lia. }
  destruct D as [|p|p]; [contradiction | |]; cbn [binary_normalize Z.ltb Z.compare].
  - destruct (Hgen false p Hd HK) as (m3 & e3 & Hr & He & Habs).
    exists m3, e3. split; [exact Hr|]. split; [exact He|].
    cbn [scaled cond_Zopp]. exact Habs.
  - destruct (Hgen true p Hd HK) as (m3 & e3 & Hr & He & Habs).
    exists m3, e3. split; [exact Hr|]. split; [exact He|].
    cbn [scaled cond_Zopp].
    replace (- (Z.pos m3 * 2 ^ (e3 + K)) - Z.neg p * 2 ^ (ez + K))
      with (- (Z.pos m3 * 2 ^ (e3 + K) - Z.pos p * 2 ^ (ez + K))) by lia.
    rewrite Z.abs_opp. exact Habs.
Qed.

(** *** The operations of the score *)

Lemma Zdigits2_shift p q k :
  0 <= k -> Zpos q = Zpos p * 2 ^ k ->
  Zdigits2 (Zpos q) = Zdigits2 (Zpos p) + k.
Proof.
  intros Hk Hq.
  pose proof (Zdigits2_bounds p) as [Hlo Hhi].
  pose proof (Zdigits2_pos p) as Hd.
  pose proof (pow2_pos k Hk) as Hp.
  apply Z.le_antisymm.
  - apply Zdigits2_le; [lia|]. rewrite Hq, Z.pow_add_r by lia. nia.
  - assert (Zdigits2 (Zpos p) + k - 1 < Zdigits2 (Zpos q)); [|lia].
    apply Zdigits2_gt; [lia|].
    replace (Zdigits2 (Zpos p) + k - 1) with ((Zdigits2 (Zpos p) - 1) + k) by lia.
    rewrite Hq, Z.pow_add_r by lia. nia.
Qed.

(** [float(n)] is exact below [2^53]. *)
Lemma nearest_exact n K :
  n <> 0 -> Z.abs n < 2 ^ 53 -> 52 <= K ->
  exists m e,
    PyFloat.nearest n = S754_finite (n <? 0) m e
    /\ -52 <= e <= 0
    /\ scaled K (S754_finite (n <? 0) m e) = n * 2 ^ K.
Proof.
  intros Hn Hb HK.
  assert (Hgen : forall s (p : positive),
    Zpos p < 2 ^ 53 ->
    exists m e, binary_round 53 1024 s p 0 = S754_finite s m e
                /\ -52 <= e <= 0
                /\ Zpos m * 2 ^ (e + K) = Zpos p * 2 ^ K).
  { intros s p Hp. unfold binary_round.
    change (Z.pos (digits2_pos p)) with (Zdigits2 (Zpos p)).
    destruct (shl_align_spec p 0 (fexp 53 1024 (Zdigits2 (Z.pos p) + 0)))
      as [H1 H2].
    destruct (shl_align p 0 (fexp 53 1024 (Zdigits2 (Z.pos p) + 0)))
      as [mz ez]. cbn [fst snd] in H1, H2.
    pose proof (Zdigits2_pos p) as Hd.
    assert (Hdp : Zdigits2 (Zpos p) <= 53) by (apply Zdigits2_le; lia).
    assert (Hez : ez = Zdigits2 (Zpos p) - 53)
      by (rewrite H1; unfold fexp, emin; lia).
    rewrite <- H1 in H2.
    assert (Hdz : Zdigits2 (Zpos mz) = 53).
    { rewrite (Zdigits2_shift p mz (0 - ez)); [lia | lia | exact H2]. }
    exists mz, ez. split; [apply binary_round_aux_exact; lia|].
    split; [lia|]. rewrite H2.
    rewrite <- Z.mul_assoc, <- Z.pow_add_r by lia. f_equal. f_equal. lia. }
  unfold PyFloat.nearest, PyFloat.prec, PyFloat.emax.
  destruct n as [|p|p]; [contradiction | |]; cbn [binary_normalize Z.ltb Z.compare].
  - destruct (Hgen false p) as (m & e & Hr & He & Hv); [lia|].
    exists m, e. split; [exact Hr|]. split; [exact He|]. exact Hv.
  - destruct (Hgen true p) as (m & e & Hr & He & Hv); [lia|].
    exists m, e. split; [exact Hr|]. split; [exact He|].
    cbn [scaled cond_Zopp]. rewrite Hv. lia.
Qed.

Lemma div_eucl_div_mod a b : Z.div_eucl a b = (a / b, a mod b).
Proof. unfold Z.div, Z.modulo. now destruct (Z.div_eucl a b). Qed.

(** [T / 10] for a positive [T]: the quotient to within [89] units of
    [2^(d-57)], where [d] is the number of binary digits of [T]. *)
Lemma truediv_10_spec T K :
  0 < T < 2 ^ 26 -> 57 <= K ->
  exists m e,
    PyFloat.truediv T 10 = Return (S754_finite false m e)
    /\ -56 <= e <= -29
    /\ Z.abs (10 * scaled K (S754_finite false m e) - T * 2 ^ K)
       <= 89 * 2 ^ (K - 31).
Proof.
  intros HT HK. destruct T as [|t|t]; try lia.
  pose proof (Zdigits2_bounds t) as [Hlo Hhi].
  pose proof (Zdigits2_pos t) as Hd.
  assert (Hd26 : Zdigits2 (Zpos t) <= 26) by (apply Zdigits2_le; lia).
  set (d := Zdigits2 (Zpos t)) in *.
  unfold PyFloat.truediv, PyFloat.prec, PyFloat.emax, SFdiv_core_binary.
  cbn [Z.abs]. fold d. change (Zdigits2 10) with 4.
  assert (He : Z.min (fexp 53 1024 (d + 0 - (4 + 0))) (0 - 0) = d - 57)
    by (unfold fexp, emin; lia).
  rewrite He.
  assert (Hs : 0 - 0 - (d - 57) = 57 - d) by lia. rewrite Hs.
  assert (Hm' : match 57 - d with
                | 0 => Z.pos t
                | Z.pos _ => Z.shiftl (Z.pos t) (57 - d)
                | Z.neg _ => 0
                end = Zpos t * 2 ^ (57 - d)).
  { destruct (57 - d) eqn:Hsd; try lia. apply Z.shiftl_mul_pow2. lia. }
  rewrite Hm', div_eucl_div_mod.
  set (N := Zpos t * 2 ^ (57 - d)) in *.
  assert (HN : 2 ^ 56 <= N < 2 ^ 57).
  { unfold N. pose proof (pow2_pos (57 - d)) as Hp. specialize (Hp ltac:(lia)).
    replace (2 ^ 56) with (2 ^ (d - 1) * 2 ^ (57 - d))
      by (rewrite <- Z.pow_add_r by lia; f_equal; lia).
    replace (2 ^ 57) with (2 ^ d * 2 ^ (57 - d))
      by (rewrite <- Z.pow_add_r by lia; f_equal; lia).
    nia. }
  pose proof (Z.div_mod N 10 ltac:(lia)) as Hdm.
  pose proof (Z.mod_pos_bound N 10 ltac:(lia)) as Hr.
  set (q := N / 10) in *. set (r := N mod 10) in *.
  change (2 ^ 56) with 72057594037927936 in HN.
  change (2 ^ 57) with 144115188075855872 in HN.
  destruct q as [|q0|q0] eqn:Hq; try lia.
  assert (Hdq : Zdigits2 (Zpos q0) <= 54).
  { apply Zdigits2_le; [lia|]. change (2 ^ 54) with 18014398509481984. lia. }
  pose proof (Zdigits2_pos q0) as Hdq'.
  destruct (binary_round_aux_finite (xorb false false) q0 (d - 57)
                                    (new_location 10 r))
    as (m3 & c & Hres & Hc & Habs); [lia | lia |].
  change (xorb (Z.pos t <? 0) (10 <? 0)) with (xorb false false).
  rewrite Hres. cbn [xorb]. exists m3, (d - 57 + c).
  split; [reflexivity|]. split; [lia|].
  cbn [scaled cond_Zopp].
  assert (Hc8 : 2 ^ (c + 1) <= 8).
  { change 8 with (2 ^ 3). apply Z.pow_le_mono_r; lia. }
  assert (HT2 : Zpos t * 2 ^ K = N * 2 ^ (d - 57 + K)).
  { unfold N. rewrite <- Z.mul_assoc, <- Z.pow_add_r by lia.
    f_equal. f_equal. lia. }
  rewrite HT2.
  replace (d - 57 + c + K) with (c + (d - 57 + K)) by lia.
  rewrite (Z.pow_add_r 2 c) by lia.
  pose proof (pow2_pos (d - 57 + K)) as HP. specialize (HP ltac:(lia)).
  assert (HPle : 2 ^ (d - 57 + K) <= 2 ^ (K - 31))
    by (apply Z.pow_le_mono_r; lia).
  set (P := 2 ^ (d - 57 + K)) in *.
  replace (10 * (Z.pos m3 * (2 ^ c * P)) - N * P)
    with ((10 * (Z.pos m3 * 2 ^ c - Zpos q0) - r) * P) by (rewrite Hdm; ring).
  rewrite Z.abs_mul, (Z.abs_eq P) by lia.
  apply Z.le_trans with (89 * P); [|lia].
  apply Z.mul_le_mono_nonneg_r; lia.
Qed.

(** [x - y] on two finite floats: the exact difference, rounded once. *)
Lemma SFsub_spec sx mx ex sy my ey K M :
  -1074 <= ex -> -1074 <= ey -> M <= 1000 ->
  0 <= K -> 52 - Z.min ex ey <= K ->
  Z.abs (scaled K (S754_finite sx mx ex) - scaled K (S754_finite sy my ey))
  < 2 ^ (M + K) ->
  PyFloat.isfinite (SFsub 53 1024 (S754_finite sx mx ex) (S754_finite sy my ey))
  = true
  /\ 0 <= exponent (SFsub 53 1024 (S754_finite sx mx ex) (S754_finite sy my ey)) + K
  /\ Z.abs (scaled K (SFsub 53 1024 (S754_finite sx mx ex) (S754_finite sy my ey))
            - (scaled K (S754_finite sx mx ex) - scaled K (S754_finite sy my ey)))
     <= 2 ^ (Z.max (M - 53) (-1074) + K + 2).
Proof.
  intros Hex Hey HM HK0 HK Hmag. cbn [SFsub].
  set (ez := Z.min ex ey) in *.
  destruct (shl_align_spec mx ex ez) as [_ Hx].
  destruct (shl_align_spec my ey ez) as [_ Hy].
  replace (Z.min ex ez) with ez in Hx by lia.
  replace (Z.min ey ez) with ez in Hy by lia.
  set (ax := fst (shl_align mx ex ez)) in *.
  set (ay := fst (shl_align my ey ez)) in *.
  set (D := cond_Zopp sx (Z.pos ax) - cond_Zopp sy (Z.pos ay)).
  assert (HP : 0 < 2 ^ (ez + K)) by (apply pow2_pos; lia).
  assert (HD : D * 2 ^ (ez + K)
               = scaled K (S754_finite sx mx ex) - scaled K (S754_finite sy my ey)).
  { unfold D. cbn [scaled]. rewrite Hx, Hy.
    replace (ex + K) with ((ex - ez) + (ez + K)) by lia.
    replace (ey + K) with ((ey - ez) + (ez + K)) by lia.
    rewrite (Z.pow_add_r 2 (ex - ez)), (Z.pow_add_r 2 (ey - ez)) by lia.
    destruct sx, sy; cbn [cond_Zopp]; ring. }
  rewrite <- HD in *.
  destruct (Z.eq_dec D 0) as [HD0|HD0].
  - rewrite HD0. cbn [binary_normalize PyFloat.isfinite exponent scaled].
    split; [reflexivity|]. split; [lia|].
    rewrite Z.mul_0_l. cbn [Z.sub Z.opp Z.add Z.abs].
    apply Z.pow_nonneg. lia.
  - assert (Hdig : Zdigits2 D + ez <= M /\ 1 <= Zdigits2 D).
    { rewrite Z.abs_mul, (Z.abs_eq (2 ^ (ez + K))) in Hmag by lia.
      assert (Hlt : Z.abs D < 2 ^ (M - ez) /\ 0 <= M - ez).
      { destruct (Z.lt_ge_cases (M - ez) 0) as [Hneg|Hpos].
        - exfalso.
          assert (2 ^ (M + K) <= 2 ^ (ez + K)) by (apply Z.pow_le_mono_r; lia).
          nia.
        - split; [|lia].
          replace (M + K) with ((M - ez) + (ez + K)) in Hmag by lia.
          rewrite (Z.pow_add_r 2 (M - ez)) in Hmag by lia. nia. }
      destruct Hlt as [Hlt Hpos].
      destruct D as [|p|p]; [contradiction | |].
      - pose proof (Zdigits2_le p (M - ez) Hpos Hlt).
        pose proof (Zdigits2_pos p). lia.
      - change (Zdigits2 (Z.neg p)) with (Zdigits2 (Z.pos p)).
        pose proof (Zdigits2_le p (M - ez) Hpos Hlt).
        pose proof (Zdigits2_pos p). lia. }
    destruct (binary_normalize_spec D ez false K HD0)
      as (m3 & e3 & Hr & He3 & Habs); [lia | lia | lia |].
    rewrite Hr. cbn [PyFloat.isfinite exponent].
    split; [reflexivity|]. split; [lia|].
    apply Z.le_trans with (1 := Habs).
    apply Z.pow_le_mono_r; lia.
Qed.

Lemma of_int_exact n :
  n <> 0 -> Z.abs n < 2 ^ 53 ->
  exists m e,
    PyFloat.of_int n = Return (S754_finite (n <? 0) m e)
    /\ -52 <= e <= 0
    /\ scaled 128 (S754_finite (n <? 0) m e) = n * 2 ^ 128.
Proof.
  intros Hn Hb. destruct (nearest_exact n 128 Hn Hb) as (m & e & Hr & He & Hv);
    [lia|].
  exists m, e. unfold PyFloat.of_int. rewrite Hr.
  split; [reflexivity|]. split; [exact He | exact Hv].
Qed.

(** The score of [final_score], for figures below [2^26]: a finite float
    within [2^-20] of [A - T / 10]. *)
Lemma score_accurate A T :
  Z.abs A < 2 ^ 27 -> 0 <= T < 2 ^ 26 ->
  exists score,
    (let? tenth := PyFloat.truediv T 10 in PyFloat.int_sub A tenth) = Return score
    /\ PyFloat.isfinite score = true
    /\ 0 <= exponent score + 128
    /\ Z.abs (10 * scaled 128 score - (10 * A - T) * 2 ^ 128) <= 10 * 2 ^ 108.
Proof.
  intros HA HT.
  assert (HA53 : Z.abs A < 2 ^ 53) by (change (2 ^ 27) with 134217728 in HA;
                                       change (2 ^ 53) with 9007199254740992; lia).
  destruct (Z.eq_dec T 0) as [HT0|HT0].
  - subst T. cbn [PyFloat.truediv obind]. change (10 <? 0) with false.
    unfold PyFloat.int_sub.
    destruct (Z.eq_dec A 0) as [HA0|HA0].
    + subst A. exists (S754_zero false). repeat split; try reflexivity.
      * cbn. lia.
      * cbn. discriminate.
    + destruct (of_int_exact A HA0 HA53) as (m & e & Hr & He & Hv).
      rewrite Hr. cbn [obind PyFloat.sub SFsub].
      exists (S754_finite (A <? 0) m e). repeat split; try reflexivity.
      * cbn [exponent]. lia.
      * rewrite Hv. replace (10 * (A * 2 ^ 128) - (10 * A - 0) * 2 ^ 128) with 0 by ring.
        cbn. discriminate.
  - destruct (truediv_10_spec T 128) as (mt & et & Ht & Het & Hterr); [lia | lia |].
    rewrite Ht. cbn [obind]. unfold PyFloat.int_sub.
    change (2 ^ (128 - 31)) with (2 ^ 97) in Hterr.
    destruct (Z.eq_dec A 0) as [HA0|HA0].
    + subst A. change (PyFloat.of_int 0) with (Return (S754_zero false)).
      cbn [obind PyFloat.sub SFsub negb].
      exists (S754_finite true mt et). repeat split; try reflexivity.
      * cbn [exponent]. lia.
      * cbn [scaled cond_Zopp] in *.
        change (2 ^ 97) with 158456325028528675187087900672 in Hterr.
        change (2 ^ 108) with 324518553658426726783156020576256.
        lia.
    + destruct (of_int_exact A HA0 HA53) as (m & e & Hr & He & Hv).
      rewrite Hr. cbn [obind PyFloat.sub].
      unfold PyFloat.prec, PyFloat.emax.
      destruct (SFsub_spec (A <? 0) m e false mt et 128 28)
        as (Hfin & Hexp & Herr); [lia | lia | lia | lia | lia | |].
      { rewrite Hv.
        change (2 ^ (28 + 128)) with (2 ^ 28 * 2 ^ 128).
        change (2 ^ 97) with 158456325028528675187087900672 in Hterr.
        change (2 ^ 128) with 340282366920938463463374607431768211456 in *.
        change (2 ^ 28) with 268435456. change (2 ^ 27) with 134217728 in HA.
        change (2 ^ 26) with 67108864 in HT.
        lia. }
      exists (SFsub 53 1024 (S754_finite (A <? 0) m e) (S754_finite false mt et)).
      split; [reflexivity|]. split; [exact Hfin|]. split; [exact Hexp|].
      rewrite Hv in Herr.
      change (2 ^ (Z.max (28 - 53) (-1074) + 128 + 2)) with (2 ^ 105) in Herr.
      change (2 ^ 105) with 40564819207303340847894502572032 in Herr.
      change (2 ^ 97) with 158456325028528675187087900672 in Hterr.
      change (2 ^ 108) with 324518553658426726783156020576256.
      change (2 ^ 128) with 340282366920938463463374607431768211456 in *.
      lia.
Qed.

(** The rational value of a float, from its value in units of [2^-128]. *)
Lemma value_scaled x :
  0 <= exponent x + 128 ->
  Qeq (PyFloat.value x) (Qmake (scaled 128 x) (2 ^ 128)).
Proof.
  destruct x as [s|s| |s m e]; try reflexivity.
  cbn [exponent PyFloat.value scaled]. intros He. unfold Qeq.
  destruct e as [|p|p]; cbn [Qnum Qden inject_Z].
  - destruct s; cbn [cond_Zopp]; rewrite ?Z.mul_1_r; cbn [Z.add]; lia.
  - rewrite Pos2Z.inj_pow. change (Z.pos 2) with 2.
    change (Z.pos 128) with 128.
    rewrite (Z.pow_add_r 2 (Z.pos p) 128) by lia.
    destruct s; cbn [cond_Zopp]; ring.
  - rewrite !Pos2Z.inj_pow. change (Z.pos 2) with 2. change (Z.pos 128) with 128.
    replace (2 ^ 128) with (2 ^ (Z.neg p + 128) * 2 ^ Z.pos p)
      by (rewrite <- Z.pow_add_r by lia; f_equal; lia).
    destruct s; cbn [cond_Zopp]; ring.
Qed.

(** The same in rational numbers: the score is within [2^-20] of
    [A - T / 10]. *)
Lemma score_accurate_Q A T :
  Z.abs A < 2 ^ 27 -> 0 <= T < 2 ^ 26 ->
  exists score,
    (let? tenth := PyFloat.truediv T 10 in PyFloat.int_sub A tenth) = Return score
    /\ PyFloat.isfinite score = true
    /\ Qle (Qabs (Qminus (PyFloat.value score) (Qminus (inject_Z A) (Qmake T 10))))
           (Qmake 1 (2 ^ 20)).
Proof.
  intros HA HT. destruct (score_accurate A T HA HT) as (score & Hs & Hf & He & Herr).
  exists score. split; [exact Hs|]. split; [exact Hf|].
  rewrite (value_scaled score He).
  unfold Qle, Qabs, Qminus, Qplus, Qopp, inject_Z. cbn [Qnum Qden].
  change (2 ^ 108) with 324518553658426726783156020576256 in Herr.
  change (2 ^ 128) with 340282366920938463463374607431768211456 in Herr.
  change (Z.pos (2 ^ 128 * (1 * 10))) with 3402823669209384634633746074317682114560.
  change (Z.pos (2 ^ 20)) with 1048576.
  change (Z.pos (2 ^ 128)) with 340282366920938463463374607431768211456.
  change (Z.pos (1 * 10)) with 10.
  lia.
Qed.

(** *** Roundings that lose nothing *)

Lemma shr_1_even k :
  0 <= k ->
  shr_1 (Build_shr_record (2 * k) false false) = Build_shr_record k false false.
Proof. intros Hk. destruct k as [|p|p]; [reflexivity | reflexivity | lia]. Qed.

Lemma iter_pos_shr_1_exact p : forall k,
  0 <= k ->
  SpecFloat.iter_pos shr_1 p (Build_shr_record (k * 2 ^ Zpos p) false false)
  = Build_shr_record k false false.
Proof.
  induction p as [p IH|p IH|]; intros k Hk.
  - replace (k * 2 ^ Z.pos p~1) with (2 * ((k * 2 ^ Zpos p) * 2 ^ Zpos p)).
    + pose proof (pow2_pos (Zpos p) ltac:(lia)).
      cbn [SpecFloat.iter_pos].
      rewrite shr_1_even by nia. rewrite IH by nia. apply IH, Hk.
    + rewrite (Pos2Z.inj_xI p).
      replace (2 * Z.pos p + 1) with (Zpos p + Zpos p + 1) by lia.
      rewrite !Z.pow_add_r by lia. change (2 ^ 1) with 2. ring.
  - replace (k * 2 ^ Z.pos p~0) with ((k * 2 ^ Zpos p) * 2 ^ Zpos p).
    + pose proof (pow2_pos (Zpos p) ltac:(lia)).
      cbn [SpecFloat.iter_pos].
      rewrite IH by nia. apply IH, Hk.
    + rewrite (Pos2Z.inj_xO p).
      replace (2 * Z.pos p) with (Zpos p + Zpos p) by lia.
      rewrite !Z.pow_add_r by lia. ring.
  - change (2 ^ 1) with 2. rewrite Z.mul_comm. cbn [SpecFloat.iter_pos].
    apply shr_1_even, Hk.
Qed.

(** Rounding a mantissa whose dropped bits are all zero. *)
Lemma binary_round_aux_exact_shift s m k e :
  -1074 <= e ->
  Zpos m = Zpos k * 2 ^ Z.max 0 (Zdigits2 (Zpos m) - 53) ->
  e + Z.max 0 (Zdigits2 (Zpos m) - 53) <= 971 ->
  binary_round_aux 53 1024 s (Zpos m) e loc_Exact
  = S754_finite s k (e + Z.max 0 (Zdigits2 (Zpos m) - 53)).
Proof.
  intros He Hm Hmax.
  destruct (Z.le_gt_cases (Zdigits2 (Zpos m)) 53) as [Hd|Hd].
  - replace (Z.max 0 (Zdigits2 (Z.pos m) - 53)) with 0 in * by lia.
    change (2 ^ 0) with 1 in Hm. rewrite Z.mul_1_r in Hm. injection Hm as ->.
    rewrite Z.add_0_r. apply binary_round_aux_exact; lia.
  - set (n := Zdigits2 (Zpos m) - 53) in *.
    replace (Z.max 0 n) with n in * by lia.
    assert (Hdk : Zdigits2 (Zpos k) = 53).
    { pose proof (Zdigits2_shift k m n ltac:(lia) Hm). lia. }
    unfold binary_round_aux, shr_fexp.
    assert (Hz : fexp 53 1024 (Zdigits2 (Z.pos m) + e) - e = n)
      by (unfold fexp, emin; lia).
    rewrite Hz. destruct n as [|p|p] eqn:Hn; try lia.
    cbn [shr shr_record_of_loc]. rewrite Hm, iter_pos_shr_1_exact by lia.
    cbn [shr_m loc_of_shr_record round_nearest_even].
    assert (Hz2 : fexp 53 1024 (Zdigits2 (Z.pos k) + (e + Z.pos p)) - (e + Z.pos p) = 0)
      by (unfold fexp, emin; lia).
    rewrite Hz2. cbn [shr shr_m shr_record_of_loc].
    replace (e + Z.pos p <=? 1024 - 53) with true
      by (symmetry; apply Z.leb_le; lia).
    reflexivity.
Qed.

Lemma binary_normalize_exact D ez b K :
  D <> 0 -> -1074 <= ez -> Zdigits2 D + ez <= 1000 ->
  0 <= K + Z.min ez (Zdigits2 D + ez - 53) ->
  (2 ^ Z.max 0 (Zdigits2 D - 53) | D) ->
  exists m3 e3,
    binary_normalize 53 1024 D ez b = S754_finite (D <? 0) m3 e3
    /\ 0 <= e3 + K
    /\ scaled K (S754_finite (D <? 0) m3 e3) = D * 2 ^ (ez + K).
Proof.
  intros HD Hez Hd HK Hdiv.
  assert (Hgen : forall s (p : positive),
    Zdigits2 (Zpos p) + ez <= 1000 ->
    0 <= K + Z.min ez (Zdigits2 (Zpos p) + ez - 53) ->
    (2 ^ Z.max 0 (Zdigits2 (Zpos p) - 53) | Zpos p) ->
    exists m3 e3,
      binary_round 53 1024 s p ez = S754_finite s m3 e3
      /\ 0 <= e3 + K
      /\ Zpos m3 * 2 ^ (e3 + K) = Zpos p * 2 ^ (ez + K)).
  { clear D HD Hd HK Hdiv. intros s p Hd HK (c & Hc). unfold binary_round.
    change (Z.pos (digits2_pos p)) with (Zdigits2 (Zpos p)).
    destruct (shl_align_spec p ez (fexp 53 1024 (Zdigits2 (Z.pos p) + ez)))
      as [H1 H2].
    destruct (shl_align p ez (fexp 53 1024 (Zdigits2 (Z.pos p) + ez)))
      as [mz ez2]. cbn [fst snd] in H1, H2.
    set (dp := Zdigits2 (Zpos p)) in *.
    assert (Hez2 : ez2 = Z.min ez (Z.max (dp + ez - 53) (-1074)))
      by (rewrite H1; unfold fexp, emin; lia).
    rewrite <- H1 in H2.
    pose proof (Zdigits2_pos p) as Hdp. fold dp in Hdp.
    assert (Hsh : 0 <= ez - ez2) by lia.
    pose proof (Zdigits2_shift p mz (ez - ez2) Hsh H2) as Hdz. fold dp in Hdz.
    set (n := Z.max 0 (Zdigits2 (Zpos mz) - 53)).
    set (np := Z.max 0 (dp - 53)) in *.
    assert (Hn : 0 <= n <= np + (ez - ez2)) by lia.
    (* the mantissa is a multiple of 2^n *)
    assert (Hk : exists k, Zpos mz = k * 2 ^ n).
    { exists (c * 2 ^ (np + (ez - ez2) - n)).
      rewrite H2, Hc, <- !Z.mul_assoc, <- !Z.pow_add_r by lia.
      f_equal. f_equal. lia. }
    destruct Hk as (k & Hk).
    pose proof (pow2_pos n ltac:(lia)) as Hpn.
    destruct k as [|k|k]; try lia.
    exists k, (ez2 + n). split.
    { apply binary_round_aux_exact_shift; [lia | exact Hk | lia]. }
    split; [lia|].
    replace (ez2 + n + K) with (n + (ez2 + K)) by lia.
    replace (ez + K) with ((ez - ez2) + (ez2 + K)) by lia.
    rewrite (Z.pow_add_r 2 n), (Z.pow_add_r 2 (ez - ez2)) by lia.
    rewrite !Z.mul_assoc, <- Hk, <- H2. reflexivity. }
  destruct D as [|p|p]; [contradiction | |]; cbn [binary_normalize Z.ltb Z.compare].
  - destruct (Hgen false p Hd HK Hdiv) as (m3 & e3 & Hr & He & Hv).
    exists m3, e3. split; [exact Hr|]. split; [exact He|]. exact Hv.
  - assert (Hdiv' : (2 ^ Z.max 0 (Zdigits2 (Z.pos p) - 53) | Z.pos p)).
    { destruct Hdiv as (c & Hc). exists (- c).
      change (Zdigits2 (Z.neg p)) with (Zdigits2 (Z.pos p)) in Hc. lia. }
    destruct (Hgen true p Hd HK Hdiv') as (m3 & e3 & Hr & He & Hv).
    exists m3, e3. split; [exact Hr|]. split; [exact He|].
    cbn [scaled cond_Zopp]. rewrite Hv. lia.
Qed.

(** [10*k / 10] is [k], exactly. *)
Lemma truediv_10_exact k K :
  0 < k -> 10 * k < 2 ^ 26 -> 57 <= K ->
  exists m e,
    PyFloat.truediv (10 * k) 10 = Return (S754_finite false m e)
    /\ -56 <= e <= -1
    /\ scaled K (S754_finite false m e) = k * 2 ^ K.
Proof.
  intros Hk HT HK.
  destruct (10 * k) as [|t|t] eqn:Ht; try lia.
  pose proof (Zdigits2_bounds t) as [Hlo Hhi].
  pose proof (Zdigits2_pos t) as Hd.
  assert (Hd26 : Zdigits2 (Zpos t) <= 26) by (apply Zdigits2_le; lia).
  set (d := Zdigits2 (Zpos t)) in *.
  unfold PyFloat.truediv, PyFloat.prec, PyFloat.emax, SFdiv_core_binary.
  cbn [Z.abs]. fold d. change (Zdigits2 10) with 4.
  assert (He : Z.min (fexp 53 1024 (d + 0 - (4 + 0))) (0 - 0) = d - 57)
    by (unfold fexp, emin; lia).
  rewrite He.
  assert (Hs : 0 - 0 - (d - 57) = 57 - d) by lia. rewrite Hs.
  assert (Hm' : match 57 - d with
                | 0 => Z.pos t
                | Z.pos _ => Z.shiftl (Z.pos t) (57 - d)
                | Z.neg _ => 0
                end = Zpos t * 2 ^ (57 - d)).
  { destruct (57 - d) eqn:Hsd; try lia. apply Z.shiftl_mul_pow2. lia. }
  rewrite Hm', div_eucl_div_mod.
  pose proof (pow2_pos (57 - d) ltac:(lia)) as Hp.
  assert (HN : 2 ^ 56 <= Zpos t * 2 ^ (57 - d) < 2 ^ 57).
  { replace (2 ^ 56) with (2 ^ (d - 1) * 2 ^ (57 - d))
      by (rewrite <- Z.pow_add_r by lia; f_equal; lia).
    replace (2 ^ 57) with (2 ^ d * 2 ^ (57 - d))
      by (rewrite <- Z.pow_add_r by lia; f_equal; lia).
    nia. }
  assert (Hq : Zpos t * 2 ^ (57 - d) / 10 = k * 2 ^ (57 - d)).
  { rewrite <- Ht. replace (10 * k * 2 ^ (57 - d)) with (k * 2 ^ (57 - d) * 10) by ring.
    apply Z.div_mul. lia. }
  assert (Hr : (Zpos t * 2 ^ (57 - d)) mod 10 = 0).
  { rewrite <- Ht. replace (10 * k * 2 ^ (57 - d)) with (k * 2 ^ (57 - d) * 10) by ring.
    apply Z.mod_mul. lia. }
  rewrite Hq, Hr. rewrite <- Ht in HN.
  change (new_location 10 0) with loc_Exact.
  change (xorb (Z.pos t <? 0) (10 <? 0)) with false.
  change (2 ^ 56) with 72057594037927936 in HN.
  change (2 ^ 57) with 144115188075855872 in HN.
  destruct (k * 2 ^ (57 - d)) as [|q|q] eqn:Hqe; try lia.
  assert (Hdq : 53 <= Zdigits2 (Zpos q) <= 54).
  { split.
    - assert (52 < Zdigits2 (Zpos q)); [|lia]. apply Zdigits2_gt; [lia|].
      change (2 ^ 52) with 4503599627370496. lia.
    - apply Zdigits2_le; [lia|]. change (2 ^ 54) with 18014398509481984. lia. }
  set (n := Z.max 0 (Zdigits2 (Zpos q) - 53)) in *.
  assert (Hn : 0 <= n <= 1) by lia.
  assert (Hkn : Zpos q = k * 2 ^ (57 - d - n) * 2 ^ n).
  { rewrite <- Hqe, <- Z.mul_assoc, <- Z.pow_add_r by lia. f_equal. f_equal. lia. }
  pose proof (pow2_pos (57 - d - n) ltac:(lia)) as Hp2.
  destruct (k * 2 ^ (57 - d - n)) as [|k'|k'] eqn:Hk'; try nia.
  rewrite (binary_round_aux_exact_shift false q k' (d - 57)); [|lia | exact Hkn | lia].
  fold n. exists k', (d - 57 + n). split; [reflexivity|]. split; [lia|].
  cbn [scaled cond_Zopp]. rewrite <- Hk', <- Z.mul_assoc, <- Z.pow_add_r by lia.
  f_equal. f_equal. lia.
Qed.

(** [x - y] is exact when the difference is an integer below [2^53] and the
    exponents are not positive. *)
Lemma SFsub_exact sx mx ex sy my ey K I :
  -1074 <= ex <= 0 -> -1074 <= ey <= 0 ->
  52 <= K -> 0 <= ex + K -> 0 <= ey + K -> Z.abs I < 2 ^ 53 ->
  scaled K (S754_finite sx mx ex) - scaled K (S754_finite sy my ey) = I * 2 ^ K ->
  PyFloat.isfinite (SFsub 53 1024 (S754_finite sx mx ex) (S754_finite sy my ey))
  = true
  /\ 0 <= exponent (SFsub 53 1024 (S754_finite sx mx ex) (S754_finite sy my ey)) + K
  /\ scaled K (SFsub 53 1024 (S754_finite sx mx ex) (S754_finite sy my ey))
     = I * 2 ^ K.
Proof.
  intros Hex Hey HK HKx HKy HI Hdiff. cbn [SFsub].
  set (ez := Z.min ex ey) in *.
  destruct (shl_align_spec mx ex ez) as [_ Hx].
  destruct (shl_align_spec my ey ez) as [_ Hy].
  replace (Z.min ex ez) with ez in Hx by lia.
  replace (Z.min ey ez) with ez in Hy by lia.
  set (ax := fst (shl_align mx ex ez)) in *.
  set (ay := fst (shl_align my ey ez)) in *.
  set (D := cond_Zopp sx (Z.pos ax) - cond_Zopp sy (Z.pos ay)).
  assert (HP : 0 < 2 ^ (ez + K)) by (apply pow2_pos; lia).
  assert (HD : D * 2 ^ (ez + K) = I * 2 ^ K).
  { rewrite <- Hdiff. unfold D. cbn [scaled]. rewrite Hx, Hy.
    replace (ex + K) with ((ex - ez) + (ez + K)) by lia.
    replace (ey + K) with ((ey - ez) + (ez + K)) by lia.
    rewrite (Z.pow_add_r 2 (ex - ez)), (Z.pow_add_r 2 (ey - ez)) by lia.
    destruct sx, sy; cbn [cond_Zopp]; ring. }
  assert (HDI : D = I * 2 ^ (- ez)).
  { apply (Z.mul_reg_r _ _ (2 ^ (ez + K))); [lia|].
    rewrite HD, <- Z.mul_assoc, <- Z.pow_add_r by lia. f_equal. f_equal. lia. }
  pose proof (pow2_pos (- ez) ltac:(lia)) as HPz.
  destruct (Z.eq_dec D 0) as [HD0|HD0].
  - rewrite HD0 in *. cbn [binary_normalize PyFloat.isfinite exponent scaled].
    split; [reflexivity|]. split; [lia|]. lia.
  - assert (HI0 : I <> 0) by (intros ->; lia).
    assert (Hdig : Zdigits2 D = Zdigits2 I + - ez /\ 1 <= Zdigits2 I <= 53).
    { destruct I as [|i|i]; [contradiction | |].
      - destruct D as [|p|p]; try lia.
        rewrite (Zdigits2_shift i p (- ez)); [|lia | exact HDI].
        split; [reflexivity|]. split; [apply Zdigits2_pos|].
        apply Zdigits2_le; lia.
      - destruct D as [|p|p]; try lia.
        change (Zdigits2 (Z.neg p)) with (Zdigits2 (Z.pos p)).
        change (Zdigits2 (Z.neg i)) with (Zdigits2 (Z.pos i)).
        rewrite (Zdigits2_shift i p (- ez)); [|lia | lia].
        split; [reflexivity|]. split; [apply Zdigits2_pos|].
        apply Zdigits2_le; lia. }
    destruct Hdig as (HdD & HdI).
    destruct (binary_normalize_exact D ez false K HD0)
      as (m3 & e3 & Hr & He3 & Hv); [lia | lia | lia | |].
    { exists (I * 2 ^ (- ez - Z.max 0 (Zdigits2 D - 53))).
      rewrite HDI at 1. rewrite <- Z.mul_assoc, <- Z.pow_add_r by lia.
      f_equal. f_equal. lia. }
    rewrite Hr. cbn [PyFloat.isfinite exponent].
    split; [reflexivity|]. split; [exact He3|].
    rewrite Hv. exact HD.
Qed.

(** The score is exact when the costs are a multiple of 10. *)
Lemma score_exact A k :
  Z.abs A < 2 ^ 27 -> 0 <= 10 * k < 2 ^ 26 ->
  exists score,
    (let? tenth := PyFloat.truediv (10 * k) 10 in PyFloat.int_sub A tenth)
    = Return score
    /\ 0 <= exponent score + 128
    /\ scaled 128 score = (A - k) * 2 ^ 128.
Proof.
  intros HA HT.
  change (2 ^ 27) with 134217728 in HA. change (2 ^ 26) with 67108864 in HT.
  assert (HA53 : Z.abs A < 2 ^ 53) by (change (2 ^ 53) with 9007199254740992; lia).
  destruct (Z.eq_dec k 0) as [Hk0|Hk0].
  - subst k. cbn [Z.mul PyFloat.truediv obind]. change (10 <? 0) with false.
    unfold PyFloat.int_sub.
    destruct (Z.eq_dec A 0) as [HA0|HA0].
    + subst A. exists (S754_zero false). repeat split; cbn; lia.
    + destruct (of_int_exact A HA0 HA53) as (m & e & Hr & He & Hv).
      rewrite Hr. cbn [obind PyFloat.sub SFsub].
      exists (S754_finite (A <? 0) m e). split; [reflexivity|].
      split; [cbn [exponent]; lia|]. rewrite Hv. f_equal. lia.
  - destruct (truediv_10_exact k 128) as (mt & et & Ht & Het & Hv);
      [lia | change (2 ^ 26) with 67108864; lia | lia |].
    rewrite Ht. cbn [obind]. unfold PyFloat.int_sub.
    destruct (Z.eq_dec A 0) as [HA0|HA0].
    + subst A. change (PyFloat.of_int 0) with (Return (S754_zero false)).
      cbn [obind PyFloat.sub SFsub negb].
      exists (S754_finite true mt et). split; [reflexivity|].
      split; [cbn [exponent]; lia|].
      cbn [scaled cond_Zopp] in *. rewrite Hv. ring.
    + destruct (of_int_exact A HA0 HA53) as (m & e & Hr & He & HvA).
      rewrite Hr. cbn [obind PyFloat.sub].
      unfold PyFloat.prec, PyFloat.emax.
      destruct (SFsub_exact (A <? 0) m e false mt et 128 (A - k))
        as (_ & Hexp & Hval); [lia | lia | lia | lia | lia | | |].
      { change (2 ^ 53) with 9007199254740992. lia. }
      { rewrite HvA, Hv. ring. }
      exists (SFsub 53 1024 (S754_finite (A <? 0) m e) (S754_finite false mt et)).
      split; [reflexivity|]. split; [exact Hexp | exact Hval].
Qed.

Lemma score_exact_Q A k score :
  Z.abs A < 2 ^ 27 -> 0 <= 10 * k < 2 ^ 26 ->
  (let? tenth := PyFloat.truediv (10 * k) 10 in PyFloat.int_sub A tenth)
  = Return score ->
  Qeq (PyFloat.value score) (Qminus (inject_Z A) (Qmake (10 * k) 10)).
Proof.
  intros HA HT Hscore.
  destruct (score_exact A k HA HT) as (score' & Hs & He & Hv).
  rewrite Hscore in Hs. injection Hs as <-.
  rewrite (value_scaled score He), Hv.
  unfold Qeq, Qminus, Qplus, Qopp, inject_Z. cbn [Qnum Qden].
  change (Z.pos (2 ^ 128)) with (2 ^ 128).
  change (Z.pos (1 * 10)) with 10.
  ring.
Qed.

(** The score of a state with figures in range: finite, within [2^-20] of
    the exact value, and equal to it when the costs are a multiple of 10. *)
Lemma final_score_accurate s :
  figures_in_range s ->
  exists score,
    final_score s = Return score
    /\ PyFloat.isfinite score = true
    /\ (Qabs (PyFloat.value score - exact_score s) <= 1 # 1048576)%Q
    /\ (total_costs_accumulated s mod 10 = 0 ->
        (PyFloat.value score == exact_score s)%Q).
Proof.
  intros (Hc & Hs & Ht).
  assert (HA : Z.abs (cash s + satisfaction s * 100) < 2 ^ 27)
    by (change (2 ^ 27) with 134217728; lia).
  assert (HT : 0 <= total_costs_accumulated s < 2 ^ 26)
    by (change (2 ^ 26) with 67108864; lia).
  destruct (score_accurate_Q _ _ HA HT) as (score & Hscore & Hfin & Hacc).
  exists score. unfold final_score, exact_score.
  split; [exact Hscore|]. split; [exact Hfin|]. split; [exact Hacc|].
  intros Hmod.
  assert (Hk : exists k, total_costs_accumulated s = 10 * k).
  { exists (total_costs_accumulated s / 10).
    pose proof (Z.div_mod (total_costs_accumulated s) 10 ltac:(lia)). lia. }
  destruct Hk as (k & Hk). rewrite Hk in HT, Hscore |- *.
  exact (score_exact_Q _ _ score HA HT Hscore).
Qed.

(** ** Worked examples *)

Example example_draws_possible :
  possible_draws (quiet_draws 150) = true
  /\ possible_draws (quiet_draws 220) = true
  /\ possible_draws (disrupted_draws 150) = true.
Proof. repeat split; vm_compute; reflexivity. Qed.

Example float_truncation : int_of_product 90 (lit 7 10) = Return 62.
Proof. vm_compute. reflexivity. Qed.

Example closing_score :
  final_score closing_state = Return (PyFloat.nearest 97860).
Proof. vm_compute. reflexivity. Qed.



(** C2 does not hold as stated: with an order quantity of 0 and a disruption
    draw below the disruption chance, the round is charged the disruption
    fee, so its transport cost is not zero. *)
Lemma zero_order_pays_disruption_fee :
  exists s' row,
    possible_draws (disrupted_draws 150) = true
    /\ simulate_round Alpha_Goods 0 Budget_Haul (disrupted_draws 150) initial_state
       = (Return tt, s')
    /\ history s' = history initial_state ++ [row]
    /\ Row.Procured row = 0
    /\ Row.Transport_Cost row = 100
    /\ Row.Transport_Cost row <> 0.
Proof.
  do 2 eexists. split; [vm_compute; reflexivity|].
  split; [vm_compute; reflexivity|].
  split; [reflexivity|]. split; [reflexivity|]. split; [reflexivity|].
  vm_compute. discriminate.
Qed.

Lemma zero_order_round_witness :
  In Alpha_Goods (keys SUPPLIERS)
  /\ get_transport_details Budget_Haul
     = Return (Transporter.Build 3 (lit 30 100) 100 (lit 5 100) (lit 15 100))
  /\ exists s' row,
      simulate_round Alpha_Goods 0 Budget_Haul (disrupted_draws 150) initial_state
      = (Return tt, s')
      /\ history s' = history initial_state ++ [row]
      /\ Row.Procured row = 0
      /\ Row.Sourcing_Cost row = 0
      /\ Row.Received row = 0
      /\ Row.Transport_Cost row
         = (if PyFloat.ltb (disruption_random (disrupted_draws 150)) (lit 30 100)
            then 100 else 0)
      /\ Row.Sold row = Z.min (inventory initial_state) 150
      /\ Row.Revenue row = Row.Sold row * SELLING_PRICE_PER_UNIT
      /\ Row.Stockout_Cost row = (150 - Row.Sold row) * STOCKOUT_PENALTY_PER_UNIT
      /\ Row.Holding_Cost row
         = (inventory initial_state - Row.Sold row) * HOLDING_COST_PER_UNIT
      /\ Row.Round_Total_Cost row
         = Row.Transport_Cost row + Row.Stockout_Cost row + Row.Holding_Cost row
      /\ cash s' = cash initial_state + Row.Revenue row - Row.Round_Total_Cost row
      /\ inventory s' = inventory initial_state - Row.Sold row.
Proof.
  assert (Hin : In Alpha_Goods (keys SUPPLIERS)) by (simpl; left; reflexivity).
  assert (Htr : get_transport_details Budget_Haul
                = Return (Transporter.Build 3 (lit 30 100) 100 (lit 5 100)
                                            (lit 15 100)))
    by reflexivity.
  split; [exact Hin|]. split; [exact Htr|].
  exact (zero_order_round Alpha_Goods Budget_Haul (disrupted_draws 150)
                          initial_state _ Hin Htr).
Defined.

Lemma stubbed_round_ledger_witness :
  exists s' row,
    simulate_round Alpha_Goods 150 Standard_Shipping (quiet_draws 150) initial_state
    = (Return tt, s')
    /\ history s' = history initial_state ++ [row]
    /\ Row.Procured row = 150
    /\ Row.Received row = 150
    /\ inventory initial_state + Row.Received row = 250
    /\ Row.Sold row = 150
    /\ Row.Stockout_Units row = 0
    /\ Row.Inventory row = 100
    /\ inventory s' = 100
    /\ Row.Revenue row = 7500
    /\ Row.Sourcing_Cost row = 3000
    /\ Row.Transport_Cost row = 750
    /\ Row.Holding_Cost row = 200
    /\ Row.Stockout_Cost row = 0
    /\ Row.Round_Total_Cost row = 3950
    /\ cash s' = cash initial_state + 3550
    /\ satisfaction s' = Z.max 0 (Z.min 100 (satisfaction initial_state + 5)).
Proof.
  apply (stubbed_round_ledger Alpha_Goods Standard_Shipping (quiet_draws 150)
           initial_state
           (Supplier.Build 20 [lit 1 1] [lit 1 1])
           (Transporter.Build 5 (lit 15 100) 150 (lit 3 100) (lit 1 10)));
    vm_compute; reflexivity.
Defined.

Lemma bankruptcy_takes_precedence_witness :
  exists s',
    simulate_round Alpha_Goods 0 Budget_Haul (quiet_draws 150) strained_state
    = (Return tt, s')
    /\ cash s' <= BANKRUPTCY_THRESHOLD
    /\ satisfaction s' <= LOW_SATISFACTION_THRESHOLD
    /\ game_over s' = true
    /\ game_over_message s' = bankruptcy_message
    /\ game_over_message s' <> customer_exodus_message (satisfaction s').
Proof.
  eexists. split; [vm_compute; reflexivity|].
  split; [vm_compute; discriminate|]. split; [vm_compute; discriminate|].
  eapply (bankruptcy_takes_precedence Alpha_Goods 0 Budget_Haul (quiet_draws 150)
                                      strained_state);
    [vm_compute; reflexivity | vm_compute; discriminate].
Defined.

Lemma satisfaction_clamped_witness :
  exists s',
    simulate_round Gamma_Source 0 Budget_Haul (quiet_draws 220) initial_state
    = (Return tt, s')
    /\ 0 <= satisfaction s' <= 100
    /\ exists row, history s' = history initial_state ++ [row]
                   /\ Row.Satisfaction row = satisfaction s'.
Proof.
  eexists. split; [vm_compute; reflexivity|].
  apply (satisfaction_clamped Gamma_Source 0 Budget_Haul (quiet_draws 220)
                              initial_state).
  vm_compute. reflexivity.
Defined.

Lemma inventory_balance_witness :
  exists s',
    simulate_round Beta_Stock 90 Budget_Haul (quiet_draws 150) initial_state
    = (Return tt, s')
    /\ exists row,
        history s' = history initial_state ++ [row]
        /\ Row.Demand row = 150
        /\ Row.Sold row <= Row.Demand row
        /\ Row.Sold row <= inventory initial_state + Row.Received row
        /\ Row.Inventory row
           = inventory initial_state + Row.Received row - Row.Sold row
        /\ 0 <= Row.Inventory row
        /\ inventory s' = Row.Inventory row.
Proof.
  eexists. split; [vm_compute; reflexivity|].
  apply (inventory_balance Beta_Stock 90 Budget_Haul (quiet_draws 150)
                           initial_state).
  vm_compute. reflexivity.
Defined.

Lemma round_total_cost_nonneg_witness :
  exists s',
    simulate_round Beta_Stock 90 Budget_Haul (disrupted_draws 150) initial_state
    = (Return tt, s')
    /\ 0 <= 90
    /\ exists row,
        history s' = history initial_state ++ [row]
        /\ Row.Round_Total_Cost row
           = Row.Sourcing_Cost row + Row.Transport_Cost row
             + Row.Stockout_Cost row + Row.Holding_Cost row
        /\ 0 <= Row.Round_Total_Cost row
        /\ total_costs_accumulated s'
           = total_costs_accumulated initial_state + Row.Round_Total_Cost row
        /\ total_costs_accumulated initial_state <= total_costs_accumulated s'.
Proof.
  eexists. split; [vm_compute; reflexivity|]. split; [lia|].
  apply (round_total_cost_nonneg Beta_Stock 90 Budget_Haul (disrupted_draws 150)
                                 initial_state);
    [vm_compute; reflexivity | lia].
Defined.

Lemma end_of_term_at_max_rounds_witness :
  exists s',
    play_solvent (repeat steady_turn 12) initial_state = Some s'
    /\ round s' = Z.min (Z.of_nat (List.length (repeat steady_turn 12)) + 1) MAX_ROUNDS
    /\ (game_over s' = true
        <-> MAX_ROUNDS <= Z.of_nat (List.length (repeat steady_turn 12)))
    /\ (game_over s' = true -> game_over_message s' = end_of_term_message).
Proof.
  eexists. split; [vm_compute; reflexivity|].
  apply (end_of_term_at_max_rounds (repeat steady_turn 12)).
  vm_compute. reflexivity.
Defined.

(** One round earlier the game is not over. *)
Example eleven_rounds_not_over :
  exists s',
    play_solvent (repeat steady_turn 11) initial_state = Some s'
    /\ round s' = 12 /\ game_over s' = false.
Proof. eexists. split; [vm_compute; reflexivity|]. split; reflexivity. Qed.

Lemma round_within_bounds_witness :
  reachable (snd (play_turn steady_turn initial_state))
  /\ 1 <= round (snd (play_turn steady_turn initial_state)) <= MAX_ROUNDS.
Proof.
  assert (H : reachable (snd (play_turn steady_turn initial_state))).
  { apply (reachable_round initial_state steady_turn
                           (fst (play_turn steady_turn initial_state))).
    - apply reachable_initial.
    - vm_compute. reflexivity. }
  split; [exact H|].
  apply (round_within_bounds _ H).
Defined.

(** * Further properties of the script *)

(** ** Catalog lookups *)

Lemma getitem_Raise {V : Type} (d : dict V) key e :
  getitem d key = Raise e -> e = KeyError key /\ ~ In key (keys d).
Proof.
  induction d as [|[k w] d IH]; simpl.
  - intros [= <-]. split; [reflexivity | tauto].
  - destruct (String.eqb k key) eqn:E; [discriminate|].
    apply String.eqb_neq in E. intros H. destruct (IH H) as [He Hn].
    split; [exact He|]. intros [Hk|Hin]; [now apply E | now apply Hn].
Qed.

(** X1: [get_supplier_details] and [get_transport_details] return the entry
    the catalog binds to the name, and raise [KeyError] with the name itself
    exactly when no entry has it. *)
Theorem catalog_lookups name :
  match get_supplier_details name with
  | Return sup => In (name, sup) SUPPLIERS
  | Raise e => e = KeyError name /\ ~ In name (keys SUPPLIERS)
  end
  /\ match get_transport_details name with
     | Return tr => In (name, tr) TRANSPORTERS
     | Raise e => e = KeyError name /\ ~ In name (keys TRANSPORTERS)
     end.
Proof.
  unfold get_supplier_details, get_transport_details. split.
  - destruct (getitem SUPPLIERS name) eqn:E;
      [now apply getitem_In | now apply getitem_Raise].
  - destruct (getitem TRANSPORTERS name) eqn:E;
      [now apply getitem_In | now apply getitem_Raise].
Qed.

Lemma getitem_not_In {V : Type} (d : dict V) key :
  ~ In key (keys d) -> getitem d key = Raise (KeyError key).
Proof.
  intros Hn. destruct (getitem d key) as [v|e] eqn:E.
  - apply getitem_In in E. exfalso. apply Hn.
    unfold keys. apply in_map_iff. now exists (key, v).
  - apply getitem_Raise in E as [-> _]. reflexivity.
Qed.

(** ** Calls that raise *)

(** X2: called with a supplier name that is not in the catalog,
    [simulate_round] raises [KeyError] with that name; it has by then
    cleared the events of the previous round and touched nothing else. *)
Theorem unknown_supplier_raises sn q tn rng s :
  ~ In sn (keys SUPPLIERS) ->
  simulate_round sn q tn rng s = (Raise (KeyError sn), set_round_events [] s).
Proof.
  intros Hn. unfold simulate_round, get_supplier_details.
  rewrite (getitem_not_In SUPPLIERS sn Hn). reflexivity.
Qed.

(** X3: with a supplier of the catalog and a transport name that is not in
    the catalog, [simulate_round] raises [KeyError] with the transport name,
    before anything is drawn or computed: the events are cleared and nothing
    else has changed. *)
Theorem unknown_transport_raises sn q tn rng s :
  In sn (keys SUPPLIERS) ->
  ~ In tn (keys TRANSPORTERS) ->
  simulate_round sn q tn rng s = (Raise (KeyError tn), set_round_events [] s).
Proof.
  intros Hs Hn. destruct (keys_getitem SUPPLIERS sn Hs) as [sup Hsup].
  unfold simulate_round, get_supplier_details, get_transport_details.
  cbv beta iota zeta delta [bind lift assign].
  rewrite Hsup, (getitem_not_In TRANSPORTERS tn Hn). reflexivity.
Qed.

(** X4: whenever a call of [simulate_round] raises, whatever the exception,
    no figure of the session has changed: round, cash, inventory,
    satisfaction, accumulated costs, game over flag and message, and history
    are as before the call. Only the event messages may differ. *)
Theorem raise_changes_no_figure sn q tn rng s e s' :
  simulate_round sn q tn rng s = (Raise e, s') ->
  round s' = round s
  /\ cash s' = cash s
  /\ inventory s' = inventory s
  /\ satisfaction s' = satisfaction s
  /\ total_costs_accumulated s' = total_costs_accumulated s
  /\ game_over s' = game_over s
  /\ game_over_message s' = game_over_message s
  /\ history s' = history s.
Proof.
  intros H.
  destruct (simulate_round_cases _ _ _ _ _ _ _ H) as [(e' & _ & ->)|[Hr _]];
    [|discriminate].
  destruct s. repeat split.
Qed.

(** X5: [simulate_round] never reopens a game: called on a session that is
    over, whether it returns or raises, it leaves the game over flag set and
    the round counter where it was. *)
Theorem game_over_is_final sn q tn rng s o s' :
  game_over s = true ->
  simulate_round sn q tn rng s = (o, s') ->
  game_over s' = true /\ round s' = round s.
Proof.
  intros Hover H.
  destruct (simulate_round_cases _ _ _ _ _ _ _ H)
    as [(e & _ & ->)|(_ & sup & tr & y & p & d & _ & _ & _ & _ & _ & ->)].
  - destruct s. simpl in *. now split.
  - destruct s as [r c i sa t g m h ev]. simpl in Hover. subst g.
    unfold settled. session_cbv.
    repeat match goal with
           | |- context [?a <=? ?b] => destruct (Z.leb_spec a b)
           end;
      split; reflexivity.
Qed.

(** X6: the events of earlier rounds never carry over: a call of
    [simulate_round] does the same, and leaves the same state, whatever
    events the session held before. *)
Theorem previous_events_are_dropped sn q tn rng evs s :
  simulate_round sn q tn rng (set_round_events evs s)
  = simulate_round sn q tn rng s.
Proof.
  unfold simulate_round. cbv beta iota zeta delta [bind assign].
  destruct s. reflexivity.
Qed.

(** ** What a resolved round reports and records *)

(** The events of a resolved round, in closed form. *)
Lemma resolved_round_events sn q tn rng s s' :
  simulate_round sn q tn rng s = (Return tt, s') ->
  exists supplier transporter y procured d pc,
    get_supplier_details sn = Return supplier /\
    get_transport_details tn = Return transporter /\
    choices (Supplier.yield_percentages supplier)
            (Supplier.yield_weights supplier) (choices_random rng) = Return y /\
    int_of_product q y = Return procured /\
    (if damage_occurs transporter rng procured
     then int_of_product procured (Transporter.damage_percentage transporter)
          = Return d
     else d = 0) /\
    (if PyFloat.ltb y (lit 1 1) then percent_of y = Return pc else pc = 0) /\
    round_events s'
    = round_report sn tn q transporter rng y pc procured d (inventory s).
Proof.
  intros H. unfold simulate_round in H.
  destruct s as [r c i sa t g m h ev].
  run_in H; try discriminate; injection H as <-.
  all: match goal with
       | Hd : int_of_product _ (Transporter.damage_percentage _) = Return ?d,
         Hpc : obind _ _ = Return ?pc |- _ =>
           do 4 eexists; exists d, pc
       | Hd : int_of_product _ (Transporter.damage_percentage _) = Return ?d
         |- _ => do 4 eexists; exists d, 0
       | Hpc : obind _ _ = Return ?pc |- _ =>
           do 4 eexists; exists 0, pc; rewrite ?Z.sub_0_r
       | _ => do 4 eexists; exists 0, 0; rewrite ?Z.sub_0_r
       end;
    (split; [reflexivity|]); (split; [reflexivity|]);
    (split; [eassumption|]); (split; [eassumption|]).
  all: unfold round_report, damage_occurs, percent_of; session_cbv.
  all: rewrite ?Z.sub_0_r.
  all: split; [rewrite_tests; first [reflexivity | assumption]|].
  all: split; [rewrite_tests; first [reflexivity | assumption]|].
  all: rewrite_tests; reflexivity.
Qed.

(** The state and the events of a resolved round together. *)
Lemma resolved_round_report sn q tn rng s s' :
  simulate_round sn q tn rng s = (Return tt, s') ->
  exists supplier transporter y procured d pc,
    get_supplier_details sn = Return supplier /\
    get_transport_details tn = Return transporter /\
    int_of_product q y = Return procured /\
    s' = set_round_events
           (round_report sn tn q transporter rng y pc procured d (inventory s))
           (settled s supplier (transport_cost_of transporter rng procured)
                    procured (procured - d) (demand_randint rng)).
Proof.
  intros H.
  destruct (resolved_round _ _ _ _ _ _ H)
    as (sup & tr & y & p & d & Hsup & Htr & Hy & Hp & Hd & Hs').
  destruct (resolved_round_events _ _ _ _ _ _ H)
    as (sup2 & tr2 & y2 & p2 & d2 & pc & Hsup2 & Htr2 & Hy2 & Hp2 & Hd2 & _ & Hev).
  rewrite Hsup in Hsup2. injection Hsup2 as <-.
  rewrite Htr in Htr2. injection Htr2 as <-.
  rewrite Hy in Hy2. injection Hy2 as <-.
  rewrite Hp in Hp2. injection Hp2 as <-.
  assert (d2 = d) as ->.
  { destruct (damage_occurs tr rng p); [|congruence].
    rewrite Hd in Hd2. now injection Hd2. }
  exists sup, tr, y, p, d, pc. repeat split; try assumption.
  rewrite <- Hev. exact Hs'.
Qed.

(** X7: the events of a resolved round tell what its row records. There
    are three to five of them; the demand is always reported; a stockout is
    reported exactly when units of demand were left unmet, with their
    number, and the full service otherwise, with the units sold; a damage
    event carries the units lost and received of the row; and the transport
    cost of the row includes the disruption fee exactly when a disruption is
    reported. *)
Theorem events_match_the_row sn q tn rng s s' :
  simulate_round sn q tn rng s = (Return tt, s') ->
  exists row transporter,
    history s' = history s ++ [row]
    /\ get_transport_details tn = Return transporter
    /\ (3 <= List.length (round_events s') <= 5)%nat
    /\ In (DemandThisMonth (Row.Demand row)) (round_events s')
    /\ (forall u, In (Stockout u) (round_events s')
                  <-> u = Row.Stockout_Units row /\ 0 < u)
    /\ (forall n, In (AllDemandMet n) (round_events s')
                  <-> n = Row.Sold row /\ Row.Stockout_Units row = 0)
    /\ (forall lost name received,
           In (TransportDamage lost name received) (round_events s') ->
           name = tn /\ received = Row.Received row
           /\ lost = Row.Procured row - Row.Received row)
    /\ (forall fee name,
           In (TransportDisruption fee name) (round_events s') ->
           name = tn /\ fee = Transporter.disruption_fee transporter
           /\ Row.Transport_Cost row
              = Row.Procured row * Transporter.cost transporter + fee)
    /\ ((forall fee name, ~ In (TransportDisruption fee name) (round_events s')) ->
        Row.Transport_Cost row = Row.Procured row * Transporter.cost transporter).
Proof.
  intros H.
  destruct (resolved_round_report _ _ _ _ _ _ H)
    as (sup & tr & y & p & d & pc & _ & Htr & _ & ->).
  destruct s as [r c i sa t g m h ev].
  unfold settled, round_report, transport_cost_of. session_cbv.
  eexists. exists tr. split; [reflexivity|]. split; [exact Htr|].
  cbn [Row.Demand Row.Sold Row.Received Row.Procured Row.Stockout_Units
       Row.Transport_Cost].
  destruct (PyFloat.ltb y (lit 1 1));
    destruct (PyFloat.ltb (disruption_random rng) (Transporter.disruption_chance tr));
    destruct (damage_occurs tr rng p);
    match goal with
    | |- context [0 <? ?u] => destruct (Z.ltb_spec 0 u)
    end;
    cbn [app List.length In];
    repeat split; intros;
    repeat match goal with
           | Hor : _ \/ _ |- _ => destruct Hor
           | Hand : _ /\ _ |- _ => destruct Hand
           | Heq : _ = _ :> event |- _ => first [discriminate Heq | injection Heq as ? ? ? | injection Heq as ? ? | injection Heq as ?]
           | Hf : False |- _ => destruct Hf
           end;
    subst; try lia; try reflexivity; auto 8.
  all: try (exfalso; eapply H1; cbn [In]; eauto 8).
Qed.

(** X8: a round never has both unmet demand and stock left over. The units
    sold and the units unmet add up to the demand; when some demand is unmet
    the ending inventory is zero and no holding cost is charged, and when
    stock is left no stockout cost is charged. *)
Theorem stockout_leaves_no_stock sn q tn rng s s' :
  simulate_round sn q tn rng s = (Return tt, s') ->
  exists row,
    history s' = history s ++ [row]
    /\ 0 <= Row.Stockout_Units row
    /\ Row.Sold row + Row.Stockout_Units row = Row.Demand row
    /\ (0 < Row.Stockout_Units row ->
        Row.Inventory row = 0 /\ Row.Holding_Cost row = 0 /\ inventory s' = 0)
    /\ (0 < Row.Inventory row ->
        Row.Stockout_Units row = 0 /\ Row.Stockout_Cost row = 0).
Proof.
  intros H. destruct (resolved_round _ _ _ _ _ _ H)
    as (sup & tr & y & p & d & _ & _ & _ & _ & _ & ->).
  destruct s as [r c i sa t g m h ev].
  unfold settled. session_cbv. eexists. split; [reflexivity|].
  cbn [Row.Demand Row.Sold Row.Stockout_Units Row.Inventory Row.Holding_Cost
       Row.Stockout_Cost].
  unfold HOLDING_COST_PER_UNIT, STOCKOUT_PENALTY_PER_UNIT.
  repeat split; intros; lia.
Qed.

(** X9: from a satisfaction within [0,100], a round that meets all the
    demand raises the satisfaction by 5, up to 100 at most, and a round with
    unmet demand lowers it by twice the unmet units, down to 0 at least; so
    the satisfaction never falls in a round of full service and never rises
    in a round with a stockout. *)
Theorem satisfaction_follows_service sn q tn rng s s' :
  simulate_round sn q tn rng s = (Return tt, s') ->
  0 <= satisfaction s <= 100 ->
  exists row,
    history s' = history s ++ [row]
    /\ (Row.Stockout_Units row = 0 ->
        satisfaction s' = Z.min 100 (satisfaction s + 5)
        /\ satisfaction s <= satisfaction s')
    /\ (0 < Row.Stockout_Units row ->
        satisfaction s' = Z.max 0 (satisfaction s - 2 * Row.Stockout_Units row)
        /\ satisfaction s' <= satisfaction s
        /\ (0 < satisfaction s -> satisfaction s' < satisfaction s)).
Proof.
  intros H. destruct (resolved_round _ _ _ _ _ _ H)
    as (sup & tr & y & p & d & _ & _ & _ & _ & _ & ->).
  destruct s as [r c i sa t g m h ev].
  unfold settled. session_cbv. intros Hsat.
  eexists. split; [reflexivity|]. cbn [Row.Stockout_Units].
  match goal with
  | |- context [0 <? ?u] => destruct (Z.ltb_spec 0 u)
  end; repeat split; intros; lia.
Qed.


Lemma full_yield_products_exact : forallb product_exact quantities = true.
Proof. vm_compute. reflexivity. Qed.

(** X11: Alpha Goods always delivers the whole order: for every quantity of
    the number input, whatever the draws, the round procures exactly the
    quantity ordered and pays 20 per unit for it. *)
Theorem Alpha_Goods_delivers_in_full q tn rng s s' :
  quantity_min_value <= q <= quantity_max_value ->
  simulate_round Alpha_Goods q tn rng s = (Return tt, s') ->
  exists row,
    history s' = history s ++ [row]
    /\ Row.Procured row = q
    /\ Row.Sourcing_Cost row = q * 20.
Proof.
  intros Hq H. destruct (resolved_round _ _ _ _ _ _ H)
    as (sup & tr & y & p & d & Hsup & _ & Hy & Hp & _ & ->).
  injection Hsup as <-. apply choices_In in Hy.
  destruct Hy as [<-|[]].
  pose proof full_yield_products_exact as Hall.
  rewrite forallb_forall in Hall. specialize (Hall q (In_quantities _ Hq)).
  unfold product_exact in Hall.
  change (Supplier.yield_percentages (Supplier.Build 20 [lit 1 1] [lit 1 1]))
    with [lit 1 1] in Hp.
  simpl nth in Hp. rewrite Hp in Hall. apply Z.eqb_eq in Hall. subst p.
  destruct s as [r c i sa t g m h ev].
  unfold settled. session_cbv. eexists. split; [reflexivity|].
  split; reflexivity.
Qed.

(** ** The books of a session *)

Lemma column_sum_app f h row :
  column_sum f (h ++ [row]) = column_sum f h + f row.
Proof.
  unfold column_sum. induction h as [|r h IH]; simpl; [lia|].
  rewrite IH. lia.
Qed.

Lemma latest_app h row : latest (h ++ [row]) = Some row.
Proof. unfold latest. rewrite rev_unit. reflexivity. Qed.

Lemma books_balance_round sn q tn rng s o s' :
  simulate_round sn q tn rng s = (o, s') ->
  books_balance s -> books_balance s'.
Proof.
  intros H.
  destruct (simulate_round_cases _ _ _ _ _ _ _ H)
    as [(e & _ & ->)|(_ & sup & tr & y & p & d & _ & _ & _ & _ & _ & ->)].
  - destruct s. exact (fun Hb => Hb).
  - destruct s as [r c i sa t g m h ev].
    unfold books_balance, settled. session_cbv.
    intros (Ht & Hc & _).
    rewrite !column_sum_app, latest_app.
    cbn [Row.Round_Total_Cost Row.Revenue Row.Cash Row.Inventory
         Row.Satisfaction].
    repeat split; lia.
Qed.

(** X13: the books always balance. In every state reachable from the
    initial state by calls of [simulate_round], returning or raising, the
    accumulated costs are the sum of the round total costs of the history,
    the cash is the initial cash plus the revenues minus the total costs of
    the history, and the cash, inventory and satisfaction of the state are
    those of the latest row (the initial ones when there is none). *)
Theorem books_always_balance s :
  reachable s -> books_balance s.
Proof.
  induction 1 as [|s t o s' _ IH Hstep].
  - unfold books_balance. cbn. repeat split; reflexivity.
  - exact (books_balance_round _ _ _ _ _ _ _ Hstep IH).
Qed.

Lemma stock_and_satisfaction_round sn q tn rng s o s' :
  simulate_round sn q tn rng s = (o, s') ->
  0 <= inventory s /\ 0 <= satisfaction s <= 100 ->
  0 <= inventory s' /\ 0 <= satisfaction s' <= 100.
Proof.
  intros H.
  destruct (simulate_round_cases _ _ _ _ _ _ _ H)
    as [(e & _ & ->)|(_ & sup & tr & y & p & d & _ & _ & _ & _ & _ & ->)].
  - destruct s. exact (fun Hb => Hb).
  - destruct s as [r c i sa t g m h ev].
    unfold settled. session_cbv. intros _. lia.
Qed.

(** X14: in every state reachable from the initial state by calls of
    [simulate_round], whatever the decisions (negative quantities included)
    and the draws, the inventory is not negative and the satisfaction lies
    in [0,100]. *)
Theorem stock_and_satisfaction_in_range s :
  reachable s -> 0 <= inventory s /\ 0 <= satisfaction s <= 100.
Proof.
  induction 1 as [|s t o s' _ IH Hstep].
  - cbn. unfold INITIAL_INVENTORY, INITIAL_SATISFACTION. lia.
  - exact (stock_and_satisfaction_round _ _ _ _ _ _ _ Hstep IH).
Qed.

(** ** Runs of the script *)

(** What a run of the script does to the stored state: nothing, a reset, or
    one call of [simulate_round] on a game that is not over. *)
Lemma script_step ev rng s :
  snd (script ev rng (Some s)) = s
  \/ snd (script ev rng (Some s)) = initial_state
  \/ (game_over s = false
      /\ exists sn q tn o,
          ev = SubmitDecisions sn q tn
          /\ simulate_round sn q tn rng s
             = (o, snd (script ev rng (Some s)))).
Proof.
  unfold script. cbv beta iota zeta delta [bind lift read ret].
  destruct (game_over s) eqn:Hover.
  - destruct (game_over_screen s); [|now left].
    destruct ev; [now left | | now left].
    right. left. cbv beta iota zeta delta [initialize_game bind assign].
    apply show_keeps_state.
  - destruct ev as [| |sn q tn]; [now left | now left |].
    right. right. split; [reflexivity|]. exists sn, q, tn.
    destruct (simulate_round sn q tn rng s) as [[[]|e] s1] eqn:Hrun.
    + exists (Return tt). split; [reflexivity|].
      f_equal. symmetry. apply show_keeps_state.
    + exists (Raise e). split; reflexivity.
Qed.

Lemma script_first_state ev rng :
  script ev rng None = script ev rng (Some initial_state).
Proof. reflexivity. Qed.

Lemma history_in_order_round sn q tn rng s o s' :
  game_over s = false ->
  simulate_round sn q tn rng s = (o, s') ->
  history_in_order s -> history_in_order s'.
Proof.
  intros Hover H.
  destruct (simulate_round_cases _ _ _ _ _ _ _ H)
    as [(e & _ & ->)|(_ & sup & tr & y & p & d & _ & _ & _ & _ & _ & ->)].
  - destruct s. exact (fun Hb => Hb).
  - destruct s as [r c i sa t g m h ev]. simpl in Hover. subst g.
    unfold history_in_order, settled, months. session_cbv.
    unfold MAX_ROUNDS. intros (Hm & Hl & Hr).
    rewrite length_app, map_app, Nat.add_1_r, seq_S, map_app, <- Hm.
    cbn [map List.length Row.Round].
    split; [f_equal; f_equal; lia|].
    repeat match goal with
           | |- context [?a <=? ?b] => destruct (Z.leb_spec a b)
           end;
      cbn [negb]; lia.
Qed.

Lemma script_history_in_order s :
  script_reachable s -> history_in_order s.
Proof.
  intros H.
  assert (Hinit : history_in_order initial_state).
  { unfold history_in_order, MAX_ROUNDS. cbn. repeat split; lia. }
  assert (Hstep : forall ev rng s0,
             history_in_order s0 ->
             history_in_order (snd (script ev rng (Some s0)))).
  { intros ev rng s0 H0.
    destruct (script_step ev rng s0)
      as [->|[->|(Hover & sn & q & tn & o & _ & Hrun)]];
      [exact H0 | exact Hinit |].
    exact (history_in_order_round _ _ _ _ _ _ _ Hover Hrun H0). }
  induction H as [ev rng|s ev rng _ IH].
  - rewrite script_first_state. apply Hstep, Hinit.
  - apply Hstep, IH.
Qed.

(** X16: through the script, the history has one row per month played,
    numbered 1, 2, 3, ... in order, and never more than 12: in every state
    the script can leave, the number of rows is the round counter when the
    game is over and one less while it runs, and the counter lies between 1
    and 12. A session with 12 rows is over: no thirteenth month is played. *)
Theorem history_lists_the_months s :
  script_reachable s ->
  history_in_order s
  /\ (List.length (history s) <= 12)%nat
  /\ (List.length (history s) = 12%nat -> game_over s = true).
Proof.
  intros H. pose proof (script_history_in_order s H) as Hord.
  split; [exact Hord|].
  destruct Hord as (_ & Hl & Hr). unfold MAX_ROUNDS in Hr.
  destruct (game_over s); split; intros; try reflexivity; lia.
Qed.

(** X17: a decision submitted on a running game is resolved by exactly one
    call of [simulate_round]: the script leaves the state that call leaves,
    and then shows the decisions of the next month when the game goes on,
    and the game over screen, with the message and the score of the new
    state, when the round ended the game. *)
Theorem submitted_decision_plays_one_round sn q tn rng s s' :
  game_over s = false ->
  simulate_round sn q tn rng s = (Return tt, s') ->
  snd (script (SubmitDecisions sn q tn) rng (Some s)) = s'
  /\ fst (script (SubmitDecisions sn q tn) rng (Some s))
     = (if game_over s'
        then let? score := final_score s' in
             Return (GameOverScreen (game_over_message s') score)
        else Return (DecisionScreen (round s'))).
Proof.
  intros Hover Hrun.
  assert (Hrows : exists row h, history s' = row :: h).
  { destruct (simulate_round_cases _ _ _ _ _ _ _ Hrun)
      as [(e & He & _)|(_ & sup & tr & y & p & d & _ & _ & _ & _ & _ & ->)];
      [discriminate|].
    destruct s as [r c i sa t g m h ev]. unfold settled. session_cbv.
    destruct h as [|row h]; cbn [app]; eauto. }
  destruct Hrows as (row & h & Hrows).
  unfold script, show, game_over_screen.
  cbv beta iota zeta delta [bind lift read ret]. rewrite Hover, Hrun.
  destruct (game_over s'); [|split; reflexivity].
  rewrite Hrows. cbn [detailed_history].
  destruct (final_score s'); split; reflexivity.
Qed.

(** ** The sessions of a player *)

Lemma form_reachable_script s : form_reachable s -> script_reachable s.
Proof.
  induction 1; [apply script_first_run | now apply script_next_run].
Qed.

Lemma possible_demand rng :
  possible_draws rng = true -> 80 <= demand_randint rng <= 220.
Proof.
  unfold possible_draws, DEMAND_RANGE. cbn [fst snd]. intros H.
  apply andb_prop in H as [H Hhi]. apply andb_prop in H as [_ Hlo].
  apply Z.leb_le in Hhi, Hlo. lia.
Qed.

(** The quantities of a round the form submitted. *)
Lemma form_quantities sn q tn rng sup tr y p d :
  quantity_min_value <= q <= quantity_max_value ->
  get_supplier_details sn = Return sup ->
  get_transport_details tn = Return tr ->
  choices (Supplier.yield_percentages sup) (Supplier.yield_weights sup)
          (choices_random rng) = Return y ->
  int_of_product q y = Return p ->
  (if damage_occurs tr rng p
   then int_of_product p (Transporter.damage_percentage tr) = Return d
   else d = 0) ->
  0 <= p <= q /\ 0 <= d <= p.
Proof.
  intros Hq Hsup Htr Hy Hp Hd.
  destruct (catalog_product q y) as (p' & Hp' & Hpr);
    [eapply yield_in_catalog; eauto using choices_In | exact Hq |].
  rewrite Hp in Hp'. injection Hp' as <-. split; [exact Hpr|].
  destruct (damage_occurs tr rng p); [|lia].
  destruct (catalog_product p (Transporter.damage_percentage tr))
    as (d' & Hd' & Hdr); [eapply damage_in_catalog; eauto | |].
  - unfold quantity_min_value, quantity_max_value in *. lia.
  - rewrite Hd in Hd'. injection Hd' as <-. exact Hdr.
Qed.

Lemma stock_within_orders_round sn q tn rng s o s' :
  form_can_submit (SubmitDecisions sn q tn) ->
  possible_draws rng = true ->
  simulate_round sn q tn rng s = (o, s') ->
  stock_within_orders s -> stock_within_orders s'.
Proof.
  intros (_ & Hq & _) Hrng H.
  pose proof (possible_demand _ Hrng) as Hdem.
  destruct (simulate_round_cases _ _ _ _ _ _ _ H)
    as [(e & _ & ->)|(_ & sup & tr & y & p & d & Hsup & Htr & Hy & Hp & Hd & ->)].
  - destruct s. exact (fun Hb => Hb).
  - destruct (form_quantities _ _ _ _ _ _ _ _ _ Hq Hsup Htr Hy Hp Hd)
      as (Hpr & Hdr).
    pose proof (get_supplier_details_ok _ _ Hsup) as Hsok.
    pose proof (get_transport_details_ok _ _ Htr) as Htok.
    assert (Hp0 : 0 <= p) by lia.
    pose proof (transport_cost_of_nonneg _ rng _ Htok Hp0) as Htc.
    unfold supplier_ok in Hsok. apply andb_prop in Hsok as [Hsok _].
    apply andb_prop in Hsok as [Hcost _]. apply Z.leb_le in Hcost.
    destruct s as [r c i sa t g m h ev].
    unfold stock_within_orders, settled. session_cbv.
    unfold INITIAL_INVENTORY, quantity_min_value, quantity_max_value,
      STOCKOUT_PENALTY_PER_UNIT, HOLDING_COST_PER_UNIT in *.
    rewrite length_app. cbn [List.length]. intros (Hi & Ht).
    assert (Hsc : 0 <= p * Supplier.cost sup)
      by (apply Z.mul_nonneg_nonneg; lia).
    split; lia.
Qed.

(** X18: in the sessions a player can have, the inventory is never negative
    and never exceeds the initial 100 units plus 1000 units per month
    played, 12100 at most, and the accumulated costs are never negative. *)
Theorem player_stock_is_bounded s :
  form_reachable s ->
  stock_within_orders s /\ 0 <= inventory s <= 12100.
Proof.
  intros H.
  assert (Hinit : stock_within_orders initial_state).
  { unfold stock_within_orders, initial_state, INITIAL_INVENTORY, quantity_max_value.
    cbn [inventory total_costs_accumulated history List.length]. lia. }
  assert (Hstep : forall ev rng s0,
             form_can_submit ev -> possible_draws rng = true ->
             stock_within_orders s0 ->
             stock_within_orders (snd (script ev rng (Some s0)))).
  { intros ev rng s0 Hev Hrng H0.
    destruct (script_step ev rng s0)
      as [->|[->|(Hover & sn & q & tn & o & -> & Hrun)]];
      [exact H0 | exact Hinit |].
    exact (stock_within_orders_round _ _ _ _ _ _ _ Hev Hrng Hrun H0). }
  assert (Hs : stock_within_orders s).
  { induction H as [ev rng Hev Hrng|s ev rng _ IH Hev Hrng].
    - rewrite script_first_state. now apply Hstep.
    - now apply Hstep. }
  split; [exact Hs|].
  assert (Hlen : (List.length (history s) <= 12)%nat).
  { destruct (script_history_in_order s (form_reachable_script s H))
      as (_ & Hl & Hr).
    unfold MAX_ROUNDS in Hr. destruct (game_over s); lia. }
  destruct Hs as (Hi & _).
  unfold INITIAL_INVENTORY, quantity_max_value in Hi. lia.
Qed.

(** The prices of the catalog. *)
Lemma SUPPLIERS_prices :
  forallb (fun kv => supplier_price_ok (snd kv)) SUPPLIERS = true.
Proof. reflexivity. Qed.

Lemma TRANSPORTERS_prices :
  forallb (fun kv => transporter_price_ok (snd kv)) TRANSPORTERS = true.
Proof. reflexivity. Qed.

Lemma get_supplier_details_price name sup :
  get_supplier_details name = Return sup -> Supplier.cost sup <= 20.
Proof.
  intros H. apply getitem_In in H.
  pose proof SUPPLIERS_prices as Hall. rewrite forallb_forall in Hall.
  specialize (Hall _ H). cbn [snd] in Hall. now apply Z.leb_le in Hall.
Qed.

Lemma get_transport_details_price name tr :
  get_transport_details name = Return tr ->
  Transporter.cost tr <= 8 /\ Transporter.disruption_fee tr <= 200.
Proof.
  intros H. apply getitem_In in H.
  pose proof TRANSPORTERS_prices as Hall. rewrite forallb_forall in Hall.
  specialize (Hall _ H). cbn [snd] in Hall.
  apply andb_prop in Hall as [Hc Hf]. apply Z.leb_le in Hc, Hf. now split.
Qed.

Lemma transport_cost_of_le tr rng p :
  0 <= p -> Transporter.cost tr <= 8 -> Transporter.disruption_fee tr <= 200 ->
  transport_cost_of tr rng p <= 8 * p + 200.
Proof.
  intros Hp Hc Hf. unfold transport_cost_of.
  destruct (PyFloat.ltb _ _); nia.
Qed.

(** A month of a player's session costs at most 59000 and brings at most
    11000. *)
Lemma within_budget_round sn q tn rng s o s' :
  form_can_submit (SubmitDecisions sn q tn) ->
  possible_draws rng = true ->
  simulate_round sn q tn rng s = (o, s') ->
  (List.length (history s) <= 11)%nat ->
  stock_within_orders s ->
  within_budget s -> within_budget s'.
Proof.
  intros (_ & Hq & _) Hrng H Hlen Hstock.
  pose proof (possible_demand _ Hrng) as Hdem.
  destruct (simulate_round_cases _ _ _ _ _ _ _ H)
    as [(e & _ & ->)|(_ & sup & tr & y & p & d & Hsup & Htr & Hy & Hp & Hd & ->)].
  - destruct s. exact (fun Hb => Hb).
  - destruct (form_quantities _ _ _ _ _ _ _ _ _ Hq Hsup Htr Hy Hp Hd)
      as (Hpr & Hdr).
    pose proof (get_supplier_details_ok _ _ Hsup) as Hsok.
    pose proof (get_transport_details_ok _ _ Htr) as Htok.
    pose proof (get_supplier_details_price _ _ Hsup) as Hsp.
    pose proof (get_transport_details_price _ _ Htr) as (Htp & Htf).
    assert (Hp0 : 0 <= p) by lia.
    pose proof (transport_cost_of_nonneg _ rng _ Htok Hp0) as Htc.
    pose proof (transport_cost_of_le tr rng p Hp0 Htp Htf) as Htc'.
    unfold supplier_ok in Hsok. apply andb_prop in Hsok as [Hsok _].
    apply andb_prop in Hsok as [Hcost _]. apply Z.leb_le in Hcost.
    destruct s as [r c i sa t g m h ev].
    revert Hstock Hlen.
    unfold stock_within_orders, within_budget, settled. session_cbv.
    unfold INITIAL_INVENTORY, INITIAL_CASH, quantity_min_value,
      quantity_max_value, STOCKOUT_PENALTY_PER_UNIT, HOLDING_COST_PER_UNIT,
      SELLING_PRICE_PER_UNIT in *.
    rewrite length_app. cbn [List.length]. intros (Hi & _) Hlen (Ht & Hc & Hs).
    assert (Hsc : 0 <= p * Supplier.cost sup <= 20000) by nia.
    split; [lia|]. split; lia.
Qed.

(** In the sessions a player can have, the accumulated costs lie between 0
    and 708000 and the cash between -658000 and 182000: figures well within
    the range where the score is accurate. *)
Lemma player_within_budget s :
  form_reachable s -> within_budget s /\ figures_in_range s.
Proof.
  intros H.
  assert (Hlen : (List.length (history s) <= 12)%nat).
  { destruct (script_history_in_order s (form_reachable_script s H))
      as (_ & Hl & Hr).
    unfold MAX_ROUNDS in Hr. destruct (game_over s); lia. }
  assert (Hb : within_budget s).
  { clear Hlen.
    assert (Hinit : within_budget initial_state).
    { unfold within_budget, initial_state, INITIAL_CASH, INITIAL_SATISFACTION.
      cbn [cash total_costs_accumulated satisfaction history List.length]. lia. }
    assert (Hinit' : stock_within_orders initial_state).
    { unfold stock_within_orders, initial_state, INITIAL_INVENTORY,
        quantity_max_value.
      cbn [inventory total_costs_accumulated history List.length]. lia. }
    assert (Hord0 : history_in_order initial_state).
    { unfold history_in_order, MAX_ROUNDS. cbn. repeat split; lia. }
    assert (Hstep : forall ev rng s0,
               form_can_submit ev -> possible_draws rng = true ->
               history_in_order s0 ->
               stock_within_orders s0 /\ within_budget s0 ->
               stock_within_orders (snd (script ev rng (Some s0)))
               /\ within_budget (snd (script ev rng (Some s0)))).
    { intros ev rng s0 Hev Hrng Hord (Hst & Hbu).
      destruct (script_step ev rng s0)
        as [->|[->|(Hover & sn & q & tn & o & -> & Hrun)]];
        [now split | now split |].
      split; [exact (stock_within_orders_round _ _ _ _ _ _ _ Hev Hrng Hrun Hst)|].
      apply (within_budget_round _ _ _ _ _ _ _ Hev Hrng Hrun); try assumption.
      destruct Hord as (_ & Hl & Hr). rewrite Hover in Hl.
      unfold MAX_ROUNDS in Hr. lia. }
    assert (Hboth : stock_within_orders s /\ within_budget s).
    { induction H as [ev rng Hev Hrng|s ev rng Hs IH Hev Hrng].
      - rewrite script_first_state. now apply Hstep.
      - apply Hstep;
          [assumption | assumption
           | exact (script_history_in_order s (form_reachable_script s Hs))
           | exact IH]. }
    exact (proj2 Hboth). }
  split; [exact Hb|].
  destruct Hb as (Ht & Hc & Hs). unfold INITIAL_CASH in Hc.
  unfold figures_in_range. lia.
Qed.

(** Play Again on a game over screen that renders. *)
Lemma play_again_resets rng s :
  game_over s = true -> figures_in_range s -> history s <> [] ->
  script PlayAgain rng (Some s) = (Return (DecisionScreen 1), initial_state).
Proof.
  intros Hover Hrange Hrows.
  destruct (final_score_accurate s Hrange) as (score & Hscore & _).
  unfold script, game_over_screen.
  cbv beta iota zeta delta [bind lift read ret]. rewrite Hover, Hscore.
  cbn [obind]. destruct (history s) as [|row h]; [contradiction|].
  reflexivity.
Qed.

(** X15: Play Again restarts the game. In every session a player can have,
    once the game is over the game over screen renders without an exception
    (the score is computed and the history has rows for its table), and a
    run of the script with the Play Again button resets every field of the
    session state to its initial value, empties the history and the events,
    and shows the decisions of month 1. *)
Theorem play_again_restarts rng s :
  form_reachable s ->
  game_over s = true ->
  script PlayAgain rng (Some s) = (Return (DecisionScreen 1), initial_state).
Proof.
  intros H Hover.
  apply play_again_resets; [exact Hover | exact (proj2 (player_within_budget s H)) |].
  destruct (script_history_in_order s (form_reachable_script s H))
    as (_ & Hl & Hr).
  rewrite Hover in Hl. intros Hnil. rewrite Hnil in Hl. cbn in Hl. lia.
Qed.

(** ** The score of a finished session *)


Lemma suggestions_exact : forallb suggestion_exact inventories = true.
Proof. vm_compute. reflexivity. Qed.

(** X19: the order quantity the form suggests is always acceptable to its
    number input. For every inventory a player can hold (0 to 12100), the
    float computation of the suggestion returns, gives exactly the shortfall
    of the stock to a demand of 150, [max(0, 150 - inventory)], and so lies
    between 0 and 150, within the limits 0 and 1000 of the input. *)
Theorem suggested_quantity_within_limits inventory_now :
  0 <= inventory_now <= 12100 ->
  exists v,
    suggested_quantity inventory_now = Return v
    /\ v = Z.max 0 (150 - inventory_now)
    /\ quantity_min_value <= v <= quantity_max_value.
Proof.
  intros Hi. pose proof suggestions_exact as Hall.
  rewrite forallb_forall in Hall.
  assert (Hin : In inventory_now inventories).
  { unfold inventories. apply in_map_iff. exists (Z.to_nat inventory_now).
    split; [lia|]. apply in_seq. lia. }
  specialize (Hall _ Hin). unfold suggestion_exact in Hall.
  destruct (suggested_quantity inventory_now) as [v|]; [|discriminate].
  apply Z.eqb_eq in Hall. exists v. split; [reflexivity|]. split; [exact Hall|].
  unfold quantity_min_value, quantity_max_value. lia.
Qed.

Lemma verdict_matches_round sn q tn rng s o s' :
  game_over s = false ->
  simulate_round sn q tn rng s = (o, s') ->
  verdict_matches s -> verdict_matches s'.
Proof.
  intros Hover H.
  destruct (simulate_round_cases _ _ _ _ _ _ _ H)
    as [(e & _ & ->)|(_ & sup & tr & y & p & d & _ & _ & _ & _ & _ & ->)].
  - destruct s. exact (fun Hb => Hb).
  - destruct s as [r c i sa t g m h ev]. simpl in Hover. subst g.
    unfold verdict_matches, settled. session_cbv.
    intros (_ & _ & Hm).
    repeat match goal with
           | |- context [?a <=? ?b] => destruct (Z.leb_spec a b)
           end;
      repeat split; intros; try assumption; try reflexivity; lia.
Qed.

(** X20: through the script the verdict always matches the state. While
    the game runs, the cash is above the bankruptcy threshold, the
    satisfaction above the low-satisfaction threshold and no game over
    message is set; once the game is over, the message is the bankruptcy one
    when the cash is at or below its threshold, else the customer exodus one
    (quoting the satisfaction of the state) when the satisfaction is at or
    below its threshold, else the end of term one, and then the round
    counter has reached [MAX_ROUNDS]. *)
Theorem verdict_always_matches s :
  script_reachable s -> verdict_matches s.
Proof.
  intros H.
  assert (Hinit : verdict_matches initial_state).
  { unfold verdict_matches, initial_state, BANKRUPTCY_THRESHOLD,
      LOW_SATISFACTION_THRESHOLD, INITIAL_CASH, INITIAL_SATISFACTION.
    cbn [game_over cash satisfaction game_over_message]. repeat split; lia. }
  assert (Hstep : forall ev rng s0,
             verdict_matches s0 ->
             verdict_matches (snd (script ev rng (Some s0)))).
  { intros ev rng s0 H0.
    destruct (script_step ev rng s0)
      as [->|[->|(Hover & sn & q & tn & o & _ & Hrun)]];
      [exact H0 | exact Hinit |].
    exact (verdict_matches_round _ _ _ _ _ _ _ Hover Hrun H0). }
  induction H as [ev rng|s ev rng _ IH].
  - rewrite script_first_state. apply Hstep, Hinit.
  - apply Hstep, IH.
Qed.

(** ** Worked examples of the further properties *)

Lemma unknown_supplier_raises_witness :
  ~ In Delta_Supply (keys SUPPLIERS)
  /\ simulate_round Delta_Supply 150 Standard_Shipping (quiet_draws 150)
                    initial_state
     = (Raise (KeyError Delta_Supply), set_round_events [] initial_state).
Proof.
  assert (Hn : ~ In Delta_Supply (keys SUPPLIERS))
    by (simpl; intros [H|[H|[H|[]]]]; discriminate H).
  split; [exact Hn|].
  exact (unknown_supplier_raises Delta_Supply 150 Standard_Shipping
                                 (quiet_draws 150) initial_state Hn).
Defined.

Lemma unknown_transport_raises_witness :
  In Alpha_Goods (keys SUPPLIERS)
  /\ ~ In Delta_Supply (keys TRANSPORTERS)
  /\ simulate_round Alpha_Goods 150 Delta_Supply (quiet_draws 150) initial_state
     = (Raise (KeyError Delta_Supply), set_round_events [] initial_state).
Proof.
  assert (Hs : In Alpha_Goods (keys SUPPLIERS)) by (simpl; left; reflexivity).
  assert (Hn : ~ In Delta_Supply (keys TRANSPORTERS))
    by (simpl; intros [H|[H|[H|[]]]]; discriminate H).
  split; [exact Hs|]. split; [exact Hn|].
  exact (unknown_transport_raises Alpha_Goods 150 Delta_Supply
                                  (quiet_draws 150) initial_state Hs Hn).
Defined.

Lemma raise_changes_no_figure_witness :
  exists s',
    simulate_round Delta_Supply 150 Standard_Shipping (quiet_draws 150)
                   strained_state
    = (Raise (KeyError Delta_Supply), s')
    /\ round s' = round strained_state
    /\ cash s' = cash strained_state
    /\ inventory s' = inventory strained_state
    /\ satisfaction s' = satisfaction strained_state
    /\ total_costs_accumulated s' = total_costs_accumulated strained_state
    /\ game_over s' = game_over strained_state
    /\ game_over_message s' = game_over_message strained_state
    /\ history s' = history strained_state.
Proof.
  eexists. split; [vm_compute; reflexivity|].
  apply (raise_changes_no_figure Delta_Supply 150 Standard_Shipping
                                 (quiet_draws 150) strained_state
                                 (KeyError Delta_Supply)).
  vm_compute. reflexivity.
Defined.

Lemma game_over_is_final_witness :
  game_over closing_state = true
  /\ exists s',
      simulate_round Alpha_Goods 150 Standard_Shipping (quiet_draws 150)
                     closing_state
      = (Return tt, s')
      /\ game_over s' = true /\ round s' = round closing_state.
Proof.
  split; [reflexivity|]. eexists. split; [vm_compute; reflexivity|].
  apply (game_over_is_final Alpha_Goods 150 Standard_Shipping (quiet_draws 150)
                            closing_state (Return tt));
    [reflexivity | vm_compute; reflexivity].
Defined.

Lemma events_match_the_row_witness :
  exists s',
    simulate_round Beta_Stock 90 Budget_Haul (disrupted_draws 220) initial_state
    = (Return tt, s')
    /\ exists row transporter,
        history s' = history initial_state ++ [row]
        /\ get_transport_details Budget_Haul = Return transporter
        /\ (3 <= List.length (round_events s') <= 5)%nat
        /\ In (DemandThisMonth (Row.Demand row)) (round_events s')
        /\ (forall u, In (Stockout u) (round_events s')
                      <-> u = Row.Stockout_Units row /\ 0 < u)
        /\ (forall n, In (AllDemandMet n) (round_events s')
                      <-> n = Row.Sold row /\ Row.Stockout_Units row = 0)
        /\ (forall lost name received,
               In (TransportDamage lost name received) (round_events s') ->
               name = Budget_Haul /\ received = Row.Received row
               /\ lost = Row.Procured row - Row.Received row)
        /\ (forall fee name,
               In (TransportDisruption fee name) (round_events s') ->
               name = Budget_Haul /\ fee = Transporter.disruption_fee transporter
               /\ Row.Transport_Cost row
                  = Row.Procured row * Transporter.cost transporter + fee)
        /\ ((forall fee name,
                ~ In (TransportDisruption fee name) (round_events s')) ->
            Row.Transport_Cost row
            = Row.Procured row * Transporter.cost transporter).
Proof.
  eexists. split; [vm_compute; reflexivity|].
  apply (events_match_the_row Beta_Stock 90 Budget_Haul (disrupted_draws 220)
                              initial_state).
  vm_compute. reflexivity.
Defined.

Lemma stockout_leaves_no_stock_witness :
  exists s',
    simulate_round Gamma_Source 0 Budget_Haul (quiet_draws 220) initial_state
    = (Return tt, s')
    /\ exists row,
        history s' = history initial_state ++ [row]
        /\ 0 <= Row.Stockout_Units row
        /\ Row.Sold row + Row.Stockout_Units row = Row.Demand row
        /\ (0 < Row.Stockout_Units row ->
            Row.Inventory row = 0 /\ Row.Holding_Cost row = 0
            /\ inventory s' = 0)
        /\ (0 < Row.Inventory row ->
            Row.Stockout_Units row = 0 /\ Row.Stockout_Cost row = 0).
Proof.
  eexists. split; [vm_compute; reflexivity|].
  apply (stockout_leaves_no_stock Gamma_Source 0 Budget_Haul (quiet_draws 220)
                                  initial_state).
  vm_compute. reflexivity.
Defined.

Lemma satisfaction_follows_service_witness :
  exists s',
    simulate_round Gamma_Source 0 Budget_Haul (quiet_draws 220) initial_state
    = (Return tt, s')
    /\ 0 <= satisfaction initial_state <= 100
    /\ exists row,
        history s' = history initial_state ++ [row]
        /\ (Row.Stockout_Units row = 0 ->
            satisfaction s' = Z.min 100 (satisfaction initial_state + 5)
            /\ satisfaction initial_state <= satisfaction s')
        /\ (0 < Row.Stockout_Units row ->
            satisfaction s'
            = Z.max 0 (satisfaction initial_state - 2 * Row.Stockout_Units row)
            /\ satisfaction s' <= satisfaction initial_state
            /\ (0 < satisfaction initial_state ->
                satisfaction s' < satisfaction initial_state)).
Proof.
  assert (Hsat : 0 <= satisfaction initial_state <= 100)
    by (unfold initial_state, INITIAL_SATISFACTION; simpl; lia).
  eexists. split; [vm_compute; reflexivity|]. split; [exact Hsat|].
  apply (satisfaction_follows_service Gamma_Source 0 Budget_Haul
                                      (quiet_draws 220) initial_state);
    [vm_compute; reflexivity | exact Hsat].
Defined.


Lemma Alpha_Goods_delivers_in_full_witness :
  quantity_min_value <= 1000 <= quantity_max_value
  /\ exists s',
      simulate_round Alpha_Goods 1000 Express_Freight (quiet_draws 80)
                     initial_state
      = (Return tt, s')
      /\ exists row,
          history s' = history initial_state ++ [row]
          /\ Row.Procured row = 1000
          /\ Row.Sourcing_Cost row = 1000 * 20.
Proof.
  assert (Hq : quantity_min_value <= 1000 <= quantity_max_value)
    by (unfold quantity_min_value, quantity_max_value; lia).
  split; [exact Hq|]. eexists. split; [vm_compute; reflexivity|].
  apply (Alpha_Goods_delivers_in_full 1000 Express_Freight (quiet_draws 80)
                                      initial_state _ Hq).
  vm_compute. reflexivity.
Defined.

Lemma submitted_round_resolves_witness :
  form_can_submit (SubmitDecisions Gamma_Source 1000 Express_Freight)
  /\ exists s',
      simulate_round Gamma_Source 1000 Express_Freight (disrupted_draws 150)
                     initial_state
      = (Return tt, s').
Proof.
  assert (Hf : form_can_submit (SubmitDecisions Gamma_Source 1000 Express_Freight)).
  { unfold form_can_submit, quantity_min_value, quantity_max_value. simpl.
    split; [right; right; left; reflexivity|]. split; [lia|].
    left; reflexivity. }
  split; [exact Hf|].
  exact (submitted_round_resolves Gamma_Source 1000 Express_Freight
                                  (disrupted_draws 150) initial_state Hf).
Defined.

Lemma books_always_balance_witness :
  reachable (snd (play_turn steady_turn initial_state))
  /\ books_balance (snd (play_turn steady_turn initial_state)).
Proof.
  assert (H : reachable (snd (play_turn steady_turn initial_state))).
  { apply (reachable_round initial_state steady_turn
                           (fst (play_turn steady_turn initial_state))).
    - apply reachable_initial.
    - vm_compute. reflexivity. }
  split; [exact H|].
  exact (books_always_balance _ H).
Defined.

Lemma stock_and_satisfaction_in_range_witness :
  reachable (snd (play_turn steady_turn initial_state))
  /\ 0 <= inventory (snd (play_turn steady_turn initial_state))
  /\ 0 <= satisfaction (snd (play_turn steady_turn initial_state)) <= 100.
Proof.
  assert (H : reachable (snd (play_turn steady_turn initial_state))).
  { apply (reachable_round initial_state steady_turn
                           (fst (play_turn steady_turn initial_state))).
    - apply reachable_initial.
    - vm_compute. reflexivity. }
  split; [exact H|].
  exact (stock_and_satisfaction_in_range _ H).
Defined.

(** The score of the session lost in its first month: [51092.2], that is
    [51452 + 0 * 100 - 3598 / 10], as the double nearest to it. *)
Example lost_customers_score :
  cash lost_customers = 51452
  /\ satisfaction lost_customers = 0
  /\ total_costs_accumulated lost_customers = 3598
  /\ final_score lost_customers = Return (lit 510922 10).
Proof. repeat split; vm_compute; reflexivity. Qed.


Lemma play_again_restarts_witness :
  form_reachable lost_customers
  /\ game_over lost_customers = true
  /\ history lost_customers <> []
  /\ round_events lost_customers <> []
  /\ lost_customers <> initial_state
  /\ script PlayAgain (quiet_draws 150) (Some lost_customers)
     = (Return (DecisionScreen 1), initial_state).
Proof.
  assert (H : form_reachable lost_customers).
  { apply form_first_run.
    - unfold form_can_submit, quantity_min_value, quantity_max_value. simpl.
      split; [left; reflexivity|]. split; [lia|]. left; reflexivity.
    - vm_compute. reflexivity. }
  assert (Hover : game_over lost_customers = true) by (vm_compute; reflexivity).
  split; [exact H|]. split; [exact Hover|].
  split; [vm_compute; discriminate|]. split; [vm_compute; discriminate|].
  split; [vm_compute; discriminate|].
  exact (play_again_restarts (quiet_draws 150) lost_customers H Hover).
Defined.

Lemma history_lists_the_months_witness :
  script_reachable
    (snd (script (SubmitDecisions Alpha_Goods 150 Standard_Shipping)
                 (quiet_draws 150) None))
  /\ history_in_order
       (snd (script (SubmitDecisions Alpha_Goods 150 Standard_Shipping)
                    (quiet_draws 150) None))
  /\ (List.length
        (history (snd (script (SubmitDecisions Alpha_Goods 150 Standard_Shipping)
                              (quiet_draws 150) None))) <= 12)%nat
  /\ (List.length
        (history (snd (script (SubmitDecisions Alpha_Goods 150 Standard_Shipping)
                              (quiet_draws 150) None))) = 12%nat ->
      game_over (snd (script (SubmitDecisions Alpha_Goods 150 Standard_Shipping)
                             (quiet_draws 150) None)) = true).
Proof.
  assert (H : script_reachable
                (snd (script (SubmitDecisions Alpha_Goods 150 Standard_Shipping)
                             (quiet_draws 150) None)))
    by apply script_first_run.
  split; [exact H|].
  exact (history_lists_the_months _ H).
Defined.

Lemma submitted_decision_plays_one_round_witness :
  game_over initial_state = false
  /\ exists s',
      simulate_round Gamma_Source 0 Budget_Haul (quiet_draws 220) initial_state
      = (Return tt, s')
      /\ snd (script (SubmitDecisions Gamma_Source 0 Budget_Haul)
                     (quiet_draws 220) (Some initial_state)) = s'
      /\ fst (script (SubmitDecisions Gamma_Source 0 Budget_Haul)
                     (quiet_draws 220) (Some initial_state))
         = (if game_over s'
            then let? score := final_score s' in
                 Return (GameOverScreen (game_over_message s') score)
            else Return (DecisionScreen (round s'))).
Proof.
  split; [reflexivity|]. eexists. split; [vm_compute; reflexivity|].
  apply (submitted_decision_plays_one_round Gamma_Source 0 Budget_Haul
                                            (quiet_draws 220) initial_state);
    [reflexivity | vm_compute; reflexivity].
Defined.

Lemma player_stock_is_bounded_witness :
  form_reachable
    (snd (script (SubmitDecisions Alpha_Goods 1000 Standard_Shipping)
                 (quiet_draws 80) None))
  /\ stock_within_orders
       (snd (script (SubmitDecisions Alpha_Goods 1000 Standard_Shipping)
                    (quiet_draws 80) None))
  /\ 0 <= inventory (snd (script (SubmitDecisions Alpha_Goods 1000 Standard_Shipping)
                                 (quiet_draws 80) None)) <= 12100.
Proof.
  assert (H : form_reachable
                (snd (script (SubmitDecisions Alpha_Goods 1000 Standard_Shipping)
                             (quiet_draws 80) None))).
  { apply form_first_run.
    - unfold form_can_submit, quantity_min_value, quantity_max_value. simpl.
      split; [left; reflexivity|]. split; [lia|]. right; left; reflexivity.
    - vm_compute. reflexivity. }
  split; [exact H|].
  exact (player_stock_is_bounded _ H).
Defined.

Lemma suggested_quantity_within_limits_witness :
  0 <= 100 <= 12100
  /\ exists v,
      suggested_quantity 100 = Return v
      /\ v = Z.max 0 (150 - 100)
      /\ quantity_min_value <= v <= quantity_max_value.
Proof.
  assert (Hi : 0 <= 100 <= 12100) by lia.
  split; [exact Hi|].
  exact (suggested_quantity_within_limits 100 Hi).
Defined.

Lemma verdict_always_matches_witness :
  script_reachable
    (snd (script (SubmitDecisions Gamma_Source 0 Budget_Haul)
                 (quiet_draws 220) None))
  /\ verdict_matches
       (snd (script (SubmitDecisions Gamma_Source 0 Budget_Haul)
                    (quiet_draws 220) None)).
Proof.
  assert (H : script_reachable
                (snd (script (SubmitDecisions Gamma_Source 0 Budget_Haul)
                             (quiet_draws 220) None)))
    by apply script_first_run.
  split; [exact H|].
  exact (verdict_always_matches _ H).
Defined.

(** The suggestion for the initial stock of 100 units is 50. *)
Example initial_suggestion : suggested_quantity INITIAL_INVENTORY = Return 50.
Proof. vm_compute. reflexivity. Qed.
